(** * InventoryApp: the Product entity and the InventoryManager store

    A shallow embedding of [src/InventoryApp.py].  Python objects live in a
    heap and are handled through references, so that the object a caller
    constructed and the object the store holds are the same object; the
    store's dictionary keeps Python's insertion order; exceptions and the
    lines written by [print] are explicit. *)

From Stdlib Require Import ZArith NArith Ascii String List Lia.
From Stdlib Require Import Floats.SpecFloat.
From stdpp Require Import base list.

Open Scope string_scope.
Open Scope Z_scope.

(** ** Values *)

(** A Python [float] is an IEEE 754 binary64 number: zeros, infinities,
    NaN and finite numbers, compared as IEEE 754 compares them. *)
Definition float : Type := spec_float.

(** The integer [0] a float is compared with at lines 12 and 37. *)
Definition float_zero : float := S754_zero false.

(** [x <= 0] on floats; false when [x] is NaN. *)
Definition float_le0 (x : float) : bool := SFleb x float_zero.

(** [x > 0] on floats; false when [x] is NaN. *)
Definition float_gt0 (x : float) : bool := SFltb float_zero x.

(** [not s] for a [str]: true exactly for the empty string. *)
Definition str_not (s : string) : bool :=
  match s with
  | EmptyString => true
  | String _ _ => false
  end.

(** References to heap objects. *)
Definition loc := nat.

(** The attributes of a [Product] object (lines 17-21). *)
Record Product := mkProduct {
  product_id : string;
  name : string;
  description : string;
  price : float;
  quantity : Z
}.

Definition set_name (v : string) (p : Product) : Product :=
  mkProduct (product_id p) v (description p) (price p) (quantity p).
Definition set_description (v : string) (p : Product) : Product :=
  mkProduct (product_id p) (name p) v (price p) (quantity p).
Definition set_price (v : float) (p : Product) : Product :=
  mkProduct (product_id p) (name p) (description p) v (quantity p).
Definition set_quantity (v : Z) (p : Product) : Product :=
  mkProduct (product_id p) (name p) (description p) (price p) v.

(** ** Exceptions and printed lines *)

(** The messages of the [ValueError]s the program raises; the text is kept
    as data, the interpolated values as arguments. *)
Inductive value_error :=
| IdEmpty            (* "Product ID cannot be empty."   line 9  *)
| NameEmpty          (* "Product name cannot be empty." lines 11, 32 *)
| PriceNotPositive   (* "Price must be positive."       lines 13, 38 *)
| QuantityNegative   (* "Quantity cannot be negative."  line 15 *)
| CannotStockOut (amount available : Z) (pname : string)
                     (* "Cannot stock out {abs(quantity_change)} items. Only
                        {self.quantity} items available for '{self.name}'." *)
| DigitLimit.        (* "Exceeds the limit (4300 digits) for integer string
                        conversion; use sys.set_int_max_str_digits() to
                        increase the limit": raised by the interpreter when
                        an f-string formats an [int] with more digits *)

Inductive exn :=
| ValueError (e : value_error)
| KeyError (k : string).

(** The lines written to standard output, one constructor per [print]. *)
Inductive line :=
| ErrAlreadyExists (pid : string)                 (* line 70 *)
| AddedOk (pname : string)                        (* line 73 *)
| ErrNotFound (pid : string)                      (* lines 79, 90 *)
| RemovedOk (pname pid : string)                  (* line 83 *)
| DetailsUpdated (pid : string)                   (* line 100 *)
| ErrUpdatingProduct (e : value_error)            (* line 103 *)
| StockMoved (amount : Z) (pname pid : string) (stocked_in : bool)
             (new_quantity : Z)                   (* lines 117-118 *)
| ErrUpdatingStock (e : value_error)              (* line 121 *)
| InventoryEmpty                                  (* line 128 *)
| InventoryHeader                                 (* line 130 *)
| InventoryRow (pid pname : string) (pprice : float) (pquantity : Z)
                                                  (* lines 132-133 *)
| InventoryFooter.                                (* line 134 *)

(** The names the specification gives to the failures; [Unnamed] is a
    failure it has no name for. *)
Inductive error_kind := InvalidArgument | InvalidState | Unnamed.

Definition kind_of (e : value_error) : error_kind :=
  match e with
  | IdEmpty | NameEmpty | PriceNotPositive | QuantityNegative => InvalidArgument
  | CannotStockOut _ _ _ => InvalidState
  | DigitLimit => Unnamed
  end.

(** ** Python dictionaries with string keys

    A [dict] iterates in insertion order and holds each key once. *)
Module PyDict.
Section Dict.
Context {V : Type}.

Definition t := list (string * V).

Definition empty : t := [].

(** [d.get(k)] *)
Fixpoint get (k : string) (d : t) : option V :=
  match d with
  | [] => None
  | (k', v) :: d' => if String.eqb k k' then Some v else get k d'
  end.

(** [k in d] *)
Definition contains (k : string) (d : t) : bool :=
  match get k d with
  | Some _ => true
  | None => false
  end.

(** [d[k] = v]: an existing key keeps its place, a new key goes last. *)
Fixpoint setitem (k : string) (v : V) (d : t) : t :=
  match d with
  | [] => [(k, v)]
  | (k', v') :: d' =>
      if String.eqb k k' then (k, v) :: d' else (k', v') :: setitem k v d'
  end.

(** [del d[k]], for a key that is present: the entry under [k] goes. *)
Definition delitem (k : string) (d : t) : t :=
  List.filter (fun kv => negb (String.eqb k (fst kv))) d.

(** [not d] *)
Definition is_empty (d : t) : bool :=
  match d with
  | [] => true
  | _ :: _ => false
  end.

(** [d.items()] *)
Definition items (d : t) : list (string * V) := d.

Definition keys (d : t) : list string := map fst d.
End Dict.
Arguments t : clear implicits.
End PyDict.

(** ** The world

    [heap] holds every [Product] object ever constructed, [_products] is the
    dictionary of the one [InventoryManager] instance (lines 59-65: every
    call of [InventoryManager()] yields the instance created first, so
    every handle reads and writes this dictionary), [stdout] the lines
    printed so far. *)
Record world := mkWorld {
  heap : list Product;
  _products : PyDict.t loc;
  stdout : list line
}.

Definition initial_world : world := mkWorld [] PyDict.empty [].

(** ** Computations

    A statement sequence either returns, or raises; the world it leaves
    behind is kept in both cases, as Python keeps the assignments made
    before a [raise].  [Wrong] marks the use of a reference to no object,
    which no Python execution reaches. *)
Inductive outcome (A : Type) :=
| Return (a : A)
| Raise (e : exn)
| Wrong.
Arguments Return {A} a.
Arguments Raise {A} e.
Arguments Wrong {A}.

Definition M (A : Type) := world -> outcome A * world.

Definition ret {A} (a : A) : M A := fun w => (Return a, w).

Definition bind {A B} (m : M A) (k : A -> M B) : M B :=
  fun w =>
    match m w with
    | (Return a, w') => k a w'
    | (Raise e, w') => (Raise e, w')
    | (Wrong, w') => (Wrong, w')
    end.

Definition raise {A} (e : exn) : M A := fun w => (Raise e, w).

(** [try: body  except ValueError as e: handler e] *)
Definition try_except_ValueError {A} (body : M A) (handler : value_error -> M A) : M A :=
  fun w =>
    match body w with
    | (Raise (ValueError e), w') => handler e w'
    | r => r
    end.

Declare Scope py_scope.
Delimit Scope py_scope with py.
Notation "x <- m ;; k" := (bind m (fun x => k))
  (at level 100, m at next level, right associativity) : py_scope.
Notation "m ;; k" := (bind m (fun _ => k))
  (at level 100, right associativity) : py_scope.
Open Scope py_scope.

(** [if c: body] with no [else]. *)
Definition when_ (c : bool) (body : M unit) : M unit :=
  if c then body else ret tt.

(** [for x in xs: body x] *)
Fixpoint for_each {A} (xs : list A) (body : A -> M unit) : M unit :=
  match xs with
  | [] => ret tt
  | x :: xs' => body x ;; for_each xs' body
  end.

Definition print (l : line) : M unit :=
  fun w => (Return tt, mkWorld (heap w) (_products w) (stdout w ++ [l])).

(** [self.attr] *)
Definition getattr {A} (self : loc) (attr : Product -> A) : M A :=
  fun w =>
    match heap w !! self with
    | Some p => (Return (attr p), w)
    | None => (Wrong, w)
    end.

(** [self.attr = v] *)
Definition setattr (self : loc) (assign : Product -> Product) : M unit :=
  fun w =>
    match heap w !! self with
    | Some p => (Return tt, mkWorld (<[self := assign p]> (heap w)) (_products w) (stdout w))
    | None => (Wrong, w)
    end.

(** A new object; its reference is the next free heap index. *)
Definition new (p : Product) : M loc :=
  fun w => (Return (length (heap w)), mkWorld (heap w ++ [p]) (_products w) (stdout w)).

Definition get_products : M (PyDict.t loc) :=
  fun w => (Return (_products w), w).

Definition put_products (d : PyDict.t loc) : M unit :=
  fun w => (Return tt, mkWorld (heap w) d (stdout w)).

(** ** Integers in f-strings

    CPython (3.10.7 and later, 3.11 and later, with its default setting
    [sys.int_info.default_max_str_digits]) converts an [int] to decimal text
    only when it has at most 4300 digits, and raises [ValueError]
    otherwise.  The f-strings of lines 49-50, 117-118, 132-133 and 24-26
    format integers; the text is built before [raise] or [print] sees
    it. *)
Definition int_max_str_digits : nat := 4300.

(** [10 ^ k <= n], found by dropping [k] decimal digits of [n]. *)
Fixpoint at_least_pow10 (k : nat) (n : Z) : bool :=
  match k with
  | O => 1 <=? n
  | S k' => if n <? 10 then false else at_least_pow10 k' (n / 10)
  end.

(** [n] has at most 4300 digits: [str(n)] returns. *)
Definition int_str_ok (n : Z) : bool :=
  negb (at_least_pow10 int_max_str_digits (Z.abs n)).

(** The least integer that has 4301 digits, [10 ** 4300]. *)
Definition digit_limit : Z := 10 ^ Z.of_nat int_max_str_digits.

(** [{n}] in an f-string, for an [int]. *)
Definition format_int (n : Z) : M unit :=
  if int_str_ok n then ret tt else raise (ValueError DigitLimit).

(** ** class Product *)

(** [Product.__init__] (lines 7-21), together with the allocation of the
    object it initialises: a [raise] leaves no object behind. *)
Definition Product_init (product_id0 name0 description0 : string)
    (price0 : float) (quantity0 : Z) : M loc :=
  when_ (str_not product_id0) (raise (ValueError IdEmpty)) ;;
  when_ (str_not name0) (raise (ValueError NameEmpty)) ;;
  when_ (float_le0 price0) (raise (ValueError PriceNotPositive)) ;;
  when_ (quantity0 <? 0) (raise (ValueError QuantityNegative)) ;;
  new (mkProduct product_id0 name0 description0 price0 quantity0).

(** [Product.update_details] (lines 28-39); [None] is an argument left at
    its default. *)
Definition update_details (self : loc) (name0 description0 : option string)
    (price0 : option float) : M unit :=
  match name0 with
  | Some n =>
      when_ (str_not n) (raise (ValueError NameEmpty)) ;;
      setattr self (set_name n)
  | None => ret tt
  end ;;
  match description0 with
  | Some d => setattr self (set_description d)
  | None => ret tt
  end ;;
  match price0 with
  | Some pr =>
      when_ (float_le0 pr) (raise (ValueError PriceNotPositive)) ;;
      setattr self (set_price pr)
  | None => ret tt
  end.

(** [Product.update_quantity] (lines 41-51). *)
Definition update_quantity (self : loc) (quantity_change : Z) : M unit :=
  q <- getattr self quantity ;;
  let new_quantity := q + quantity_change in
  if new_quantity <? 0 then
    format_int (Z.abs quantity_change) ;;
    q' <- getattr self quantity ;;
    format_int q' ;;
    n <- getattr self name ;;
    raise (ValueError (CannotStockOut (Z.abs quantity_change) q' n))
  else
    setattr self (set_quantity new_quantity).

(** ** class InventoryManager *)

(** [add_product] (lines 67-74). *)
Definition add_product (product : loc) : M bool :=
  pid <- getattr product product_id ;;
  d <- get_products ;;
  if PyDict.contains pid d then
    pid' <- getattr product product_id ;;
    print (ErrAlreadyExists pid') ;;
    ret false
  else
    pid' <- getattr product product_id ;;
    d' <- get_products ;;
    put_products (PyDict.setitem pid' product d') ;;
    n <- getattr product name ;;
    print (AddedOk n) ;;
    ret true.

(** [self._products[k]]: [KeyError] for a key that is absent. *)
Definition products_getitem (k : string) : M loc :=
  d <- get_products ;;
  match PyDict.get k d with
  | Some v => ret v
  | None => raise (KeyError k)
  end.

(** [del self._products[k]]: [KeyError] for a key that is absent. *)
Definition products_delitem (k : string) : M unit :=
  d <- get_products ;;
  if PyDict.contains k d then put_products (PyDict.delitem k d)
  else raise (KeyError k).

(** [remove_product] (lines 76-84). *)
Definition remove_product (pid : string) : M bool :=
  d <- get_products ;;
  if negb (PyDict.contains pid d) then
    print (ErrNotFound pid) ;;
    ret false
  else
    p <- products_getitem pid ;;
    removed_product_name <- getattr p name ;;
    products_delitem pid ;;
    print (RemovedOk removed_product_name pid) ;;
    ret true.

(** [not product] for [Product | None]: the class defines neither
    [__bool__] nor [__len__], so every object is true and only [None] is
    false. *)
Definition product_not (product : option loc) : bool :=
  match product with
  | Some _ => false
  | None => true
  end.

(** [get_product] (lines 86-91). *)
Definition get_product (pid : string) : M (option loc) :=
  d <- get_products ;;
  let product := PyDict.get pid d in
  when_ (product_not product) (print (ErrNotFound pid)) ;;
  ret product.

(** [update_product_details] (lines 93-105). *)
Definition update_product_details (pid : string) (name0 description0 : option string)
    (price0 : option float) : M bool :=
  product <- get_product pid ;;
  match product with
  | Some p =>
      try_except_ValueError
        (update_details p name0 description0 price0 ;;
         print (DetailsUpdated pid) ;;
         ret true)
        (fun e =>
           print (ErrUpdatingProduct e) ;;
           ret false)
  | None => ret false
  end.

(** [update_stock] (lines 107-123). *)
Definition update_stock (pid : string) (quantity_change : Z) : M bool :=
  product <- get_product pid ;;
  match product with
  | Some p =>
      try_except_ValueError
        (update_quantity p quantity_change ;;
         let action := quantity_change >? 0 in
         format_int (Z.abs quantity_change) ;;
         n <- getattr p name ;;
         q <- getattr p quantity ;;
         format_int q ;;
         print (StockMoved (Z.abs quantity_change) n pid action q) ;;
         ret true)
        (fun e =>
           print (ErrUpdatingStock e) ;;
           ret false)
  | None => ret false
  end.

(** [list_all_products] (lines 125-134); it returns [None] on both paths. *)
Definition list_all_products : M unit :=
  d <- get_products ;;
  if PyDict.is_empty d then
    print InventoryEmpty
  else
    print InventoryHeader ;;
    for_each (PyDict.items d) (fun '(_, product) =>
      i <- getattr product product_id ;;
      n <- getattr product name ;;
      pr <- getattr product price ;;
      q <- getattr product quantity ;;
      format_int q ;;
      print (InventoryRow i n pr q)) ;;
    print InventoryFooter.

(** ** Predicates on products and worlds *)

(** The invariant of the data model: id and name non-empty, price > 0,
    quantity >= 0. *)
Definition valid_product (p : Product) : Prop :=
  product_id p <> EmptyString /\
  name p <> EmptyString /\
  float_gt0 (price p) = true /\
  0 <= quantity p.

(** What the guards of lines 8-15, 31, 37 and 48 establish: the price test
    is the negation of [price <= 0], which a NaN passes. *)
Definition guarded_product (p : Product) : Prop :=
  product_id p <> EmptyString /\
  name p <> EmptyString /\
  float_le0 (price p) = false /\
  0 <= quantity p.

(** The product stored under [pid], if any. *)
Definition stored (w : world) (pid : string) : option Product :=
  match PyDict.get pid (_products w) with
  | Some l => heap w !! l
  | None => None
  end.

(** The dictionary holds each key once, every reference in it points to an
    object, and an object is filed under its own id. *)
Definition wf (w : world) : Prop :=
  NoDup (PyDict.keys (_products w)) /\
  forall k l, (k, l) ∈ _products w ->
    exists p, heap w !! l = Some p /\ product_id p = k.

(** The invariant the guards maintain on every object. *)
Definition inv (w : world) : Prop :=
  wf w /\ Forall guarded_product (heap w).

(** The world in which the object at [self] has become [p]. *)
Definition store_obj (w : world) (self : loc) (p : Product) : world :=
  mkWorld (<[self := p]> (heap w)) (_products w) (stdout w).

(** The world after more printed lines. *)
Definition printed (w : world) (ls : list line) : world :=
  mkWorld (heap w) (_products w) (stdout w ++ ls).

(** The row [list_all_products] prints for a product (lines 132-133). *)
Definition row_of (p : Product) : line :=
  InventoryRow (product_id p) (name p) (price p) (quantity p).

(** The rows of the products in the dictionary, in its order. *)
Definition rows (h : list Product) (d : PyDict.t loc) : list line :=
  omap (fun kv : string * loc => row_of <$> h !! kv.2) d.

(** The rows [list_all_products] prints before it meets a quantity that
    cannot be formatted, and whether it printed them all. *)
Fixpoint rows_printed (h : list Product) (d : list (string * loc)) : list line * bool :=
  match d with
  | [] => ([], true)
  | kv :: d' =>
      match h !! kv.2 with
      | Some p =>
          if int_str_ok (quantity p)
          then (row_of p :: fst (rows_printed h d'), snd (rows_printed h d'))
          else ([], false)
      | None => ([], false)
      end
  end.

(** Everything one call of [list_all_products] prints. *)
Definition listing (w : world) : list line :=
  if PyDict.is_empty (_products w) then [InventoryEmpty]
  else if snd (rows_printed (heap w) (_products w))
       then InventoryHeader :: fst (rows_printed (heap w) (_products w)) ++ [InventoryFooter]
       else InventoryHeader :: fst (rows_printed (heap w) (_products w)).

(** What one call of [list_all_products] returns or raises. *)
Definition listing_outcome (w : world) : outcome unit :=
  if PyDict.is_empty (_products w) then Return tt
  else if snd (rows_printed (heap w) (_products w)) then Return tt
       else Raise (ValueError DigitLimit).

(** An optional argument assigned to its attribute, when it is given. *)
Definition assign_opt {A} (set : A -> Product -> Product) (o : option A)
    (p : Product) : Product :=
  match o with
  | Some v => set v p
  | None => p
  end.

(** The guards of [update_details]: a name that is given and empty (line
    31), a price that is given and [<= 0] (line 37). *)
Definition name_rejected (n : option string) : bool :=
  match n with
  | Some n' => str_not n'
  | None => false
  end.

Definition price_rejected (pr : option float) : bool :=
  match pr with
  | Some pr' => float_le0 pr'
  | None => false
  end.

(** ** Calls on the store, as a client issues them *)
Inductive call :=
| Construct (product_id0 name0 description0 : string) (price0 : float) (quantity0 : Z)
| AddProduct (product : loc)
| RemoveProduct (pid : string)
| GetProduct (pid : string)
| UpdateProductDetails (pid : string) (name0 description0 : option string)
    (price0 : option float)
| UpdateStock (pid : string) (quantity_change : Z)
| ListAllProducts.

(** The world a call leaves behind, whatever it returned or raised. *)
Definition run_call (c : call) (w : world) : world :=
  match c with
  | Construct i n d pr q => snd (Product_init i n d pr q w)
  | AddProduct product => snd (add_product product w)
  | RemoveProduct pid => snd (remove_product pid w)
  | GetProduct pid => snd (get_product pid w)
  | UpdateProductDetails pid n d pr => snd (update_product_details pid n d pr w)
  | UpdateStock pid dq => snd (update_stock pid dq w)
  | ListAllProducts => snd (list_all_products w)
  end.

(** A client can only pass to [add_product] an object that exists, that is,
    one an earlier successful [Construct] returned. *)
Definition call_ok (w : world) (c : call) : Prop :=
  match c with
  | AddProduct product => (product < length (heap w))%nat
  | _ => True
  end.

Inductive reachable : world -> Prop :=
| reachable_initial : reachable initial_world
| reachable_step w c : reachable w -> call_ok w c -> reachable (run_call c w).

(** ** The entry sequence of the program (lines 268-271) *)

(** 1200.99 and 25.50 as the binary64 numbers nearest to them. *)
Definition price_1200_99 : float := S754_finite false 5282009879370793 (-42).
Definition price_25_50 : float := S754_finite false 7177611906121728 (-48).

Definition laptop : Product :=
  mkProduct "LPT001" "Laptop X1" "High-performance laptop" price_1200_99 10.
Definition mouse : Product :=
  mkProduct "MSE002" "Wireless Mouse" "Ergonomic wireless mouse" price_25_50 50.

(** The world once [prod1] and [prod2] are constructed and added. *)
Definition prepopulated : world :=
  mkWorld [laptop; mouse]
          [("LPT001", 0%nat); ("MSE002", 1%nat)]
          [AddedOk "Laptop X1"; AddedOk "Wireless Mouse"].

(** A product constructed with a NaN price and added to the empty store,
    as [handle_add_product] does when the price typed in is [nan]. *)
Definition nan_store : world :=
  run_call (AddProduct 0%nat)
    (run_call (Construct "NAN001" "Widget" EmptyString S754_nan 0) initial_world).

(** The exception that leaves [update_quantity] when the stock does not
    suffice (lines 49-50): the message of line 49 if its two integers can
    be formatted, the interpreter's own [ValueError] otherwise. *)
Definition stock_out_error (quantity_change : Z) (p : Product) : value_error :=
  if int_str_ok (Z.abs quantity_change) && int_str_ok (quantity p)
  then CannotStockOut (Z.abs quantity_change) (quantity p) (name p)
  else DigitLimit.

(** ** Two statements of the specification that the code does not meet *)

(** "A detail update with a non-empty name and a price [<= 0] fails with
    InvalidArgument and leaves the name updated, the price and the
    description unchanged", for the object [p] at [self]. *)
Definition failed_update_keeps_description (w : world) (self : loc) (p : Product)
    (n : string) (d : option string) (pr : float) : Prop :=
  exists e w' p',
    update_details self (Some n) d (Some pr) w = (Raise (ValueError e), w') /\
    kind_of e = InvalidArgument /\
    heap w' !! self = Some p' /\
    name p' = n /\ price p' = price p /\ description p' = description p.

(** "A stock update whose amount is not positive fails with InvalidArgument,
    returning failure and leaving the stored quantity unchanged", for the
    product stored under [pid]. *)
Definition nonpositive_amount_rejected (w : world) (pid : string) (delta : Z) : Prop :=
  exists e w',
    update_stock pid delta w = (Return false, w') /\
    stdout w' = (stdout w ++ [ErrUpdatingStock e])%list /\
    kind_of e = InvalidArgument /\
    (quantity <$> stored w' pid) = (quantity <$> stored w pid).

(** A world in which the laptop of the entry sequence is constructed and
    the store is still empty. *)
Definition initial_world_with_laptop : world := mkWorld [laptop] PyDict.empty [].

(** The entry sequence just before the mouse is added. *)
Definition store_without_mouse : world :=
  mkWorld [laptop; mouse] [("LPT001", 0%nat)] [AddedOk "Laptop X1"].

(** * The class object of InventoryManager (lines 59-65)

    [_instance] is the class attribute, [instances] the objects of the
    class that exist, each with its [_products]. *)
Record manager_class := mkClass {
  _instance : option nat;
  instances : list (PyDict.t loc)
}.

Definition class_initial : manager_class := mkClass None [].

(** [InventoryManager()], that is [InventoryManager.__new__(cls)]; the class
    defines no [__init__]. *)
Definition InventoryManager_new (c : manager_class) : nat * manager_class :=
  match _instance c with
  | None =>
      let r := length (instances c) in
      (r, mkClass (Some r) (instances c ++ [PyDict.empty]))
  | Some r => (r, c)
  end.

(** What the rest of the program does to the class: it calls
    [InventoryManager()], or a method of an instance replaces the
    dictionary of that instance. *)
Inductive class_step :=
| CallNew
| SetProducts (r : nat) (d : PyDict.t loc).

Definition run_class_step (s : class_step) (c : manager_class) : manager_class :=
  match s with
  | CallNew => snd (InventoryManager_new c)
  | SetProducts r d => mkClass (_instance c) (<[r := d]> (instances c))
  end.

Inductive class_reachable : manager_class -> Prop :=
| class_reachable_initial : class_reachable class_initial
| class_reachable_step c s :
    class_reachable c -> class_reachable (run_class_step s c).

(** * Identifiers (lines 137-139) *)

Definition hexdigits : string := "0123456789abcdef".

Definition hex_digit (d : N) : Ascii.ascii :=
  match String.get (N.to_nat d) hexdigits with
  | Some a => a
  | None => "0"%char
  end.

(** ['%0{width}x' % n] for [n < 16 ^ width]: the digits of [n] in base 16,
    the most significant first, padded with zeros. *)
Fixpoint hex_fixed (width : nat) (n : N) : string :=
  match width with
  | O => EmptyString
  | S k => String (hex_digit ((n / 16 ^ N.of_nat k) mod 16)%N) (hex_fixed k n)
  end.

(** [UUID.hex], ['%032x' % self.int]; the integer of a UUID is below
    [2 ^ 128]. *)
Definition uuid_hex (u : N) : string := hex_fixed 32 u.

(** [str(u.hex)[:8]] for the UUID with integer [u]. *)
Definition unique_id_of (u : N) : string := String.substring 0 8 (uuid_hex u).

(** The value of a string of hexadecimal digits, if it is one. *)
Definition hex_value (a : Ascii.ascii) : option N :=
  let n := Ascii.N_of_ascii a in
  if ((48 <=? n) && (n <=? 57))%N then Some (n - 48)%N
  else if ((97 <=? n) && (n <=? 102))%N then Some (n - 87)%N
  else None.

Fixpoint unhex_from (acc : N) (s : string) : option N :=
  match s with
  | EmptyString => Some acc
  | String a s' =>
      match hex_value a with
      | Some d => unhex_from (16 * acc + d)%N s'
      | None => None
      end
  end.

Definition unhex (s : string) : option N := unhex_from 0%N s.

(** * The command-line layer (lines 141-258)

    The handlers read lines from standard input and call the store.  The
    functions of Python they use and this program does not define are taken
    as given: [float(s)] and [int(s)] on a string ([None] when they raise
    [ValueError]), [s.isdigit()], and the integer of the UUID that the
    [n]-th call of [uuid.uuid4()] returns. *)
Record builtins := mkBuiltins {
  py_float : string -> option float;
  py_int : string -> option Z;
  str_isdigit : string -> bool;
  uuid4_int : nat -> N
}.

(** The exceptions that occur in this layer: those of the store, the
    [ValueError] of [float] and [int], the [TypeError] of a call with the
    wrong number of arguments, the [EOFError] of [input]. *)
Inductive cli_exn :=
| FromStore (e : exn)
| LiteralError (text : string)
| TypeError
| EOFError.

(** [isinstance(e, ValueError)] *)
Definition is_ValueError (e : cli_exn) : bool :=
  match e with
  | FromStore (ValueError _) => true
  | LiteralError _ => true
  | _ => false
  end.

(** What appears on the terminal: the lines of the store, the literal
    lines and prompts of this layer, [print(product)] (lines 23-26), and
    the two reports of [main_menu] (lines 253, 255). *)
Inductive tty :=
| Shown (l : line)
| Text (s : string)
| Asked (prompt : string)
| ProductStr (pid pname : string) (pprice : float) (pquantity : Z) (pdescription : string)
| InputError (ve : cli_exn)
| UnexpectedError (e : cli_exn).

Record console := mkConsole {
  store : world;
  stdin : list string;
  uuid4_calls : nat;
  screen : list tty
}.

Inductive result (A : Type) :=
| Returned (a : A)
| Raised (e : cli_exn)
| WentWrong.
Arguments Returned {A} a.
Arguments Raised {A} e.
Arguments WentWrong {A}.

Definition C (A : Type) := console -> result A * console.

Definition cret {A} (a : A) : C A := fun c => (Returned a, c).

Definition cbind {A B} (m : C A) (k : A -> C B) : C B :=
  fun c =>
    match m c with
    | (Returned a, c') => k a c'
    | (Raised e, c') => (Raised e, c')
    | (WentWrong, c') => (WentWrong, c')
    end.

Definition throw {A} (e : cli_exn) : C A := fun c => (Raised e, c).

Declare Scope cli_scope.
Delimit Scope cli_scope with cli.
Notation "x <- m ;; k" := (cbind m (fun x => k))
  (at level 100, m at next level, right associativity) : cli_scope.
Notation "m ;; k" := (cbind m (fun _ => k))
  (at level 100, right associativity) : cli_scope.

(** [print] in this layer. *)
Definition say (t : tty) : C unit :=
  fun c => (Returned tt, mkConsole (store c) (stdin c) (uuid4_calls c) (screen c ++ [t])).

(** [input(prompt)]: the prompt is written, then a line is read. *)
Definition input (prompt : string) : C string :=
  fun c =>
    let c' rest := mkConsole (store c) rest (uuid4_calls c) (screen c ++ [Asked prompt]) in
    match stdin c with
    | s :: rest => (Returned s, c' rest)
    | [] => (Raised EOFError, c' [])
    end.

(** A call of the store; the lines it prints appear on the terminal. *)
Definition on_store {A} (m : M A) : C A :=
  fun c =>
    let '(r, w') := m (store c) in
    let c' := mkConsole w' (stdin c) (uuid4_calls c)
                (screen c ++ map Shown (drop (length (stdout (store c))) (stdout w'))) in
    match r with
    | Return a => (Returned a, c')
    | Raise e => (Raised (FromStore e), c')
    | Wrong => (WentWrong, c')
    end.

(** [try: body  except ValueError as ve: h1 ve  except Exception as e: h2 e] *)
Definition try_except {A} (body : C A) (on_ValueError on_Exception : cli_exn -> C A)
    : C A :=
  fun c =>
    match body c with
    | (Raised e, c') => if is_ValueError e then on_ValueError e c' else on_Exception e c'
    | r => r
    end.

Definition NL : string := String "010"%char EmptyString.

(** [Product.__str__] (lines 23-26). *)
Definition Product_str (self : loc) : M tty :=
  i <- getattr self product_id ;;
  n <- getattr self name ;;
  pr <- getattr self price ;;
  q <- getattr self quantity ;;
  format_int q ;;
  d <- getattr self description ;;
  ret (ProductStr i n pr q d).

(** [s or None] for a string [s] (lines 175-176). *)
Definition or_None (s : string) : option string :=
  if str_not s then None else Some s.

Section Handlers.
Variable py : builtins.

(** [float(s)] and [int(s)]. *)
Definition float_of (s : string) : C float :=
  match py_float py s with
  | Some x => cret x
  | None => throw (LiteralError s)
  end.

Definition int_of (s : string) : C Z :=
  match py_int py s with
  | Some n => cret n
  | None => throw (LiteralError s)
  end.

(** [generate_unique_id] (lines 137-139). *)
Definition generate_unique_id : C string :=
  fun c =>
    (Returned (unique_id_of (uuid4_int py (uuid4_calls c))),
     mkConsole (store c) (stdin c) (S (uuid4_calls c)) (screen c)).

(** [get_product_id_input] (lines 141-143). *)
Definition get_product_id_input (prompt_message : string) : C string :=
  input prompt_message.

(** [handle_add_product] (lines 146-157). *)
Definition handle_add_product : C unit :=
  (say (Text (NL ++ "--- Add New Product ---")) ;;
   typed <- input "Enter Product ID (leave blank to auto-generate): " ;;
   prod_id <- (if str_not typed then
                 g <- generate_unique_id ;;
                 say (Text ("Generated Product ID: " ++ g)) ;;
                 cret g
               else cret typed) ;;
   name0 <- input "Enter Product Name: " ;;
   description0 <- input "Enter Product Description: " ;;
   price_text <- input "Enter Product Price: " ;;
   price0 <- float_of price_text ;;
   quantity_text <- input "Enter Product Quantity: " ;;
   quantity0 <- int_of quantity_text ;;
   product <- on_store (Product_init prod_id name0 description0 price0 quantity0) ;;
   on_store (add_product product) ;;
   cret tt)%cli.

(** [handle_remove_product] (lines 159-162). *)
Definition handle_remove_product : C unit :=
  (say (Text (NL ++ "--- Remove Product ---")) ;;
   prod_id <- get_product_id_input "Enter Product ID to remove: " ;;
   on_store (remove_product prod_id) ;;
   cret tt)%cli.

(** [handle_view_product] (lines 164-169). *)
Definition handle_view_product : C unit :=
  (say (Text (NL ++ "--- View Product Details ---")) ;;
   prod_id <- get_product_id_input "Enter Product ID to view: " ;;
   product <- on_store (get_product prod_id) ;;
   match product with
   | Some p => t <- on_store (Product_str p) ;; say t
   | None => cret tt
   end)%cli.

(** [handle_update_product_details] (lines 171-179). *)
Definition handle_update_product_details : C unit :=
  (say (Text (NL ++ "--- Update Product Details ---")) ;;
   prod_id <- get_product_id_input "Enter Product ID to update: " ;;
   found <- on_store (get_product prod_id) ;;
   if product_not found then cret tt
   else
     name_text <- input "Enter new Name (or leave blank to keep current): " ;;
     description_text <- input "Enter new Description (or leave blank to keep current): " ;;
     price_str <- input "Enter new Price (or leave blank to keep current): " ;;
     price0 <- (if str_not price_str then cret None
                else x <- float_of price_str ;; cret (Some x)) ;;
     on_store (update_product_details prod_id (or_None name_text) (or_None description_text)
             price0) ;;
     cret tt)%cli.

(** [not amount_str.isdigit() or int(amount_str) <= 0] (lines 186, 198);
    [int] is called only when [isdigit] holds. *)
Definition not_a_positive_integer (amount_str : string) : C bool :=
  (if negb (str_isdigit py amount_str) then cret true
   else n <- int_of amount_str ;; cret (n <=? 0))%cli.

(** [handle_stock_in] (lines 181-190). *)
Definition handle_stock_in : C unit :=
  (say (Text (NL ++ "--- Stock In ---")) ;;
   prod_id <- get_product_id_input "Enter Product ID to stock in: " ;;
   found <- on_store (get_product prod_id) ;;
   if product_not found then cret tt
   else
     amount_str <- input "Enter quantity to add: " ;;
     bad <- not_a_positive_integer amount_str ;;
     if bad then say (Text "Error: Quantity to add must be a positive integer.")
     else
       amount <- int_of amount_str ;;
       on_store (update_stock prod_id amount) ;;
       cret tt)%cli.

(** [handle_stock_out] (lines 193-202). *)
Definition handle_stock_out : C unit :=
  (say (Text (NL ++ "--- Stock Out ---")) ;;
   prod_id <- get_product_id_input "Enter Product ID to stock out: " ;;
   found <- on_store (get_product prod_id) ;;
   if product_not found then cret tt
   else
     amount_str <- input "Enter quantity to remove: " ;;
     bad <- not_a_positive_integer amount_str ;;
     if bad then say (Text "Error: Quantity to remove must be a positive integer.")
     else
       amount <- int_of amount_str ;;
       on_store (update_stock prod_id (- amount)) ;;
       cret tt)%cli.

(** [handle_list_all_products] (lines 204-205). *)
Definition handle_list_all_products : C unit := on_store list_all_products.

(** [handle_exit] (lines 207-209). *)
Definition handle_exit : C bool :=
  (say (Text "Exiting Inventory Management System. Goodbye!") ;;
   cret false)%cli.

(** [display_menu] (lines 211-220). *)
Definition display_menu : C unit :=
  (say (Text (NL ++ "Inventory Management System")) ;;
   say (Text "1. Add New Product") ;;
   say (Text "2. Remove Product") ;;
   say (Text "3. View Product Details") ;;
   say (Text "4. Update Product Details") ;;
   say (Text "5. Stock In (Increase Quantity)") ;;
   say (Text "6. Stock Out (Decrease Quantity)") ;;
   say (Text "7. List All Products") ;;
   say (Text "8. Exit"))%cli.

(** The values of the dispatch table: seven handlers take the inventory,
    [handle_exit] takes nothing. *)
Inductive handler :=
| WithInventory (h : C unit)
| NoArgument (h : C bool).

(** [menu_actions.get(choice)] (lines 226-235, 241). *)
Definition menu_actions (choice : string) : option handler :=
  if String.eqb choice "1" then Some (WithInventory handle_add_product)
  else if String.eqb choice "2" then Some (WithInventory handle_remove_product)
  else if String.eqb choice "3" then Some (WithInventory handle_view_product)
  else if String.eqb choice "4" then Some (WithInventory handle_update_product_details)
  else if String.eqb choice "5" then Some (WithInventory handle_stock_in)
  else if String.eqb choice "6" then Some (WithInventory handle_stock_out)
  else if String.eqb choice "7" then Some (WithInventory handle_list_all_products)
  else if String.eqb choice "8" then Some (NoArgument handle_exit)
  else None.

(** [action()] and [action(inventory)]: a call with the wrong number of
    arguments raises [TypeError]. *)
Definition call_without_argument (h : handler) : C bool :=
  match h with
  | NoArgument f => f
  | WithInventory _ => throw TypeError
  end.

Definition call_with_inventory (h : handler) : C unit :=
  match h with
  | WithInventory f => f
  | NoArgument _ => throw TypeError
  end.

(** One turn of the loop of [main_menu] (lines 239-258), entered with
    [running] true; it returns the value [running] has at the end. *)
Definition menu_turn : C bool :=
  (display_menu ;;
   choice <- input "Enter your choice (1-8): " ;;
   let action := menu_actions choice in
   running <-
     try_except
       (match action with
        | Some h =>
            if String.eqb choice "8" then call_without_argument h
            else call_with_inventory h ;; cret true
        | None =>
            say (Text "Invalid choice. Please enter a number between 1 and 8.") ;;
            cret true
        end)
       (fun ve => say (InputError ve) ;; cret true)
       (fun e => say (UnexpectedError e) ;; cret true) ;;
   (if running : bool then _ <- input (NL ++ "Press Enter to continue...") ;; cret tt
    else cret tt) ;;
   cret running)%cli.

(** [main_menu] (lines 223-258): the loop runs while [running] is true.
    [fuel] bounds the number of turns; [None] means the bound was reached
    with the loop still running. *)
Fixpoint main_menu (fuel : nat) (c : console) : option (result unit * console) :=
  match fuel with
  | O => None
  | S fuel' =>
      match menu_turn c with
      | (Returned true, c') => main_menu fuel' c'
      | (Returned false, c') => Some (Returned tt, c')
      | (Raised e, c') => Some (Raised e, c')
      | (WentWrong, c') => Some (WentWrong, c')
      end
  end.
End Handlers.

(** Builtins for the examples: [int] and [isdigit] on strings of ASCII
    digits, [float] on the two literals used below. *)
Definition is_ascii_digit (a : Ascii.ascii) : bool :=
  let n := Ascii.N_of_ascii a in ((48 <=? n) && (n <=? 57))%N.

Fixpoint decimal_from (acc : Z) (s : string) : option Z :=
  match s with
  | EmptyString => Some acc
  | String a s' =>
      if is_ascii_digit a
      then decimal_from (10 * acc + Z.of_N (Ascii.N_of_ascii a - 48)) s'
      else None
  end.

Definition example_builtins : builtins :=
  mkBuiltins
    (fun s => if String.eqb s "25.5" then Some price_25_50
              else if String.eqb s "nan" then Some S754_nan
              else None)
    (fun s => if str_not s then None else decimal_from 0 s)
    (fun s => match decimal_from 0 s with
              | Some _ => negb (str_not s)
              | None => false
              end)
    (fun n => (2 ^ 127 + N.of_nat n)%N).

(** The terminal at the start of [main_menu], with the given lines typed. *)
Definition console_with (w : world) (typed : list string) : console :=
  mkConsole w typed 0 [].

(** What a computation of the command-line layer guarantees when it starts
    on a reachable store that satisfies [P]: it does not go wrong, it
    leaves a reachable store, it puts nothing back on standard input, a
    value it returns satisfies [Q] with the store it leaves, and an
    exception it raises is one of [E]. *)
Definition triple {A} (P : world -> Prop) (m : C A) (Q : A -> world -> Prop)
    (E : cli_exn -> Prop) : Prop :=
  forall c, reachable (store c) -> P (store c) ->
    match m c with
    | (Returned a, c') =>
        reachable (store c') /\ (length (stdin c') <= length (stdin c))%nat /\
        Q a (store c')
    | (Raised e, c') =>
        reachable (store c') /\ (length (stdin c') <= length (stdin c))%nat /\ E e
    | (WentWrong, _) => False
    end.

(** The same for a computation of the store. *)
Definition store_triple {A} (P : world -> Prop) (m : M A) (Q : A -> world -> Prop)
    (E : exn -> Prop) : Prop :=
  forall w, reachable w -> P w ->
    match m w with
    | (Return a, w') => reachable w' /\ Q a w'
    | (Raise e, w') => reachable w' /\ E e
    | (Wrong, _) => False
    end.

(** The object at [l] exists. *)
Definition allocated (l : loc) (w : world) : Prop := (l < length (heap w))%nat.

(** The exceptions [handle_add_product] lets through to [main_menu]: end
    of input, a text that [float] or [int] rejects, and the three guards of
    [Product.__init__] that a generated or typed id cannot trip. *)
Definition construction_exception (e : cli_exn) : Prop :=
  match e with
  | EOFError => True
  | LiteralError _ => True
  | FromStore (ValueError NameEmpty) => True
  | FromStore (ValueError PriceNotPositive) => True
  | FromStore (ValueError QuantityNegative) => True
  | _ => False
  end.

(** The exceptions a handler lets through to [main_menu]: those, and the
    digit limit met while a quantity is formatted for the listing or for
    the view of a product. *)
Definition handler_exception (e : cli_exn) : Prop :=
  match e with
  | FromStore (ValueError DigitLimit) => True
  | _ => construction_exception e
  end.

(** A handler is safe when, on a reachable store, it does not go wrong,
    leaves a reachable store, and raises only what [handler_exception]
    lists. *)
Definition safe {A} (m : C A) : Prop :=
  triple (fun _ => True) m (fun _ _ => True) handler_exception.

(** A product whose quantity is [10 ** 4300], the least integer with 4301
    digits, constructed and added to the empty store. *)
Definition big : Product := mkProduct "BIG001" "Big" EmptyString price_25_50 digit_limit.

Definition big_store : world := mkWorld [big] [("BIG001", 0%nat)] [AddedOk "Big"].

(** ** Facts about dictionaries *)

Lemma dict_contains_get {V} k (d : PyDict.t V) :
  PyDict.contains k d = true <-> exists v, PyDict.get k d = Some v.
Proof.
  unfold PyDict.contains. destruct (PyDict.get k d); split; eauto; try discriminate.
  intros [v Hv]. discriminate.
Qed.

Lemma dict_contains_false {V} k (d : PyDict.t V) :
  PyDict.contains k d = false <-> PyDict.get k d = None.
Proof.
  unfold PyDict.contains. destruct (PyDict.get k d); split; congruence.
Qed.

Lemma dict_get_setitem_eq {V} k (v : V) d :
  PyDict.get k (PyDict.setitem k v d) = Some v.
Proof.
  induction d as [|[k' v'] d IH]; simpl.
  - now rewrite String.eqb_refl.
  - destruct (String.eqb k k') eqn:E; simpl.
    + now rewrite String.eqb_refl.
    + now rewrite E.
Qed.

Lemma dict_get_setitem_ne {V} k k' (v : V) d :
  k <> k' -> PyDict.get k' (PyDict.setitem k v d) = PyDict.get k' d.
Proof.
  intros Hne. induction d as [|[k0 v0] d IH]; simpl.
  - apply String.eqb_neq in Hne. rewrite String.eqb_sym. now rewrite Hne.
  - destruct (String.eqb k k0) eqn:E; simpl.
    + apply String.eqb_eq in E. subst k0.
      destruct (String.eqb k' k) eqn:E'; [|reflexivity].
      apply String.eqb_eq in E'. congruence.
    + now rewrite IH.
Qed.

Lemma dict_get_delitem_eq {V} k (d : PyDict.t V) :
  PyDict.get k (PyDict.delitem k d) = None.
Proof.
  induction d as [|[k' v'] d IH]; simpl; [reflexivity|].
  destruct (String.eqb k k') eqn:E; simpl; [exact IH|].
  now rewrite E.
Qed.

Lemma dict_get_delitem_ne {V} k k' (d : PyDict.t V) :
  k <> k' -> PyDict.get k' (PyDict.delitem k d) = PyDict.get k' d.
Proof.
  intros Hne. induction d as [|[k0 v0] d IH]; simpl; [reflexivity|].
  destruct (String.eqb k k0) eqn:E; simpl.
  - apply String.eqb_eq in E. subst k0.
    destruct (String.eqb k' k) eqn:E'; [|exact IH].
    apply String.eqb_eq in E'. congruence.
  - now rewrite IH.
Qed.

Lemma dict_delitem_absent {V} k (d : PyDict.t V) :
  PyDict.get k d = None -> PyDict.delitem k d = d.
Proof.
  induction d as [|[k' v'] d IH]; simpl; [reflexivity|].
  destruct (String.eqb k k') eqn:E; [discriminate|].
  intros H. simpl. now rewrite IH.
Qed.

Lemma str_not_false s : str_not s = false <-> s <> EmptyString.
Proof. destruct s; simpl; split; congruence. Qed.

Lemma str_not_true s : str_not s = true <-> s = EmptyString.
Proof. destruct s; simpl; split; congruence. Qed.

(** A float that is greater than zero is not less than or equal to it; the
    converse fails for NaN only. *)
Lemma float_gt0_not_le0 x : float_gt0 x = true -> float_le0 x = false.
Proof. destruct x as [[]|[]| |[] m e]; cbv; congruence. Qed.

Lemma float_not_le0_cases x :
  float_le0 x = false -> float_gt0 x = true \/ x = S754_nan.
Proof. destruct x as [[]|[]| |[] m e]; cbv; auto; discriminate. Qed.

(** ** Stepping through computations *)

Lemma bind_Return {A B} (m : M A) (k : A -> M B) w a w' :
  m w = (Return a, w') -> bind m k w = k a w'.
Proof. intros H. unfold bind. now rewrite H. Qed.

Lemma bind_Raise {A B} (m : M A) (k : A -> M B) w e w' :
  m w = (Raise e, w') -> bind m k w = (Raise e, w').
Proof. intros H. unfold bind. now rewrite H. Qed.

Lemma getattr_eq {A} w self p (attr : Product -> A) :
  heap w !! self = Some p -> getattr self attr w = (Return (attr p), w).
Proof. intros H. unfold getattr. now rewrite H. Qed.

Lemma setattr_eq w self p assign :
  heap w !! self = Some p ->
  setattr self assign w = (Return tt, store_obj w self (assign p)).
Proof. intros H. unfold setattr. now rewrite H. Qed.

Lemma store_obj_same w self p :
  heap w !! self = Some p -> store_obj w self p = w.
Proof.
  intros H. destruct w as [h d o]. unfold store_obj. simpl in *.
  f_equal. now apply list_insert_id.
Qed.

Lemma store_obj_lookup w self p p' :
  heap w !! self = Some p -> heap (store_obj w self p') !! self = Some p'.
Proof.
  intros H. simpl. apply list_lookup_insert_eq. eapply lookup_lt_Some, H.
Qed.

Lemma store_obj_lookup_ne w self l p' :
  self <> l -> heap (store_obj w self p') !! l = heap w !! l.
Proof. intros H. simpl. now apply list_lookup_insert_ne. Qed.

Lemma store_obj_twice w self p p' :
  store_obj (store_obj w self p) self p' = store_obj w self p'.
Proof. unfold store_obj. simpl. now rewrite list_insert_insert_eq. Qed.

(** ** What each method computes *)

Lemma Product_init_eq i n d pr q w :
  Product_init i n d pr q w =
    if str_not i then (Raise (ValueError IdEmpty), w)
    else if str_not n then (Raise (ValueError NameEmpty), w)
    else if float_le0 pr then (Raise (ValueError PriceNotPositive), w)
    else if q <? 0 then (Raise (ValueError QuantityNegative), w)
    else (Return (length (heap w)),
          mkWorld (heap w ++ [mkProduct i n d pr q]) (_products w) (stdout w)).
Proof.
  unfold Product_init, bind, when_, raise, ret, new.
  destruct (str_not i), (str_not n), (float_le0 pr), (q <? 0); reflexivity.
Qed.

(** [update_details] assigns name, then description, then price, and stops
    at the first guard that fails, keeping what it assigned before. *)
Lemma update_details_eq w self p n d pr :
  heap w !! self = Some p ->
  update_details self n d pr w =
    if name_rejected n then (Raise (ValueError NameEmpty), w)
    else
      let p2 := assign_opt set_description d (assign_opt set_name n p) in
      if price_rejected pr then (Raise (ValueError PriceNotPositive), store_obj w self p2)
      else (Return tt, store_obj w self (assign_opt set_price pr p2)).
Proof.
  intros H. unfold update_details.
  assert (Hn : forall n', (when_ (str_not n') (raise (ValueError NameEmpty)) ;;
                           setattr self (set_name n')) w =
            if str_not n' then (Raise (ValueError NameEmpty), w)
            else (Return tt, store_obj w self (set_name n' p))).
  { intros n'. unfold bind, when_, raise, ret. destruct (str_not n'); [reflexivity|].
    now apply setattr_eq. }
  assert (Hpr : forall w1 p1 pr', heap w1 !! self = Some p1 ->
            (when_ (float_le0 pr') (raise (ValueError PriceNotPositive)) ;;
             setattr self (set_price pr')) w1 =
            if float_le0 pr' then (Raise (ValueError PriceNotPositive), w1)
            else (Return tt, store_obj w1 self (set_price pr' p1))).
  { intros w1 p1 pr' H1. unfold bind, when_, raise, ret. destruct (float_le0 pr'); [reflexivity|].
    now apply setattr_eq. }
  assert (Hd : forall w1 p1, heap w1 !! self = Some p1 ->
            match d with
            | Some d' => setattr self (set_description d')
            | None => ret tt
            end w1 = (Return tt, store_obj w1 self (assign_opt set_description d p1))).
  { intros w1 p1 H1. destruct d as [d'|]; simpl.
    - now apply setattr_eq.
    - unfold ret. now rewrite store_obj_same. }
  assert (Hrest : forall w1 p1, heap w1 !! self = Some p1 ->
            (match d with
             | Some d' => setattr self (set_description d')
             | None => ret tt
             end ;;
             match pr with
             | Some pr' =>
                 when_ (float_le0 pr') (raise (ValueError PriceNotPositive)) ;;
                 setattr self (set_price pr')
             | None => ret tt
             end) w1 =
            let p2 := assign_opt set_description d p1 in
            match pr with
            | Some pr' =>
                if float_le0 pr' then (Raise (ValueError PriceNotPositive), store_obj w1 self p2)
                else (Return tt, store_obj w1 self (set_price pr' p2))
            | None => (Return tt, store_obj w1 self p2)
            end).
  { intros w1 p1 H1. rewrite (bind_Return _ _ _ _ _ (Hd w1 p1 H1)).
    pose proof (store_obj_lookup w1 self p1 (assign_opt set_description d p1) H1) as H2.
    destruct pr as [pr'|]; simpl.
    - rewrite (Hpr _ _ pr' H2). now rewrite store_obj_twice.
    - reflexivity. }
  destruct n as [n'|]; simpl.
  - unfold bind at 1. rewrite Hn. destruct (str_not n'); simpl; [reflexivity|].
    pose proof (store_obj_lookup w self p (set_name n' p) H) as H1.
    rewrite (Hrest _ _ H1). cbv zeta.
    destruct pr as [pr'|]; cbn [price_rejected assign_opt];
      [destruct (float_le0 pr')|]; now rewrite store_obj_twice.
  - unfold bind at 1. unfold ret at 1. rewrite (Hrest _ _ H). cbv zeta.
    destruct pr as [pr'|]; cbn [price_rejected assign_opt];
      [destruct (float_le0 pr')|]; reflexivity.
Qed.

(** ** The digit limit *)

Lemma at_least_pow10_spec k n :
  at_least_pow10 k n = true <-> 10 ^ Z.of_nat k <= n.
Proof.
  revert n. induction k as [|k IH]; intros n.
  - cbn [at_least_pow10]. rewrite Z.leb_le. reflexivity.
  - cbn [at_least_pow10]. rewrite Nat2Z.inj_succ, Z.pow_succ_r by lia.
    assert (Hpos : 0 < 10 ^ Z.of_nat k) by (apply Z.pow_pos_nonneg; lia).
    pose proof (Z.div_mod n 10 ltac:(lia)) as Hn.
    pose proof (Z.mod_pos_bound n 10 ltac:(lia)) as Hr.
    destruct (n <? 10) eqn:E.
    + apply Z.ltb_lt in E. split; [discriminate | lia].
    + rewrite IH. lia.
Qed.

Lemma digit_limit_pos : 0 < digit_limit.
Proof. unfold digit_limit. apply Z.pow_pos_nonneg; lia. Qed.

Lemma int_str_ok_spec n : int_str_ok n = true <-> Z.abs n < digit_limit.
Proof.
  unfold int_str_ok, digit_limit. rewrite negb_true_iff.
  pose proof (at_least_pow10_spec int_max_str_digits (Z.abs n)) as H.
  destruct (at_least_pow10 int_max_str_digits (Z.abs n)).
  - split; [intros [=]|]. intros Hlt. apply proj1 in H. specialize (H eq_refl). lia.
  - split; [|reflexivity]. intros _.
    destruct (Z.lt_ge_cases (Z.abs n) (10 ^ Z.of_nat int_max_str_digits)) as [Hlt|Hge];
      [exact Hlt|]. apply H in Hge. discriminate Hge.
Qed.

Lemma int_str_ok_false n : int_str_ok n = false <-> digit_limit <= Z.abs n.
Proof.
  pose proof (int_str_ok_spec n) as H. destruct (int_str_ok n).
  - split; [intros [=]|]. intros Hge. apply proj1 in H. specialize (H eq_refl). lia.
  - split; [|reflexivity]. intros _.
    destruct (Z.lt_ge_cases (Z.abs n) digit_limit) as [Hlt|Hge]; [|exact Hge].
    apply H in Hlt. discriminate Hlt.
Qed.

(** An integer no larger in absolute value than one that can be formatted
    can be formatted. *)
Lemma int_str_ok_le a b :
  Z.abs a <= Z.abs b -> int_str_ok b = true -> int_str_ok a = true.
Proof. rewrite !int_str_ok_spec. lia. Qed.

Lemma int_str_ok_abs n : int_str_ok (Z.abs n) = int_str_ok n.
Proof. unfold int_str_ok. now rewrite Z.abs_idemp. Qed.

Lemma format_int_eq n w :
  format_int n w =
    if int_str_ok n then (Return tt, w) else (Raise (ValueError DigitLimit), w).
Proof. unfold format_int. now destruct (int_str_ok n). Qed.

Lemma update_quantity_eq w self p dq :
  heap w !! self = Some p ->
  update_quantity self dq w =
    if quantity p + dq <? 0
    then (Raise (ValueError (stock_out_error dq p)), w)
    else (Return tt, store_obj w self (set_quantity (quantity p + dq) p)).
Proof.
  intros H. unfold update_quantity.
  rewrite (bind_Return _ _ _ _ _ (getattr_eq w self p quantity H)).
  destruct (quantity p + dq <? 0).
  - unfold stock_out_error. unfold bind at 1. rewrite format_int_eq.
    destruct (int_str_ok (Z.abs dq)); [|reflexivity].
    rewrite (bind_Return _ _ _ _ _ (getattr_eq w self p quantity H)).
    unfold bind at 1. rewrite format_int_eq.
    destruct (int_str_ok (quantity p)); [|reflexivity].
    now rewrite (bind_Return _ _ _ _ _ (getattr_eq w self p name H)).
  - now apply setattr_eq.
Qed.

Lemma print_eq w l : print l w = (Return tt, printed w [l]).
Proof. reflexivity. Qed.

Lemma printed_printed w ls ls' : printed (printed w ls) ls' = printed w (ls ++ ls').
Proof. unfold printed. simpl. now rewrite <- app_assoc. Qed.

Lemma add_product_eq w product p :
  heap w !! product = Some p ->
  add_product product w =
    if PyDict.contains (product_id p) (_products w)
    then (Return false, printed w [ErrAlreadyExists (product_id p)])
    else (Return true,
          mkWorld (heap w) (PyDict.setitem (product_id p) product (_products w))
                  (stdout w ++ [AddedOk (name p)])).
Proof.
  intros H. unfold add_product.
  rewrite (bind_Return _ _ _ _ _ (getattr_eq w product p product_id H)).
  unfold get_products at 1. unfold bind at 1.
  destruct (PyDict.contains (product_id p) (_products w)).
  - now rewrite (bind_Return _ _ _ _ _ (getattr_eq w product p product_id H)).
  - rewrite (bind_Return _ _ _ _ _ (getattr_eq w product p product_id H)).
    unfold bind, get_products, put_products, getattr, print, ret. simpl.
    now rewrite H.
Qed.

Lemma get_product_eq w pid :
  get_product pid w =
    match PyDict.get pid (_products w) with
    | Some l => (Return (Some l), w)
    | None => (Return None, printed w [ErrNotFound pid])
    end.
Proof.
  unfold get_product, bind, get_products, when_, ret.
  destruct (PyDict.get pid (_products w)); reflexivity.
Qed.

Lemma remove_product_absent w pid :
  PyDict.get pid (_products w) = None ->
  remove_product pid w = (Return false, printed w [ErrNotFound pid]).
Proof.
  intros H. apply dict_contains_false in H.
  unfold remove_product, bind, get_products. now rewrite H.
Qed.

Lemma remove_product_present w pid l p :
  PyDict.get pid (_products w) = Some l ->
  heap w !! l = Some p ->
  remove_product pid w =
    (Return true,
     mkWorld (heap w) (PyDict.delitem pid (_products w))
             (stdout w ++ [RemovedOk (name p) pid])).
Proof.
  intros Hd Hl.
  assert (Hc : PyDict.contains pid (_products w) = true)
    by (apply dict_contains_get; eauto).
  unfold remove_product, products_getitem, products_delitem, bind, get_products,
    put_products, getattr, print, ret.
  rewrite Hc. simpl. rewrite Hd, Hl. simpl. now rewrite Hc.
Qed.

Lemma update_product_details_absent w pid n d pr :
  PyDict.get pid (_products w) = None ->
  update_product_details pid n d pr w = (Return false, printed w [ErrNotFound pid]).
Proof.
  intros H. unfold update_product_details, bind. now rewrite get_product_eq, H.
Qed.

Lemma update_product_details_present w pid l p n d pr :
  PyDict.get pid (_products w) = Some l ->
  heap w !! l = Some p ->
  update_product_details pid n d pr w =
    if name_rejected n
    then (Return false, printed w [ErrUpdatingProduct NameEmpty])
    else
      let p2 := assign_opt set_description d (assign_opt set_name n p) in
      if price_rejected pr
      then (Return false, printed (store_obj w l p2) [ErrUpdatingProduct PriceNotPositive])
      else (Return true, printed (store_obj w l (assign_opt set_price pr p2)) [DetailsUpdated pid]).
Proof.
  intros Hd Hl. unfold update_product_details.
  unfold bind at 1. rewrite get_product_eq, Hd.
  unfold try_except_ValueError. unfold bind at 1.
  rewrite (update_details_eq w l p n d pr Hl).
  destruct (name_rejected n); [reflexivity|]. cbv zeta.
  destruct (price_rejected pr); reflexivity.
Qed.

Lemma update_stock_absent w pid dq :
  PyDict.get pid (_products w) = None ->
  update_stock pid dq w = (Return false, printed w [ErrNotFound pid]).
Proof.
  intros H. unfold update_stock, bind. now rewrite get_product_eq, H.
Qed.

Lemma update_stock_present w pid l p dq :
  PyDict.get pid (_products w) = Some l ->
  heap w !! l = Some p ->
  update_stock pid dq w =
    if quantity p + dq <? 0
    then (Return false, printed w [ErrUpdatingStock (stock_out_error dq p)])
    else if int_str_ok (Z.abs dq) && int_str_ok (quantity p + dq)
    then (Return true,
          printed (store_obj w l (set_quantity (quantity p + dq) p))
                  [StockMoved (Z.abs dq) (name p) pid (dq >? 0) (quantity p + dq)])
    else (Return false,
          printed (store_obj w l (set_quantity (quantity p + dq) p))
                  [ErrUpdatingStock DigitLimit]).
Proof.
  intros Hd Hl. unfold update_stock.
  unfold bind at 1. rewrite get_product_eq, Hd.
  unfold try_except_ValueError. unfold bind at 1.
  rewrite (update_quantity_eq w l p dq Hl).
  destruct (quantity p + dq <? 0); [reflexivity|].
  pose proof (store_obj_lookup w l p (set_quantity (quantity p + dq) p) Hl) as H1.
  unfold bind at 1. rewrite format_int_eq.
  destruct (int_str_ok (Z.abs dq)); [|reflexivity].
  rewrite (bind_Return _ _ _ _ _ (getattr_eq _ l _ name H1)).
  rewrite (bind_Return _ _ _ _ _ (getattr_eq _ l _ quantity H1)).
  unfold bind at 1. rewrite format_int_eq. cbn [quantity set_quantity andb].
  destruct (int_str_ok (quantity p + dq)); reflexivity.
Qed.

Lemma dict_get_elem {V} k (v : V) (d : list (string * V)) :
  PyDict.get k d = Some v -> (k, v) ∈ d.
Proof.
  induction d as [|[k' v'] d IH]; simpl; [discriminate|].
  destruct (String.eqb k k') eqn:E.
  - apply String.eqb_eq in E. intros [= ->]. subst. left.
  - intros H. right. auto.
Qed.

Lemma dict_get_None_keys {V} k (d : PyDict.t V) :
  PyDict.get k d = None <-> k ∉ PyDict.keys d.
Proof.
  induction d as [|[k' v'] d IH]; simpl.
  - split; [intros _; apply not_elem_of_nil | reflexivity].
  - rewrite not_elem_of_cons. destruct (String.eqb k k') eqn:E.
    + apply String.eqb_eq in E. split; [discriminate | intros [? _]; congruence].
    + apply String.eqb_neq in E. rewrite IH. tauto.
Qed.

Lemma dict_setitem_absent {V} k (v : V) (d : list (string * V)) :
  PyDict.get k d = None -> PyDict.setitem k v d = (d ++ [(k, v)])%list.
Proof.
  induction d as [|[k' v'] d IH]; simpl; [reflexivity|].
  destruct (String.eqb k k'); [discriminate|]. intros H. now rewrite IH.
Qed.

Lemma dict_delitem_elem {V} k k' (v : V) (d : list (string * V)) :
  (k', v) ∈ (PyDict.delitem k d : list (string * V)) -> (k', v) ∈ d /\ k <> k'.
Proof.
  unfold PyDict.delitem. rewrite !list_elem_of_In, filter_In. simpl.
  intros [H1 H2]. split; [assumption|].
  apply negb_true_iff, String.eqb_neq in H2. assumption.
Qed.

Lemma dict_delitem_NoDup {V} k (d : PyDict.t V) :
  NoDup (PyDict.keys d) -> NoDup (PyDict.keys (PyDict.delitem k d)).
Proof.
  induction d as [|[k' v'] d IH]; simpl; [trivial|].
  rewrite NoDup_cons. intros [Hk Hd].
  destruct (String.eqb k k'); simpl; [auto|].
  apply NoDup_cons. split; [|auto].
  intros Hin. apply Hk. clear -Hin.
  induction d as [|[k0 v0] d IH]; simpl in *; [assumption|].
  destruct (String.eqb k k0); simpl in *.
  - right. auto.
  - apply elem_of_cons in Hin as [->|Hin]; [left | right; auto].
Qed.

(** ** Listing *)

Lemma for_each_rows d w :
  (forall k l, (k, l) ∈ d -> exists p, heap w !! l = Some p) ->
  for_each d (fun '(_, product) =>
      i <- getattr product product_id ;;
      n <- getattr product name ;;
      pr <- getattr product price ;;
      q <- getattr product quantity ;;
      format_int q ;;
      print (InventoryRow i n pr q)) w
  = (if snd (rows_printed (heap w) d) then Return tt else Raise (ValueError DigitLimit),
     printed w (fst (rows_printed (heap w) d))).
Proof.
  revert w. induction d as [|[k l] d IH]; intros w Hd; cbn [for_each rows_printed].
  - unfold ret, printed. destruct w; simpl. now rewrite app_nil_r.
  - destruct (Hd k l) as [p Hp]; [left|]. cbn [snd]. rewrite Hp.
    unfold bind at 1.
    rewrite (bind_Return _ _ _ _ _ (getattr_eq w l p product_id Hp)).
    rewrite (bind_Return _ _ _ _ _ (getattr_eq w l p name Hp)).
    rewrite (bind_Return _ _ _ _ _ (getattr_eq w l p price Hp)).
    rewrite (bind_Return _ _ _ _ _ (getattr_eq w l p quantity Hp)).
    unfold bind at 1. rewrite format_int_eq.
    destruct (int_str_ok (quantity p)).
    + rewrite print_eq. rewrite IH.
      * rewrite printed_printed. reflexivity.
      * intros k' l' Hin. simpl. apply (Hd k' l'). now right.
    + cbn [fst snd]. unfold printed. destruct w; simpl. now rewrite app_nil_r.
Qed.

Lemma list_all_products_eq w :
  wf w -> list_all_products w = (listing_outcome w, printed w (listing w)).
Proof.
  intros [_ Hw]. unfold list_all_products, listing, listing_outcome.
  rewrite (bind_Return get_products _ w (_products w) w eq_refl).
  destruct (PyDict.is_empty (_products w)); [reflexivity|].
  rewrite (bind_Return _ _ _ _ _ (print_eq w InventoryHeader)).
  unfold PyDict.items. unfold bind.
  rewrite for_each_rows.
  2:{ intros k l Hin. simpl. destruct (Hw k l) as [p [Hp _]]; eauto. }
  cbn [printed heap _products].
  destruct (snd (rows_printed (heap w) (_products w))).
  - rewrite print_eq, !printed_printed. reflexivity.
  - rewrite !printed_printed. reflexivity.
Qed.

(** ** The invariant of reachable worlds *)

Lemma inv_initial : inv initial_world.
Proof.
  split; [split|]; simpl.
  - constructor.
  - intros k l H. inversion H.
  - constructor.
Qed.

Lemma inv_frame w w' :
  heap w' = heap w -> _products w' = _products w -> inv w -> inv w'.
Proof. unfold inv, wf. intros -> ->. trivial. Qed.

Lemma inv_printed w ls : inv w -> inv (printed w ls).
Proof. now apply inv_frame. Qed.

Lemma inv_store_obj w l p p' :
  inv w -> heap w !! l = Some p -> product_id p' = product_id p ->
  guarded_product p' -> inv (store_obj w l p').
Proof.
  intros [[Hnd Hw] Hg] Hl Hid Hp'. split; [split|]; simpl.
  - exact Hnd.
  - intros k l0 Hin. destruct (Hw k l0 Hin) as [p0 [Hp0 Hk]].
    destruct (decide (l = l0)) as [<-|Hne].
    + exists p'. split.
      * apply list_lookup_insert_eq. eapply lookup_lt_Some, Hl.
      * congruence.
    + exists p0. split; [|assumption]. now rewrite list_lookup_insert_ne.
  - apply Forall_insert; assumption.
Qed.

Lemma inv_alloc w p :
  inv w -> guarded_product p ->
  inv (mkWorld (heap w ++ [p]) (_products w) (stdout w)).
Proof.
  intros [[Hnd Hw] Hg] Hp. split; [split|]; simpl.
  - exact Hnd.
  - intros k l Hin. destruct (Hw k l Hin) as [p0 [Hp0 Hk]].
    exists p0. split; [|assumption]. now apply lookup_app_l_Some.
  - apply Forall_app. split; [assumption|]. constructor; [assumption|constructor].
Qed.

Lemma inv_setitem w l p :
  inv w -> heap w !! l = Some p ->
  PyDict.contains (product_id p) (_products w) = false ->
  inv (mkWorld (heap w) (PyDict.setitem (product_id p) l (_products w)) (stdout w)).
Proof.
  intros [[Hnd Hw] Hg] Hl Hc. apply dict_contains_false in Hc.
  split; [split|]; simpl; [| |assumption].
  - rewrite (dict_setitem_absent _ _ _ Hc). unfold PyDict.keys.
    rewrite map_app. simpl. apply NoDup_app. split; [assumption|]. split.
    + intros k Hk Hk'. apply list_elem_of_singleton in Hk'. subst k.
      now apply dict_get_None_keys in Hc.
    + apply NoDup_singleton.
  - rewrite (dict_setitem_absent _ _ _ Hc). intros k l0 Hin.
    apply elem_of_app in Hin as [Hin|Hin]; [now apply Hw|].
    apply list_elem_of_singleton in Hin. injection Hin as -> ->. eauto.
Qed.

Lemma inv_delitem w pid :
  inv w -> inv (mkWorld (heap w) (PyDict.delitem pid (_products w)) (stdout w)).
Proof.
  intros [[Hnd Hw] Hg]. split; [split|]; simpl; [| |assumption].
  - now apply dict_delitem_NoDup.
  - intros k l Hin. apply dict_delitem_elem in Hin as [Hin _]. now apply Hw.
Qed.

Lemma inv_stored w pid l :
  inv w -> PyDict.get pid (_products w) = Some l ->
  exists p, heap w !! l = Some p /\ product_id p = pid /\ guarded_product p.
Proof.
  intros [[_ Hw] Hg] Hd. apply dict_get_elem in Hd.
  destruct (Hw _ _ Hd) as [p [Hp Hid]]. exists p. repeat split; try assumption.
  all: eapply (Forall_lookup_1 _ _ _ _ Hg Hp).
Qed.

Lemma guarded_assign_details p n d :
  guarded_product p -> name_rejected n = false ->
  guarded_product (assign_opt set_description d (assign_opt set_name n p)).
Proof.
  intros (Hi & Hn & Hp & Hq) Hr.
  destruct n as [n'|], d as [d'|]; simpl in *; repeat split; try assumption.
  all: now apply str_not_false.
Qed.

Lemma guarded_assign_price p pr :
  guarded_product p -> price_rejected pr = false ->
  guarded_product (assign_opt set_price pr p).
Proof.
  intros (Hi & Hn & Hp & Hq) Hr.
  destruct pr as [pr'|]; simpl in *; repeat split; assumption.
Qed.

Lemma assign_details_id p n d pr :
  product_id (assign_opt set_price pr
                (assign_opt set_description d (assign_opt set_name n p)))
  = product_id p.
Proof. destruct n, d, pr; reflexivity. Qed.

Lemma run_call_inv w c : inv w -> call_ok w c -> inv (run_call c w).
Proof.
  intros Hinv Hok. destruct c as [i n d pr q|product|pid|pid|pid n d pr|pid dq|]; simpl.
  - rewrite Product_init_eq.
    destruct (str_not i) eqn:Ei; [assumption|].
    destruct (str_not n) eqn:En; [assumption|].
    destruct (float_le0 pr) eqn:Ep; [assumption|].
    destruct (q <? 0) eqn:Eq; [assumption|]. simpl.
    apply inv_alloc; [assumption|].
    repeat split; simpl; try (now apply str_not_false); [assumption|lia].
  - simpl in Hok. apply lookup_lt_is_Some in Hok as [p Hp].
    rewrite (add_product_eq _ _ _ Hp).
    destruct (PyDict.contains _ _) eqn:Ec; simpl.
    + now apply inv_printed.
    + apply (inv_frame (mkWorld (heap w)
               (PyDict.setitem (product_id p) product (_products w)) (stdout w)));
        [reflexivity..|]. now apply inv_setitem.
  - destruct (PyDict.get pid (_products w)) as [l|] eqn:Ed.
    + destruct (inv_stored _ _ _ Hinv Ed) as (p & Hp & _ & _).
      rewrite (remove_product_present _ _ _ _ Ed Hp). simpl.
      apply (inv_frame (mkWorld (heap w) (PyDict.delitem pid (_products w)) (stdout w)));
        [reflexivity..|]. now apply inv_delitem.
    + rewrite (remove_product_absent _ _ Ed). now apply inv_printed.
  - rewrite get_product_eq.
    destruct (PyDict.get pid (_products w)); simpl; [assumption|now apply inv_printed].
  - destruct (PyDict.get pid (_products w)) as [l|] eqn:Ed.
    + destruct (inv_stored _ _ _ Hinv Ed) as (p & Hp & _ & Hg).
      rewrite (update_product_details_present _ _ _ _ _ _ _ Ed Hp).
      destruct (name_rejected n) eqn:En; [now apply inv_printed|]. cbv zeta.
      pose proof (guarded_assign_details p n d Hg En) as Hg2.
      destruct (price_rejected pr) eqn:Epr; simpl; apply inv_printed.
      * eapply inv_store_obj; eauto. apply (assign_details_id p n d None).
      * eapply inv_store_obj; eauto using assign_details_id, guarded_assign_price.
    + rewrite (update_product_details_absent _ _ _ _ _ Ed). now apply inv_printed.
  - destruct (PyDict.get pid (_products w)) as [l|] eqn:Ed.
    + destruct (inv_stored _ _ _ Hinv Ed) as (p & Hp & _ & Hg).
      rewrite (update_stock_present _ _ _ _ _ Ed Hp).
      destruct (quantity p + dq <? 0) eqn:Eq; [simpl; now apply inv_printed|].
      assert (Hg' : guarded_product (set_quantity (quantity p + dq) p)).
      { destruct Hg as (Hi & Hn & Hpr & Hq). repeat split; simpl; try assumption. lia. }
      destruct (int_str_ok (Z.abs dq) && int_str_ok (quantity p + dq));
        simpl; apply inv_printed; eapply inv_store_obj; eauto.
    + rewrite (update_stock_absent _ _ _ Ed). now apply inv_printed.
  - rewrite list_all_products_eq by apply Hinv. now apply inv_printed.
Qed.

Lemma reachable_inv w : reachable w -> inv w.
Proof.
  induction 1 as [|w c _ IH Hok]; [apply inv_initial | now apply run_call_inv].
Qed.

Lemma prepopulated_eq :
  run_call (AddProduct 1%nat)
    (run_call (AddProduct 0%nat)
      (run_call (Construct "MSE002" "Wireless Mouse" "Ergonomic wireless mouse" price_25_50 50)
        (run_call (Construct "LPT001" "Laptop X1" "High-performance laptop" price_1200_99 10)
          initial_world)))
  = prepopulated.
Proof. reflexivity. Qed.

Lemma prepopulated_reachable : reachable prepopulated.
Proof.
  rewrite <- prepopulated_eq.
  repeat (apply reachable_step; [|simpl; lia || exact I]).
  apply reachable_initial.
Qed.

Lemma prepopulated_wf : wf prepopulated.
Proof. apply reachable_inv, prepopulated_reachable. Qed.

(** The scenario of the specification, run on the store of the entry
    sequence: a stock-out of 15 fails with 10 in stock, a stock-in of 5
    gives 15, the removal succeeds and the product is then absent. *)
Example laptop_scenario :
  let run :=
    a <- update_stock "LPT001" (-15) ;;
    b <- update_stock "LPT001" 5 ;;
    q <- getattr 0%nat quantity ;;
    c <- remove_product "LPT001" ;;
    r <- get_product "LPT001" ;;
    ret (a, b, q, c, r) in
  fst (run prepopulated) = Return (false, true, 15, true, None).
Proof. reflexivity. Qed.

(** ** Products: construction *)

(** Construction succeeds exactly when no guard fires, and then yields a
    new object whose five attributes are the arguments. *)
Lemma Product_init_guarded i n d pr q w :
  guarded_product (mkProduct i n d pr q) <->
  Product_init i n d pr q w =
    (Return (length (heap w)),
     mkWorld (heap w ++ [mkProduct i n d pr q]) (_products w) (stdout w)).
Proof.
  rewrite Product_init_eq. unfold guarded_product. simpl.
  rewrite <- !str_not_false. split.
  - intros (-> & -> & -> & Hq). apply Z.ltb_ge in Hq. now rewrite Hq.
  - destruct (str_not i); [discriminate|]. destruct (str_not n); [discriminate|].
    destruct (float_le0 pr); [discriminate|].
    destruct (q <? 0) eqn:Hq; [discriminate|]. apply Z.ltb_ge in Hq. auto.
Qed.

Lemma Product_init_valid i n d pr q w :
  valid_product (mkProduct i n d pr q) ->
  exists w', Product_init i n d pr q w = (Return (length (heap w)), w') /\
             heap w' !! length (heap w) = Some (mkProduct i n d pr q).
Proof.
  intros (Hi & Hn & Hp & Hq). simpl in *. eexists. split.
  - apply Product_init_guarded. repeat split; simpl; auto using float_gt0_not_le0.
  - simpl. rewrite lookup_app_r by lia. now rewrite Nat.sub_diag.
Qed.

Lemma Product_init_rejects i n d pr q w :
  i = EmptyString \/ n = EmptyString \/ float_le0 pr = true \/ q < 0 ->
  exists e, Product_init i n d pr q w = (Raise (ValueError e), w) /\
            kind_of e = InvalidArgument.
Proof.
  intros H. rewrite Product_init_eq.
  destruct (str_not i) eqn:Ei; [eauto|].
  destruct (str_not n) eqn:En; [eauto|].
  destruct (float_le0 pr) eqn:Ep; [eauto|].
  destruct (q <? 0) eqn:Eq; [eauto|]. exfalso.
  apply str_not_false in Ei, En. apply Z.ltb_ge in Eq.
  destruct H as [H|[H|[H|H]]]; try congruence. lia.
Qed.

(** C2: [Product("NAN001", "Widget", "", nan, 0)] is constructed, although
    its price is not greater than zero: [nan <= 0] is false, so the guard
    of line 12 does not fire. *)
Theorem Product_init_accepts_nan :
  Product_init "NAN001" "Widget" EmptyString S754_nan 0 initial_world =
    (Return 0%nat,
     mkWorld [mkProduct "NAN001" "Widget" EmptyString S754_nan 0] PyDict.empty []) /\
  float_gt0 S754_nan = false /\
  float_le0 S754_nan = false.
Proof. repeat split. Qed.

(** ** The invariant on stored products *)

Lemma reachable_stored_guarded w pid p :
  reachable w -> stored w pid = Some p -> guarded_product p /\ product_id p = pid.
Proof.
  intros Hr Hs. apply reachable_inv in Hr. unfold stored in Hs.
  destruct (PyDict.get pid (_products w)) as [l|] eqn:Ed; [|discriminate].
  destruct (inv_stored _ _ _ Hr Ed) as (p' & Hp' & Hid & Hg).
  rewrite Hp' in Hs. injection Hs as <-. auto.
Qed.

(** Apart from a NaN price, a stored product of a reachable world satisfies
    the invariant of the data model. *)
Lemma reachable_stored_valid_or_nan w pid p :
  reachable w -> stored w pid = Some p -> valid_product p \/ price p = S754_nan.
Proof.
  intros Hr Hs. destruct (reachable_stored_guarded _ _ _ Hr Hs) as [(Hi & Hn & Hp & Hq) _].
  destruct (float_not_le0_cases _ Hp) as [Hgt|Hnan]; [left|right]; [|assumption].
  repeat split; assumption.
Qed.

(** C1: the store reached by constructing a product with a NaN price and
    adding it holds a product whose price is not greater than zero. *)
Theorem reachable_store_holds_nan_price :
  reachable nan_store /\
  exists p, stored nan_store "NAN001" = Some p /\
            float_gt0 (price p) = false /\ ~ valid_product p.
Proof.
  split.
  - unfold nan_store. repeat (apply reachable_step; [|simpl; lia || exact I]).
    apply reachable_initial.
  - exists (mkProduct "NAN001" "Widget" EmptyString S754_nan 0).
    split; [reflexivity|]. split; [reflexivity|].
    intros (_ & _ & H & _). discriminate H.
Qed.

(** ** Quantity updates *)

Lemma stored_store_obj w pid l p' out :
  PyDict.get pid (_products w) = Some l -> (l < length (heap w))%nat ->
  stored (printed (store_obj w l p') out) pid = Some p'.
Proof.
  intros Hd Hl. unfold stored. simpl. rewrite Hd.
  now apply list_lookup_insert_eq.
Qed.

(** A stock-in of a stored product whose quantity is not negative. *)
(** A stock-in of a stored product whose quantity is not negative, when
    the new quantity can be formatted. *)
Lemma update_stock_in w pid l p delta :
  PyDict.get pid (_products w) = Some l -> heap w !! l = Some p ->
  0 <= quantity p -> 0 < delta -> quantity p + delta < digit_limit ->
  update_stock pid delta w =
    (Return true,
     printed (store_obj w l (set_quantity (quantity p + delta) p))
             [StockMoved (Z.abs delta) (name p) pid true (quantity p + delta)]).
Proof.
  intros Hd Hp Hq Hdelta Hlim. rewrite (update_stock_present _ _ _ _ _ Hd Hp).
  assert (Hge : (quantity p + delta <? 0) = false) by lia.
  assert (Hin : (delta >? 0) = true) by lia.
  assert (H1 : int_str_ok (Z.abs delta) = true) by (apply int_str_ok_spec; lia).
  assert (H2 : int_str_ok (quantity p + delta) = true) by (apply int_str_ok_spec; lia).
  now rewrite Hge, Hin, H1, H2.
Qed.

(** A stock-in whose new quantity cannot be formatted: the quantity is
    committed, then the f-string of lines 117-118 raises inside the [try]
    and the call returns [False]. *)
Lemma update_stock_in_beyond_limit w pid l p delta :
  PyDict.get pid (_products w) = Some l -> heap w !! l = Some p ->
  0 <= quantity p -> 0 < delta -> digit_limit <= quantity p + delta ->
  update_stock pid delta w =
    (Return false,
     printed (store_obj w l (set_quantity (quantity p + delta) p))
             [ErrUpdatingStock DigitLimit]).
Proof.
  intros Hd Hp Hq Hdelta Hlim. rewrite (update_stock_present _ _ _ _ _ Hd Hp).
  assert (Hge : (quantity p + delta <? 0) = false) by lia.
  assert (H2 : int_str_ok (quantity p + delta) = false) by (apply int_str_ok_false; lia).
  rewrite Hge, H2. now destruct (int_str_ok (Z.abs delta)).
Qed.

Lemma prepopulated_laptop :
  PyDict.get "LPT001" (_products prepopulated) = Some 0%nat /\
  heap prepopulated !! 0%nat = Some laptop.
Proof. split; reflexivity. Qed.

(** C3: [update_quantity] computes [quantity + delta]; a negative result
    raises [ValueError] and changes nothing, any other result is
    committed.  A stock-in ([delta > 0]) of a present id in a reachable
    world always commits [quantity + delta], the other attributes
    unchanged; it returns [True] when the new quantity has at most 4300
    digits.  Beyond that the update does not succeed: after the quantity
    has been committed the f-string of lines 117-118 raises inside the
    [try], the error is printed and [False] is returned. *)
Theorem update_stock_in_commits_but_may_report_failure w pid l p delta :
  reachable w ->
  PyDict.get pid (_products w) = Some l -> heap w !! l = Some p ->
  let p' := mkProduct (product_id p) (name p) (description p) (price p)
                      (quantity p + delta) in
  (quantity p + delta < 0 ->
     update_quantity l delta w = (Raise (ValueError (stock_out_error delta p)), w)) /\
  (0 <= quantity p + delta ->
     update_quantity l delta w = (Return tt, store_obj w l p')) /\
  (0 < delta -> quantity p + delta < digit_limit ->
     update_stock pid delta w =
       (Return true,
        printed (store_obj w l p') [StockMoved delta (name p) pid true (quantity p + delta)])) /\
  (0 < delta -> digit_limit <= quantity p + delta ->
     update_stock pid delta w =
       (Return false, printed (store_obj w l p') [ErrUpdatingStock DigitLimit])) /\
  (0 < delta -> stored (snd (update_stock pid delta w)) pid = Some p').
Proof.
  intros Hr Hd Hp p'.
  assert (Hs : stored w pid = Some p) by (unfold stored; now rewrite Hd).
  destruct (reachable_stored_guarded _ _ _ Hr Hs) as [(_ & _ & _ & Hq) _].
  assert (Hlt : (l < length (heap w))%nat) by (eapply lookup_lt_Some, Hp).
  change p' with (set_quantity (quantity p + delta) p).
  split; [|split; [|split; [|split]]].
  - intros Hneg. rewrite (update_quantity_eq _ _ _ _ Hp).
    apply Z.ltb_lt in Hneg. now rewrite Hneg.
  - intros Hge. rewrite (update_quantity_eq _ _ _ _ Hp).
    apply Z.ltb_ge in Hge. now rewrite Hge.
  - intros Hdelta Hlim. rewrite (update_stock_in _ _ _ _ _ Hd Hp Hq Hdelta Hlim).
    now replace (Z.abs delta) with delta by lia.
  - intros Hdelta Hlim. now apply update_stock_in_beyond_limit.
  - intros Hdelta.
    destruct (Z.lt_ge_cases (quantity p + delta) digit_limit) as [Hlim|Hlim].
    + rewrite (update_stock_in _ _ _ _ _ Hd Hp Hq Hdelta Hlim).
      now apply stored_store_obj.
    + rewrite (update_stock_in_beyond_limit _ _ _ _ _ Hd Hp Hq Hdelta Hlim).
      now apply stored_store_obj.
Qed.

Lemma update_stock_in_commits_but_may_report_failure_witness :
  reachable prepopulated /\
  PyDict.get "LPT001" (_products prepopulated) = Some 0%nat /\
  heap prepopulated !! 0%nat = Some laptop /\
  update_stock "LPT001" digit_limit prepopulated =
    (Return false,
     printed (store_obj prepopulated 0%nat
                (mkProduct "LPT001" "Laptop X1" "High-performance laptop" price_1200_99
                           (10 + digit_limit)))
             [ErrUpdatingStock DigitLimit]) /\
  update_stock "LPT001" 5 prepopulated =
    (Return true,
     printed (store_obj prepopulated 0%nat
                (mkProduct "LPT001" "Laptop X1" "High-performance laptop" price_1200_99 15))
             [StockMoved 5 "Laptop X1" "LPT001" true 15]).
Proof.
  pose proof digit_limit_pos as Hpos.
  destruct prepopulated_laptop as [Hd Hp].
  split; [exact prepopulated_reachable|]. split; [exact Hd|]. split; [exact Hp|]. split.
  - apply (update_stock_in_commits_but_may_report_failure prepopulated "LPT001" 0%nat laptop
             digit_limit prepopulated_reachable Hd Hp); [exact Hpos|].
    change (quantity laptop) with 10. lia.
  - apply (update_stock_in_commits_but_may_report_failure prepopulated "LPT001" 0%nat laptop
             5 prepopulated_reachable Hd Hp); [lia|].
    assert (H15 : Z.abs 15 < digit_limit) by (apply int_str_ok_spec; reflexivity).
    change (quantity laptop) with 10. lia.
Defined.

(** ** Adding and removing *)

(** C4: adding a product whose id is already a key returns [False] and
    changes neither the dictionary nor any object; after a successful add,
    the product is stored with its fields, and adding any product with the
    same id fails in the same way. *)
Theorem add_product_never_overwrites w product p :
  heap w !! product = Some p ->
  (PyDict.contains (product_id p) (_products w) = true ->
     exists out, add_product product w = (Return false, printed w out)) /\
  (forall w1 product2 p2,
     add_product product w = (Return true, w1) ->
     heap w1 !! product2 = Some p2 -> product_id p2 = product_id p ->
     stored w1 (product_id p) = Some p /\
     exists out, add_product product2 w1 = (Return false, printed w1 out)).
Proof.
  intros Hp. split.
  - intros Hc. rewrite (add_product_eq _ _ _ Hp), Hc. eauto.
  - intros w1 product2 p2 Hadd Hp2 Hid.
    rewrite (add_product_eq _ _ _ Hp) in Hadd.
    destruct (PyDict.contains (product_id p) (_products w)); [discriminate|].
    injection Hadd as <-.
    assert (Hget : PyDict.get (product_id p)
                     (PyDict.setitem (product_id p) product (_products w)) = Some product)
      by apply dict_get_setitem_eq.
    split.
    + unfold stored. simpl. now rewrite Hget.
    + rewrite (add_product_eq _ _ _ Hp2), Hid. simpl.
      unfold PyDict.contains. rewrite Hget. eauto.
Qed.

Lemma add_product_never_overwrites_witness :
  heap prepopulated !! 1%nat = Some mouse /\
  PyDict.contains (product_id mouse) (_products prepopulated) = true /\
  exists out, add_product 1%nat prepopulated = (Return false, printed prepopulated out).
Proof.
  split; [reflexivity|]. split; [reflexivity|].
  apply (add_product_never_overwrites prepopulated 1%nat mouse eq_refl). reflexivity.
Defined.

(** C5: removing an absent id returns [False] and changes neither the
    dictionary nor any object; removing a present id returns [True],
    deletes that entry and no other, and [get_product] on the resulting
    store returns [None]. *)
Theorem remove_product_absent_or_present w pid :
  wf w ->
  (PyDict.contains pid (_products w) = false ->
     exists out, remove_product pid w = (Return false, printed w out)) /\
  (PyDict.contains pid (_products w) = true ->
     exists w', remove_product pid w = (Return true, w') /\
                heap w' = heap w /\
                PyDict.contains pid (_products w') = false /\
                (forall k, k <> pid ->
                   PyDict.get k (_products w') = PyDict.get k (_products w)) /\
                fst (get_product pid w') = Return None).
Proof.
  intros [_ Hw]. split.
  - intros Hc. apply dict_contains_false in Hc.
    rewrite (remove_product_absent _ _ Hc). eauto.
  - intros Hc. apply dict_contains_get in Hc as [l Hd].
    destruct (Hw _ _ (dict_get_elem _ _ _ Hd)) as [p [Hp _]].
    rewrite (remove_product_present _ _ _ _ Hd Hp).
    eexists. split; [reflexivity|]. simpl.
    split; [reflexivity|]. split; [|split].
    + apply dict_contains_false, dict_get_delitem_eq.
    + intros k Hk. apply dict_get_delitem_ne. congruence.
    + rewrite get_product_eq. simpl. now rewrite dict_get_delitem_eq.
Qed.

Lemma remove_product_absent_or_present_witness :
  wf prepopulated /\
  (exists out, remove_product "XYZ000" prepopulated = (Return false, printed prepopulated out)) /\
  (exists w', remove_product "LPT001" prepopulated = (Return true, w') /\
              heap w' = heap prepopulated /\
              PyDict.contains "LPT001" (_products w') = false /\
              (forall k, k <> "LPT001" ->
                 PyDict.get k (_products w') = PyDict.get k (_products prepopulated)) /\
              fst (get_product "LPT001" w') = Return None).
Proof.
  split; [exact prepopulated_wf|]. split.
  - apply (remove_product_absent_or_present prepopulated "XYZ000" prepopulated_wf).
    reflexivity.
  - apply (remove_product_absent_or_present prepopulated "LPT001" prepopulated_wf).
    reflexivity.
Defined.

(** ** Detail updates *)

(** C6 as stated does not hold when a description is given: it is assigned
    before the price is looked at. *)
Lemma failed_update_changes_description :
  heap prepopulated !! 0%nat = Some laptop /\
  str_not "Laptop X2" = false /\
  float_le0 float_zero = true /\
  ~ failed_update_keeps_description prepopulated 0%nat laptop
      "Laptop X2" (Some "Refurbished") float_zero.
Proof.
  repeat split. intros (e & w' & p' & Hrun & _ & Hp' & _ & _ & Hd).
  vm_compute in Hrun. injection Hrun as _ <-.
  vm_compute in Hp'. injection Hp' as <-. discriminate Hd.
Qed.

(** C6, as the code has it: a detail update with a non-empty name and a
    price [<= 0] fails with the price error (an InvalidArgument) after the
    name has been assigned, and after the description has been assigned
    when one is given; the description is unchanged only when none is
    given, the price is unchanged, and [update_product_details] turns the
    failure into [False], keeping these assignments. *)
Theorem update_details_partial_on_bad_price w self p n d pr :
  heap w !! self = Some p -> n <> EmptyString -> float_le0 pr = true ->
  let p' := assign_opt set_description d (set_name n p) in
  update_details self (Some n) d (Some pr) w =
    (Raise (ValueError PriceNotPositive), store_obj w self p') /\
  kind_of PriceNotPositive = InvalidArgument /\
  heap (store_obj w self p') !! self = Some p' /\
  name p' = n /\
  description p' = default (description p) d /\
  price p' = price p /\
  quantity p' = quantity p /\
  (forall pid, PyDict.get pid (_products w) = Some self ->
     update_product_details pid (Some n) d (Some pr) w =
       (Return false, printed (store_obj w self p') [ErrUpdatingProduct PriceNotPositive])).
Proof.
  intros Hp Hn Hpr p'. apply str_not_false in Hn.
  split; [|split; [reflexivity|split; [|split; [|split; [|split; [|split]]]]]].
  - rewrite (update_details_eq _ _ _ _ _ _ Hp). simpl. now rewrite Hn, Hpr.
  - eapply store_obj_lookup, Hp.
  - subst p'. now destruct d.
  - subst p'. now destruct d.
  - subst p'. now destruct d.
  - subst p'. now destruct d.
  - intros pid Hd. rewrite (update_product_details_present _ _ _ _ _ _ _ Hd Hp).
    simpl. now rewrite Hn, Hpr.
Qed.

Lemma update_details_partial_on_bad_price_witness :
  heap prepopulated !! 0%nat = Some laptop /\
  "Laptop X2" <> EmptyString /\
  float_le0 float_zero = true /\
  update_details 0%nat (Some "Laptop X2") (Some "Refurbished") (Some float_zero) prepopulated =
    (Raise (ValueError PriceNotPositive),
     store_obj prepopulated 0%nat
       (mkProduct "LPT001" "Laptop X2" "Refurbished" price_1200_99 10)).
Proof.
  split; [reflexivity|]. split; [discriminate|]. split; [reflexivity|].
  apply (update_details_partial_on_bad_price prepopulated 0%nat laptop
           "Laptop X2" (Some "Refurbished") float_zero eq_refl);
    [discriminate | reflexivity].
Defined.

(** C10: with no name, description or price given, [update_product_details]
    on a present id returns [True]; it prints its success line and changes
    neither the dictionary nor any object. *)
Theorem update_product_details_nothing_given w pid :
  PyDict.contains pid (_products w) = true ->
  update_product_details pid None None None w =
    (Return true, printed w [DetailsUpdated pid]).
Proof.
  intros Hc. apply dict_contains_get in Hc as [l Hd].
  unfold update_product_details. unfold bind at 1. now rewrite get_product_eq, Hd.
Qed.

Lemma update_product_details_nothing_given_witness :
  PyDict.contains "MSE002" (_products prepopulated) = true /\
  update_product_details "MSE002" None None None prepopulated =
    (Return true, printed prepopulated [DetailsUpdated "MSE002"]).
Proof.
  split; [reflexivity|].
  apply (update_product_details_nothing_given prepopulated "MSE002"). reflexivity.
Defined.

(** ** Stock updates with a non-positive amount *)

(** C7 as stated does not hold at amount 0: the update succeeds. *)
Lemma zero_amount_accepted :
  stored prepopulated "LPT001" = Some laptop /\
  update_stock "LPT001" 0 prepopulated =
    (Return true, printed prepopulated [StockMoved 0 "Laptop X1" "LPT001" false 10]) /\
  ~ nonpositive_amount_rejected prepopulated "LPT001" 0.
Proof.
  repeat split. intros (e & w' & Hrun & _). vm_compute in Hrun. discriminate Hrun.
Qed.

Lemma set_quantity_same p : set_quantity (quantity p) p = p.
Proof. now destruct p. Qed.

(** C7, as the code has it: the store does not reject an amount for being
    non-positive.  For a present id and [delta <= 0], where [abs(delta)]
    and the stored quantity have at most 4300 digits, [update_stock]
    succeeds when [quantity + delta >= 0], committing that quantity, the
    other attributes unchanged, and reporting a stock-out; it fails only
    when [quantity + delta < 0], with the insufficient-stock error (an
    InvalidState), changing nothing but the output; with [delta = 0] on a
    product whose quantity is not negative it returns [True] and changes
    nothing but the output. *)
Theorem update_stock_nonpositive_amount w pid l p delta :
  PyDict.get pid (_products w) = Some l -> heap w !! l = Some p -> delta <= 0 ->
  Z.abs delta < digit_limit -> Z.abs (quantity p) < digit_limit ->
  (0 <= quantity p + delta ->
     update_stock pid delta w =
       (Return true,
        printed (store_obj w l
                   (mkProduct (product_id p) (name p) (description p) (price p)
                              (quantity p + delta)))
                [StockMoved (Z.abs delta) (name p) pid false (quantity p + delta)])) /\
  (quantity p + delta < 0 ->
     update_stock pid delta w =
       (Return false,
        printed w [ErrUpdatingStock (CannotStockOut (Z.abs delta) (quantity p) (name p))]) /\
     kind_of (CannotStockOut (Z.abs delta) (quantity p) (name p)) = InvalidState) /\
  (delta = 0 -> 0 <= quantity p ->
     update_stock pid delta w =
       (Return true, printed w [StockMoved 0 (name p) pid false (quantity p)])).
Proof.
  intros Hd Hp Hdelta Hld Hlq. rewrite (update_stock_present _ _ _ _ _ Hd Hp).
  assert (Hact : (delta >? 0) = false) by lia. rewrite Hact.
  assert (Hokd : int_str_ok (Z.abs delta) = true) by (apply int_str_ok_spec; lia).
  assert (Hokq : int_str_ok (quantity p) = true) by (now apply int_str_ok_spec).
  rewrite Hokd.
  change (mkProduct (product_id p) (name p) (description p) (price p) (quantity p + delta))
    with (set_quantity (quantity p + delta) p).
  split; [|split].
  - intros Hge.
    assert (Hok : int_str_ok (quantity p + delta) = true) by (apply int_str_ok_spec; lia).
    apply Z.ltb_ge in Hge. now rewrite Hge, Hok.
  - intros Hlt. apply Z.ltb_lt in Hlt. rewrite Hlt. unfold stock_out_error.
    rewrite Hokd, Hokq. split; reflexivity.
  - intros -> Hq. rewrite Z.add_0_r. apply Z.ltb_ge in Hq. rewrite Hq, Hokq.
    now rewrite set_quantity_same, (store_obj_same _ _ _ Hp).
Qed.

Lemma update_stock_nonpositive_amount_witness :
  PyDict.get "LPT001" (_products prepopulated) = Some 0%nat /\
  heap prepopulated !! 0%nat = Some laptop /\
  0 <= 0 /\ -4 <= 0 /\
  Z.abs 0 < digit_limit /\ Z.abs (-4) < digit_limit /\
  Z.abs (quantity laptop) < digit_limit /\
  update_stock "LPT001" 0 prepopulated =
    (Return true, printed prepopulated [StockMoved 0 "Laptop X1" "LPT001" false 10]) /\
  update_stock "LPT001" (-4) prepopulated =
    (Return true,
     printed (store_obj prepopulated 0%nat
                (mkProduct "LPT001" "Laptop X1" "High-performance laptop" price_1200_99 6))
             [StockMoved 4 "Laptop X1" "LPT001" false 6]).
Proof.
  assert (H0 : Z.abs 0 < digit_limit) by (apply int_str_ok_spec; reflexivity).
  assert (H4 : Z.abs (-4) < digit_limit) by (apply int_str_ok_spec; reflexivity).
  assert (Hq : Z.abs (quantity laptop) < digit_limit)
    by (apply int_str_ok_spec; reflexivity).
  assert (Hle0 : 0 <= 0) by lia. assert (Hle4 : -4 <= 0) by lia.
  do 7 (split; [first [reflexivity | assumption]|]). split.
  - apply (update_stock_nonpositive_amount prepopulated "LPT001" 0%nat laptop 0
             eq_refl eq_refl Hle0 H0 Hq); [reflexivity | simpl; lia].
  - apply (update_stock_nonpositive_amount prepopulated "LPT001" 0%nat laptop (-4)
             eq_refl eq_refl Hle4 H4 Hq). simpl. lia.
Defined.

(** ** The store boundary *)

Lemma rows_printed_stops h (d : list (string * loc)) k l p :
  (forall k l, (k, l) ∈ d -> exists p, h !! l = Some p) ->
  (k, l) ∈ d -> h !! l = Some p -> int_str_ok (quantity p) = false ->
  snd (rows_printed h d) = false.
Proof.
  induction d as [|[k0 l0] d IH]; intros Hall Hin Hp Hbig.
  - inversion Hin.
  - cbn [rows_printed snd]. destruct (Hall k0 l0) as [p0 Hp0]; [left|].
    rewrite Hp0. destruct (int_str_ok (quantity p0)) eqn:Hok; [|reflexivity].
    cbn [snd]. apply elem_of_cons in Hin as [Heq|Hin].
    + injection Heq as -> ->. rewrite Hp in Hp0. injection Hp0 as <-. congruence.
    + apply IH; auto. intros k' l' Hin'. apply (Hall k' l'). now right.
Qed.

Lemma big_store_reachable : reachable big_store.
Proof.
  assert (H1 : run_call (Construct "BIG001" "Big" EmptyString price_25_50 digit_limit)
                 initial_world = mkWorld [big] PyDict.empty []).
  { unfold run_call.
    rewrite (proj1 (Product_init_guarded "BIG001" "Big" EmptyString price_25_50
                      digit_limit initial_world)); [reflexivity|].
    split; [discriminate|]. split; [discriminate|]. split; [reflexivity|].
    change (0 <= digit_limit). pose proof digit_limit_pos. lia. }
  assert (H2 : run_call (AddProduct 0%nat) (mkWorld [big] PyDict.empty []) = big_store).
  { unfold run_call.
    rewrite (add_product_eq (mkWorld [big] PyDict.empty []) 0%nat big eq_refl).
    reflexivity. }
  rewrite <- H2, <- H1.
  apply reachable_step; [|simpl; lia].
  apply reachable_step; [|exact I]. apply reachable_initial.
Qed.

Lemma big_store_wf : wf big_store.
Proof. apply reachable_inv, big_store_reachable. Qed.

Lemma big_quantity : digit_limit <= Z.abs (quantity big).
Proof. change (quantity big) with digit_limit. pose proof digit_limit_pos. lia. Qed.

(** The five store operations that print texts only return a value in
    every well-formed world. *)
Lemma store_operations_with_a_result_return w :
  wf w ->
  (forall product, (product < length (heap w))%nat ->
     exists (b : bool) w', add_product product w = (Return b, w')) /\
  (forall pid, exists (b : bool) w', remove_product pid w = (Return b, w')) /\
  (forall pid, exists (r : option loc) w', get_product pid w = (Return r, w')) /\
  (forall pid n d pr,
     exists (b : bool) w', update_product_details pid n d pr w = (Return b, w')) /\
  (forall pid delta, exists (b : bool) w', update_stock pid delta w = (Return b, w')).
Proof.
  intros Hwf. pose proof Hwf as [_ Hw].
  assert (Hobj : forall pid l, PyDict.get pid (_products w) = Some l ->
                   exists p, heap w !! l = Some p).
  { intros pid l Hd. destruct (Hw _ _ (dict_get_elem _ _ _ Hd)) as [p [Hp _]]. eauto. }
  repeat split.
  - intros product Hlt. apply lookup_lt_is_Some in Hlt as [p Hp].
    rewrite (add_product_eq _ _ _ Hp). destruct (PyDict.contains _ _); eauto.
  - intros pid. destruct (PyDict.get pid (_products w)) as [l|] eqn:Hd.
    + destruct (Hobj _ _ Hd) as [p Hp].
      rewrite (remove_product_present _ _ _ _ Hd Hp). eauto.
    + rewrite (remove_product_absent _ _ Hd). eauto.
  - intros pid. rewrite get_product_eq. destruct (PyDict.get pid (_products w)); eauto.
  - intros pid n d pr. destruct (PyDict.get pid (_products w)) as [l|] eqn:Hd.
    + destruct (Hobj _ _ Hd) as [p Hp].
      rewrite (update_product_details_present _ _ _ _ _ _ _ Hd Hp).
      destruct (name_rejected n); [eauto|]. cbv zeta.
      destruct (price_rejected pr); eauto.
    + rewrite (update_product_details_absent _ _ _ _ _ Hd). eauto.
  - intros pid delta. destruct (PyDict.get pid (_products w)) as [l|] eqn:Hd.
    + destruct (Hobj _ _ Hd) as [p Hp].
      rewrite (update_stock_present _ _ _ _ _ Hd Hp).
      destruct (quantity p + delta <? 0); [eauto|].
      destruct (int_str_ok (Z.abs delta) && int_str_ok (quantity p + delta)); eauto.
    + rewrite (update_stock_absent _ _ _ Hd). eauto.
Qed.

(** C8: [list_all_products] has no [try]: in a well-formed world that
    stores a product whose quantity has more than 4300 digits it prints
    the header and the rows before that product, and then the
    [ValueError] of the f-string of lines 132-133 reaches the caller.  The
    store itself is left as it was. *)
Theorem list_all_products_raises_to_its_caller w pid p :
  wf w -> stored w pid = Some p -> digit_limit <= Z.abs (quantity p) ->
  exists out,
    list_all_products w = (Raise (ValueError DigitLimit), printed w (InventoryHeader :: out)).
Proof.
  intros Hwf Hs Hbig. pose proof Hwf as [_ Hw].
  unfold stored in Hs. destruct (PyDict.get pid (_products w)) as [l|] eqn:Hd; [|discriminate].
  rewrite (list_all_products_eq _ Hwf). unfold listing_outcome, listing.
  assert (Hne : PyDict.is_empty (_products w) = false).
  { destruct (_products w); [discriminate Hd | reflexivity]. }
  assert (Hstop : snd (rows_printed (heap w) (_products w)) = false).
  { apply (rows_printed_stops _ _ pid l p).
    - intros k0 l0 Hin. destruct (Hw _ _ Hin) as (p0 & Hp0 & _). eauto.
    - now apply dict_get_elem.
    - exact Hs.
    - now apply int_str_ok_false. }
  rewrite Hne, Hstop. eauto.
Qed.

Lemma list_all_products_raises_to_its_caller_witness :
  wf big_store /\ stored big_store "BIG001" = Some big /\
  digit_limit <= Z.abs (quantity big) /\
  exists out,
    list_all_products big_store =
      (Raise (ValueError DigitLimit), printed big_store (InventoryHeader :: out)).
Proof.
  split; [exact big_store_wf|]. split; [reflexivity|]. split; [exact big_quantity|].
  apply (list_all_products_raises_to_its_caller big_store "BIG001" big
           big_store_wf eq_refl big_quantity).
Defined.

(** C9: [list_all_products] only prints.  Whether it returns or raises, it
    leaves every object and the dictionary as they were, and a second call
    right after the first has the same outcome and prints the same lines
    again. *)
Theorem list_all_products_pure_read w :
  wf w ->
  exists r w1 w2 out,
    list_all_products w = (r, w1) /\
    list_all_products w1 = (r, w2) /\
    (r = Return tt \/ r = Raise (ValueError DigitLimit)) /\
    heap w1 = heap w /\ _products w1 = _products w /\
    heap w2 = heap w /\ _products w2 = _products w /\
    stdout w1 = (stdout w ++ out)%list /\
    stdout w2 = (stdout w1 ++ out)%list.
Proof.
  intros Hwf.
  exists (listing_outcome w), (printed w (listing w)),
    (printed (printed w (listing w)) (listing w)), (listing w).
  split; [now apply list_all_products_eq|]. split.
  - rewrite list_all_products_eq; [reflexivity|]. exact Hwf.
  - split; [|repeat split]. unfold listing_outcome.
    destruct (PyDict.is_empty (_products w)); [now left|].
    destruct (snd (rows_printed (heap w) (_products w))); [now left | now right].
Qed.

Lemma list_all_products_pure_read_witness :
  wf prepopulated /\ wf big_store /\
  (exists w1 w2 out,
     list_all_products prepopulated = (Return tt, w1) /\
     list_all_products w1 = (Return tt, w2) /\
     heap w2 = heap prepopulated /\ _products w2 = _products prepopulated /\
     stdout w1 = (stdout prepopulated ++ out)%list /\
     stdout w2 = (stdout w1 ++ out)%list) /\
  (exists r w1 w2 out,
     list_all_products big_store = (r, w1) /\
     list_all_products w1 = (r, w2) /\
     heap w2 = heap big_store /\ _products w2 = _products big_store /\
     stdout w1 = (stdout big_store ++ out)%list /\
     stdout w2 = (stdout w1 ++ out)%list).
Proof.
  split; [exact prepopulated_wf|]. split; [exact big_store_wf|]. split.
  - destruct (list_all_products_pure_read prepopulated prepopulated_wf)
      as (r & w1 & w2 & out & H1 & H2 & _ & _ & _ & H5 & H6 & H7 & H8).
    assert (Hr : r = Return tt).
    { assert (E : fst (list_all_products prepopulated) = Return tt) by reflexivity.
      rewrite H1 in E. exact E. }
    subst r. exists w1, w2, out.
    exact (conj H1 (conj H2 (conj H5 (conj H6 (conj H7 H8))))).
  - destruct (list_all_products_pure_read big_store big_store_wf)
      as (r & w1 & w2 & out & H1 & H2 & _ & _ & _ & H5 & H6 & H7 & H8).
    exists r, w1, w2, out.
    exact (conj H1 (conj H2 (conj H5 (conj H6 (conj H7 H8))))).
Defined.

(** * Further properties of the store *)

Lemma dict_delitem_setitem_absent {V} k (v : V) (d : list (string * V)) :
  PyDict.get k d = None -> PyDict.delitem k (PyDict.setitem k v d) = d.
Proof.
  intros H. rewrite (dict_setitem_absent _ _ _ H). unfold PyDict.delitem.
  rewrite List.filter_app. simpl. rewrite String.eqb_refl. simpl.
  rewrite app_nil_r. now apply dict_delitem_absent.
Qed.

Lemma stored_printed w out pid : stored (printed w out) pid = stored w pid.
Proof. reflexivity. Qed.

Lemma wf_distinct_objects w k1 k2 l :
  wf w -> PyDict.get k1 (_products w) = Some l ->
  PyDict.get k2 (_products w) = Some l -> k1 = k2.
Proof.
  intros [_ Hw] H1 H2.
  destruct (Hw _ _ (dict_get_elem _ _ _ H1)) as (p1 & Hp1 & <-).
  destruct (Hw _ _ (dict_get_elem _ _ _ H2)) as (p2 & Hp2 & <-).
  congruence.
Qed.

Lemma stored_store_obj_ne w pid k l p' :
  wf w -> PyDict.get pid (_products w) = Some l -> k <> pid ->
  stored (store_obj w l p') k = stored w k.
Proof.
  intros Hwf Hd Hne. unfold stored. simpl.
  destruct (PyDict.get k (_products w)) as [l'|] eqn:Hk; [|reflexivity].
  apply list_lookup_insert_ne. intros <-.
  apply Hne. eapply wf_distinct_objects; eauto.
Qed.

(** X1: in every world reachable from the empty store the dictionary holds
    each key once, the product found under an id carries that id, no two
    ids share an object, and every stored product has a non-empty id, a
    non-empty name, a quantity that is not negative and a price that is
    not [<= 0]. *)
Theorem reachable_store_invariant w pid l :
  reachable w -> PyDict.get pid (_products w) = Some l ->
  NoDup (PyDict.keys (_products w)) /\
  (forall k, PyDict.get k (_products w) = Some l -> k = pid) /\
  exists p, heap w !! l = Some p /\
            product_id p = pid /\
            product_id p <> EmptyString /\
            name p <> EmptyString /\
            float_le0 (price p) = false /\
            0 <= quantity p.
Proof.
  intros Hr Hd. apply reachable_inv in Hr.
  destruct (inv_stored _ _ _ Hr Hd) as (p & Hp & Hid & Hi & Hn & Hpr & Hq).
  destruct Hr as [Hwf _]. split; [apply Hwf|]. split.
  - intros k Hk. eapply wf_distinct_objects; eauto.
  - exists p. auto 10.
Qed.

Lemma reachable_store_invariant_witness :
  reachable prepopulated /\
  PyDict.get "MSE002" (_products prepopulated) = Some 1%nat /\
  exists p, heap prepopulated !! 1%nat = Some p /\
            product_id p = "MSE002" /\
            product_id p <> EmptyString /\
            name p <> EmptyString /\
            float_le0 (price p) = false /\
            0 <= quantity p.
Proof.
  split; [exact prepopulated_reachable|]. split; [reflexivity|].
  apply (reachable_store_invariant prepopulated "MSE002" 1%nat prepopulated_reachable eq_refl).
Defined.

(** What a call does to an object that exists: it stays at its reference
    and keeps its id. *)
Lemma run_call_object w c l p :
  inv w -> call_ok w c -> heap w !! l = Some p ->
  exists p', heap (run_call c w) !! l = Some p' /\ product_id p' = product_id p.
Proof.
  intros Hinv Hok Hl.
  assert (Hso : forall (l0 : nat) p0 p1, heap w !! l0 = Some p0 -> product_id p1 = product_id p0 ->
            exists p', heap (store_obj w l0 p1) !! l = Some p' /\ product_id p' = product_id p).
  { intros l0 p0 p1 H0 Hid. destruct (decide (l0 = l)) as [->|Hne].
    - exists p1. split; [eapply store_obj_lookup; eauto|].
      rewrite Hl in H0. injection H0 as <-. exact Hid.
    - exists p. split; [now rewrite store_obj_lookup_ne | reflexivity]. }
  destruct c as [i n d pr q|product|pid|pid|pid n d pr|pid dq|]; simpl.
  - rewrite Product_init_eq.
    destruct (str_not i); [eauto|]. destruct (str_not n); [eauto|].
    destruct (float_le0 pr); [eauto|]. destruct (q <? 0); [eauto|]. simpl.
    exists p. split; [now apply lookup_app_l_Some | reflexivity].
  - simpl in Hok. apply lookup_lt_is_Some in Hok as [p0 Hp0].
    rewrite (add_product_eq _ _ _ Hp0). destruct (PyDict.contains _ _); simpl; eauto.
  - destruct (PyDict.get pid (_products w)) as [l0|] eqn:Ed.
    + destruct (inv_stored _ _ _ Hinv Ed) as (p0 & Hp0 & _ & _).
      rewrite (remove_product_present _ _ _ _ Ed Hp0). simpl. eauto.
    + rewrite (remove_product_absent _ _ Ed). simpl. eauto.
  - rewrite get_product_eq. destruct (PyDict.get pid (_products w)); simpl; eauto.
  - destruct (PyDict.get pid (_products w)) as [l0|] eqn:Ed.
    + destruct (inv_stored _ _ _ Hinv Ed) as (p0 & Hp0 & _ & _).
      rewrite (update_product_details_present _ _ _ _ _ _ _ Ed Hp0).
      destruct (name_rejected n); [simpl; eauto|]. cbv zeta.
      destruct (price_rejected pr); cbn [snd printed heap].
      * apply (Hso l0 p0); [assumption|]. apply (assign_details_id p0 n d None).
      * apply (Hso l0 p0); [assumption|]. apply assign_details_id.
    + rewrite (update_product_details_absent _ _ _ _ _ Ed). simpl. eauto.
  - destruct (PyDict.get pid (_products w)) as [l0|] eqn:Ed.
    + destruct (inv_stored _ _ _ Hinv Ed) as (p0 & Hp0 & _ & _).
      rewrite (update_stock_present _ _ _ _ _ Ed Hp0).
      destruct (quantity p0 + dq <? 0); [cbn [snd printed heap]; eauto|].
      destruct (int_str_ok (Z.abs dq) && int_str_ok (quantity p0 + dq));
        cbn [snd printed heap]; now apply (Hso l0 p0).
    + rewrite (update_stock_absent _ _ _ Ed). simpl. eauto.
  - rewrite list_all_products_eq by apply Hinv. simpl. eauto.
Qed.

(** X2: no call destroys an object or changes its id: in a reachable world
    an object that exists is, after any call, still found at the same
    reference with the same [product_id]. *)
Theorem objects_persist_with_their_id w c l p :
  reachable w -> call_ok w c -> heap w !! l = Some p ->
  exists p', heap (run_call c w) !! l = Some p' /\ product_id p' = product_id p.
Proof. intros Hr. apply run_call_object. now apply reachable_inv. Qed.

Lemma objects_persist_with_their_id_witness :
  reachable prepopulated /\
  call_ok prepopulated (UpdateProductDetails "LPT001" (Some "Laptop X2") None None) /\
  heap prepopulated !! 0%nat = Some laptop /\
  exists p', heap (run_call (UpdateProductDetails "LPT001" (Some "Laptop X2") None None)
                            prepopulated) !! 0%nat = Some p' /\
             product_id p' = product_id laptop.
Proof.
  split; [exact prepopulated_reachable|]. split; [exact I|]. split; [reflexivity|].
  apply (objects_persist_with_their_id prepopulated
           (UpdateProductDetails "LPT001" (Some "Laptop X2") None None) 0%nat laptop
           prepopulated_reachable I eq_refl).
Defined.

(** X3: after a product with a new id has been added, [get_product] on
    that id returns the very object that was added and prints nothing; the
    objects and the entries under the other ids are as before. *)
Theorem add_then_get w product p :
  heap w !! product = Some p ->
  PyDict.contains (product_id p) (_products w) = false ->
  exists w1,
    add_product product w = (Return true, w1) /\
    get_product (product_id p) w1 = (Return (Some product), w1) /\
    heap w1 = heap w /\
    (forall k, k <> product_id p ->
       PyDict.get k (_products w1) = PyDict.get k (_products w)).
Proof.
  intros Hp Hc. rewrite (add_product_eq _ _ _ Hp), Hc.
  eexists. split; [reflexivity|]. split; [|split].
  - rewrite get_product_eq. simpl. now rewrite dict_get_setitem_eq.
  - reflexivity.
  - intros k Hk. simpl. apply dict_get_setitem_ne. congruence.
Qed.

Lemma add_then_get_witness :
  heap initial_world_with_laptop !! 0%nat = Some laptop /\
  PyDict.contains (product_id laptop) (_products initial_world_with_laptop) = false /\
  exists w1,
    add_product 0%nat initial_world_with_laptop = (Return true, w1) /\
    get_product "LPT001" w1 = (Return (Some 0%nat), w1).
Proof.
  split; [reflexivity|]. split; [reflexivity|].
  destruct (add_then_get initial_world_with_laptop 0%nat laptop eq_refl eq_refl)
    as (w1 & H1 & H2 & _).
  exists w1. split; assumption.
Defined.

(** X4: adding a product with a new id and then removing that id gives back
    the dictionary and the objects there were before the two calls. *)
Theorem add_then_remove w product p :
  heap w !! product = Some p ->
  PyDict.contains (product_id p) (_products w) = false ->
  exists w1 w2,
    add_product product w = (Return true, w1) /\
    remove_product (product_id p) w1 = (Return true, w2) /\
    heap w2 = heap w /\ _products w2 = _products w.
Proof.
  intros Hp Hc. rewrite (add_product_eq _ _ _ Hp), Hc.
  eexists. eexists. split; [reflexivity|]. split; [|split].
  - apply (remove_product_present _ _ product p); simpl.
    + apply dict_get_setitem_eq.
    + exact Hp.
  - reflexivity.
  - simpl. apply dict_delitem_setitem_absent. now apply dict_contains_false.
Qed.

Lemma add_then_remove_witness :
  heap initial_world_with_laptop !! 0%nat = Some laptop /\
  PyDict.contains (product_id laptop) (_products initial_world_with_laptop) = false /\
  exists w1 w2,
    add_product 0%nat initial_world_with_laptop = (Return true, w1) /\
    remove_product "LPT001" w1 = (Return true, w2) /\
    heap w2 = heap initial_world_with_laptop /\
    _products w2 = _products initial_world_with_laptop.
Proof.
  split; [reflexivity|]. split; [reflexivity|].
  apply (add_then_remove initial_world_with_laptop 0%nat laptop eq_refl eq_refl).
Defined.

(** X5: an update of stock or details under one id leaves the dictionary as
    it is and every product stored under another id unchanged. *)
Theorem updates_leave_other_products w pid k :
  wf w -> k <> pid ->
  (forall delta,
     _products (snd (update_stock pid delta w)) = _products w /\
     stored (snd (update_stock pid delta w)) k = stored w k) /\
  (forall n d pr,
     _products (snd (update_product_details pid n d pr w)) = _products w /\
     stored (snd (update_product_details pid n d pr w)) k = stored w k).
Proof.
  intros Hwf Hne. pose proof Hwf as [_ Hw].
  destruct (PyDict.get pid (_products w)) as [l|] eqn:Hd.
  - destruct (Hw _ _ (dict_get_elem _ _ _ Hd)) as (p & Hp & _). split.
    + intros delta. rewrite (update_stock_present _ _ _ _ _ Hd Hp).
      destruct (quantity p + delta <? 0); [split; reflexivity|].
      destruct (int_str_ok (Z.abs delta) && int_str_ok (quantity p + delta));
        cbn [snd]; rewrite stored_printed;
        (split; [reflexivity | eapply stored_store_obj_ne; eauto]).
    + intros n d pr. rewrite (update_product_details_present _ _ _ _ _ _ _ Hd Hp).
      destruct (name_rejected n); [split; reflexivity|]. cbv zeta.
      destruct (price_rejected pr); cbn [snd]; rewrite stored_printed;
        (split; [reflexivity | eapply stored_store_obj_ne; eauto]).
  - split.
    + intros delta. rewrite (update_stock_absent _ _ _ Hd). split; reflexivity.
    + intros n d pr. rewrite (update_product_details_absent _ _ _ _ _ Hd).
      split; reflexivity.
Qed.

Lemma updates_leave_other_products_witness :
  wf prepopulated /\ "MSE002" <> "LPT001" /\
  stored (snd (update_stock "LPT001" (-4) prepopulated)) "MSE002" = Some mouse /\
  stored (snd (update_product_details "LPT001" (Some "Laptop X2") None None prepopulated))
         "MSE002" = Some mouse.
Proof.
  assert (Hne : "MSE002" <> "LPT001") by discriminate.
  pose proof (updates_leave_other_products prepopulated "LPT001" "MSE002"
                prepopulated_wf Hne) as [Hs Hd].
  split; [exact prepopulated_wf|]. split; [exact Hne|]. split.
  - exact (proj2 (Hs (-4))).
  - exact (proj2 (Hd (Some "Laptop X2") None None)).
Defined.

(** An update that keeps the quantity at zero or above commits it, whatever
    it then returns; it returns [True] when the amount and the new quantity
    can be formatted. *)
Lemma update_stock_commits w pid l p dq :
  PyDict.get pid (_products w) = Some l -> heap w !! l = Some p ->
  0 <= quantity p + dq ->
  exists b out,
    update_stock pid dq w =
      (Return b, printed (store_obj w l (set_quantity (quantity p + dq) p)) out) /\
    (Z.abs dq < digit_limit -> quantity p + dq < digit_limit -> b = true).
Proof.
  intros Hd Hp Hge. rewrite (update_stock_present _ _ _ _ _ Hd Hp).
  assert (E : (quantity p + dq <? 0) = false) by lia. rewrite E.
  destruct (int_str_ok (Z.abs dq) && int_str_ok (quantity p + dq)) eqn:Hok.
  - eexists. eexists. split; [reflexivity|]. reflexivity.
  - eexists. eexists. split; [reflexivity|]. intros H1 H2. exfalso.
    assert (O1 : int_str_ok (Z.abs dq) = true) by (apply int_str_ok_spec; lia).
    assert (O2 : int_str_ok (quantity p + dq) = true) by (apply int_str_ok_spec; lia).
    rewrite O1, O2 in Hok. discriminate Hok.
Qed.

(** X6: two stock updates in a row that both keep the quantity at zero or
    above leave the objects one update by the sum of the amounts leaves:
    the product has its quantity changed by [d1 + d2] and its other
    attributes as they were, and the dictionary is untouched; in
    particular a stock-out followed by a stock-in of the same amount gives
    back the objects there were.  Both calls return [True] when the
    amounts and the quantities have at most 4300 digits. *)
Theorem update_stock_composes w pid l p d1 d2 :
  PyDict.get pid (_products w) = Some l -> heap w !! l = Some p ->
  0 <= quantity p + d1 -> 0 <= quantity p + d1 + d2 ->
  let p12 := mkProduct (product_id p) (name p) (description p) (price p)
                       (quantity p + d1 + d2) in
  let w1 := snd (update_stock pid d1 w) in
  let w2 := snd (update_stock pid d2 w1) in
  heap w2 = <[l := p12]> (heap w) /\
  heap (snd (update_stock pid (d1 + d2) w)) = <[l := p12]> (heap w) /\
  _products w2 = _products w /\
  (d1 + d2 = 0 -> heap w2 = heap w) /\
  (Z.abs d1 < digit_limit -> Z.abs d2 < digit_limit ->
   quantity p + d1 < digit_limit -> quantity p + d1 + d2 < digit_limit ->
   fst (update_stock pid d1 w) = Return true /\
   fst (update_stock pid d2 w1) = Return true).
Proof.
  intros Hd Hp H1 H2 p12 w1 w2.
  destruct (update_stock_commits w pid l p d1 Hd Hp H1) as (b1 & out1 & E1 & Hb1).
  set (p1 := set_quantity (quantity p + d1) p) in *.
  assert (Hw1 : w1 = printed (store_obj w l p1) out1) by (subst w1; now rewrite E1).
  assert (Hp1 : heap w1 !! l = Some p1).
  { rewrite Hw1. cbn [printed heap]. eapply store_obj_lookup, Hp. }
  assert (Hd1 : PyDict.get pid (_products w1) = Some l) by (now rewrite Hw1).
  assert (H2' : 0 <= quantity p1 + d2) by (subst p1; cbn [quantity set_quantity]; lia).
  destruct (update_stock_commits w1 pid l p1 d2 Hd1 Hp1 H2') as (b2 & out2 & E2 & Hb2).
  assert (H12 : 0 <= quantity p + (d1 + d2)) by lia.
  destruct (update_stock_commits w pid l p (d1 + d2) Hd Hp H12) as (b & out & E & _).
  assert (Hp12 : set_quantity (quantity p1 + d2) p1 = p12) by reflexivity.
  assert (Hp12' : set_quantity (quantity p + (d1 + d2)) p = p12).
  { subst p12. unfold set_quantity. now rewrite Z.add_assoc. }
  assert (Hheap : heap w2 = <[l := p12]> (heap w)).
  { subst w2. rewrite E2, Hp12, Hw1. cbn [snd printed store_obj heap].
    apply list_insert_insert_eq. }
  split; [exact Hheap|]. split; [|split; [|split]].
  - rewrite E, Hp12'. reflexivity.
  - subst w2. rewrite E2, Hw1. reflexivity.
  - intros H0. rewrite Hheap. apply list_insert_id.
    assert (Hsame : p12 = p).
    { subst p12. replace (quantity p + d1 + d2) with (quantity p) by lia. now destruct p. }
    rewrite Hsame. exact Hp.
  - intros L1 L2 L3 L4. split.
    + rewrite E1. cbn [fst]. f_equal. auto.
    + rewrite E2. cbn [fst]. f_equal. apply Hb2; subst p1; cbn [quantity set_quantity]; lia.
Qed.

Lemma update_stock_composes_witness :
  PyDict.get "LPT001" (_products prepopulated) = Some 0%nat /\
  heap prepopulated !! 0%nat = Some laptop /\
  0 <= quantity laptop + (-7) /\ 0 <= quantity laptop + (-7) + 7 /\
  heap (snd (update_stock "LPT001" 7 (snd (update_stock "LPT001" (-7) prepopulated)))) =
    heap prepopulated /\
  fst (update_stock "LPT001" (-7) prepopulated) = Return true /\
  fst (update_stock "LPT001" 7 (snd (update_stock "LPT001" (-7) prepopulated))) = Return true.
Proof.
  assert (H1 : 0 <= quantity laptop + (-7)) by (simpl; lia).
  assert (H2 : 0 <= quantity laptop + (-7) + 7) by (simpl; lia).
  assert (L7 : Z.abs 7 < digit_limit) by (apply int_str_ok_spec; reflexivity).
  assert (L10 : Z.abs 10 < digit_limit) by (apply int_str_ok_spec; reflexivity).
  destruct (update_stock_composes prepopulated "LPT001" 0%nat laptop (-7) 7
              eq_refl eq_refl H1 H2) as (_ & _ & _ & Hz & Hret).
  split; [reflexivity|]. split; [reflexivity|]. split; [exact H1|]. split; [exact H2|].
  split; [apply Hz; reflexivity|].
  apply Hret; change (quantity laptop) with 10; lia.
Defined.

(** X7: on an id that is absent, [get_product] returns [None] and
    [update_product_details] and [update_stock] return [False]; each prints
    the one not-found line of [get_product] and changes nothing else. *)
Theorem absent_id_reported_once w pid :
  PyDict.contains pid (_products w) = false ->
  get_product pid w = (Return None, printed w [ErrNotFound pid]) /\
  (forall n d pr,
     update_product_details pid n d pr w = (Return false, printed w [ErrNotFound pid])) /\
  (forall delta,
     update_stock pid delta w = (Return false, printed w [ErrNotFound pid])).
Proof.
  intros Hc. apply dict_contains_false in Hc. split; [|split].
  - now rewrite get_product_eq, Hc.
  - intros n d pr. now apply update_product_details_absent.
  - intros delta. now apply update_stock_absent.
Qed.

Lemma absent_id_reported_once_witness :
  PyDict.contains "XYZ000" (_products prepopulated) = false /\
  update_stock "XYZ000" 5 prepopulated =
    (Return false, printed prepopulated [ErrNotFound "XYZ000"]).
Proof.
  split; [reflexivity|].
  apply (absent_id_reported_once prepopulated "XYZ000" eq_refl).
Defined.

(** X8: a detail update with an empty name fails before anything is
    assigned: whatever description and price come with it, the object and
    the rest of the world are unchanged, and [update_product_details]
    returns [False] having printed the name error only. *)
Theorem update_details_empty_name_changes_nothing w self p d pr :
  heap w !! self = Some p ->
  update_details self (Some EmptyString) d pr w = (Raise (ValueError NameEmpty), w) /\
  (forall pid, PyDict.get pid (_products w) = Some self ->
     update_product_details pid (Some EmptyString) d pr w =
       (Return false, printed w [ErrUpdatingProduct NameEmpty])).
Proof.
  intros Hp. split.
  - now rewrite (update_details_eq _ _ _ _ _ _ Hp).
  - intros pid Hd. now rewrite (update_product_details_present _ _ _ _ _ _ _ Hd Hp).
Qed.

Lemma update_details_empty_name_changes_nothing_witness :
  heap prepopulated !! 0%nat = Some laptop /\
  update_details 0%nat (Some EmptyString) (Some "Refurbished") (Some float_zero) prepopulated =
    (Raise (ValueError NameEmpty), prepopulated).
Proof.
  split; [reflexivity|].
  apply (update_details_empty_name_changes_nothing prepopulated 0%nat laptop
           (Some "Refurbished") (Some float_zero) eq_refl).
Defined.

(** X9: whether it returns or raises, [update_details] changes neither the
    id nor the quantity of its object, leaves every attribute whose
    argument is absent as it was, and touches no other object, nor the
    dictionary, nor the output. *)
Theorem update_details_touches_only_given_fields w self p n d pr :
  heap w !! self = Some p ->
  _products (snd (update_details self n d pr w)) = _products w /\
  stdout (snd (update_details self n d pr w)) = stdout w /\
  (forall l : nat, l <> self ->
     heap (snd (update_details self n d pr w)) !! l = heap w !! l) /\
  exists p', heap (snd (update_details self n d pr w)) !! self = Some p' /\
             product_id p' = product_id p /\
             quantity p' = quantity p /\
             (n = None -> name p' = name p) /\
             (d = None -> description p' = description p) /\
             (pr = None -> price p' = price p).
Proof.
  intros Hp. rewrite (update_details_eq _ _ _ _ _ _ Hp).
  destruct (name_rejected n).
  { simpl. repeat split; trivial. exists p. auto 10. }
  cbv zeta. set (p2 := assign_opt set_description d (assign_opt set_name n p)).
  assert (H2 : product_id p2 = product_id p /\ quantity p2 = quantity p /\
               price p2 = price p /\
               (n = None -> name p2 = name p) /\
               (d = None -> description p2 = description p)).
  { subst p2. destruct n, d; simpl; repeat split; congruence. }
  destruct H2 as (Hi & Hq & Hpr & Hn & Hdd).
  destruct (price_rejected pr) eqn:Er; cbn [snd].
  - split; [reflexivity|]. split; [reflexivity|]. split.
    + intros l Hl. apply store_obj_lookup_ne. congruence.
    + exists p2. split; [eapply store_obj_lookup; eauto|]. auto 10.
  - split; [reflexivity|]. split; [reflexivity|]. split.
    + intros l Hl. apply store_obj_lookup_ne. congruence.
    + exists (assign_opt set_price pr p2). split; [eapply store_obj_lookup; eauto|].
      destruct pr; simpl; repeat split; auto; congruence.
Qed.

Lemma update_details_touches_only_given_fields_witness :
  heap prepopulated !! 1%nat = Some mouse /\
  exists p',
    heap (snd (update_details 1%nat None (Some "Silent mouse") (Some float_zero) prepopulated))
      !! 1%nat = Some p' /\
    product_id p' = "MSE002" /\ quantity p' = 50 /\ name p' = "Wireless Mouse".
Proof.
  split; [reflexivity|].
  destruct (update_details_touches_only_given_fields prepopulated 1%nat mouse
              None (Some "Silent mouse") (Some float_zero) eq_refl)
    as (_ & _ & _ & p' & Hp' & Hi & Hq & Hn & _).
  exists p'. split; [exact Hp'|]. split; [exact Hi|]. split; [exact Hq|].
  apply Hn. reflexivity.
Defined.

(** X10: a detail update whose name, if given, is not empty and whose
    price, if given, is not [<= 0] returns, and then every attribute that
    was given has the given value; [update_product_details] returns [True]
    for it. *)
Theorem update_details_assigns_given_fields w self p n d pr :
  heap w !! self = Some p ->
  n <> Some EmptyString ->
  (forall x, pr = Some x -> float_le0 x = false) ->
  let p' := mkProduct (product_id p) (default (name p) n) (default (description p) d)
                      (default (price p) pr) (quantity p) in
  update_details self n d pr w = (Return tt, store_obj w self p') /\
  heap (store_obj w self p') !! self = Some p' /\
  (forall pid, PyDict.get pid (_products w) = Some self ->
     update_product_details pid n d pr w =
       (Return true, printed (store_obj w self p') [DetailsUpdated pid])).
Proof.
  intros Hp Hn Hpr p'.
  assert (En : name_rejected n = false).
  { destruct n as [[|c n']|]; simpl; congruence. }
  assert (Epr : price_rejected pr = false).
  { destruct pr as [x|]; simpl; auto. }
  assert (Hp' : assign_opt set_price pr
                  (assign_opt set_description d (assign_opt set_name n p)) = p').
  { subst p'. clear. destruct p, n, d, pr; reflexivity. }
  split; [|split].
  - rewrite (update_details_eq _ _ _ _ _ _ Hp), En. cbv zeta. now rewrite Epr, Hp'.
  - eapply store_obj_lookup, Hp.
  - intros pid Hd. rewrite (update_product_details_present _ _ _ _ _ _ _ Hd Hp), En.
    cbv zeta. now rewrite Epr, Hp'.
Qed.

Lemma update_details_assigns_given_fields_witness :
  heap prepopulated !! 1%nat = Some mouse /\
  Some "Silent Mouse" <> Some EmptyString /\
  (forall x, Some price_1200_99 = Some x -> float_le0 x = false) /\
  update_product_details "MSE002" (Some "Silent Mouse") None (Some price_1200_99) prepopulated =
    (Return true,
     printed (store_obj prepopulated 1%nat
                (mkProduct "MSE002" "Silent Mouse" "Ergonomic wireless mouse" price_1200_99 50))
             [DetailsUpdated "MSE002"]).
Proof.
  assert (Hn : Some "Silent Mouse" <> Some EmptyString) by discriminate.
  assert (Hpr : forall x, Some price_1200_99 = Some x -> float_le0 x = false).
  { intros x [= <-]. reflexivity. }
  split; [reflexivity|]. split; [exact Hn|]. split; [exact Hpr|].
  apply (update_details_assigns_given_fields prepopulated 1%nat mouse
           (Some "Silent Mouse") None (Some price_1200_99) eq_refl Hn Hpr).
  reflexivity.
Defined.

(** ** Listing and order *)

Lemma rows_products h (d : list (string * loc)) :
  (forall k l, (k, l) ∈ d -> exists p, h !! l = Some p) ->
  exists ps, Forall2 (fun kv p => h !! kv.2 = Some p) d ps /\
             rows h d = map row_of ps.
Proof.
  induction d as [|[k l] d IH]; intros Hd.
  - exists []. split; [constructor | reflexivity].
  - destruct (Hd k l) as [p Hp]; [left|].
    destruct IH as (ps & Hps & Hrows).
    { intros k' l' Hin. apply (Hd k' l'). now right. }
    exists (p :: ps). split; [constructor; assumption|].
    change (map row_of (p :: ps)) with (row_of p :: map row_of ps).
    rewrite <- Hrows. unfold rows. simpl. now rewrite Hp.
Qed.

Lemma rows_app h (d d' : list (string * loc)) :
  rows h (d ++ d')%list = (rows h d ++ rows h d')%list.
Proof. unfold rows. apply omap_app. Qed.

Lemma rows_printed_all h (d : list (string * loc)) ps :
  Forall2 (fun kv p => h !! kv.2 = Some p) d ps ->
  Forall (fun p => Z.abs (quantity p) < digit_limit) ps ->
  rows_printed h d = (map row_of ps, true).
Proof.
  induction 1 as [|kv p d ps Hp _ IH]; intros Hok; [reflexivity|].
  apply Forall_cons in Hok as [Hq Hok]. cbn [rows_printed]. rewrite Hp.
  apply int_str_ok_spec in Hq. rewrite Hq, (IH Hok). reflexivity.
Qed.

Lemma rows_printed_until h (d : list (string * loc)) ps1 p ps2 :
  Forall2 (fun kv p => h !! kv.2 = Some p) d (ps1 ++ p :: ps2)%list ->
  Forall (fun p => Z.abs (quantity p) < digit_limit) ps1 ->
  digit_limit <= Z.abs (quantity p) ->
  rows_printed h d = (map row_of ps1, false).
Proof.
  revert d. induction ps1 as [|p1 ps1 IH]; intros d Hd Hok Hbig.
  - apply Forall2_cons_inv_r in Hd as (kv & d' & Hp & _ & ->).
    cbn [rows_printed]. rewrite Hp.
    apply int_str_ok_false in Hbig. rewrite Hbig. reflexivity.
  - apply Forall2_cons_inv_r in Hd as (kv & d' & Hp & Hd & ->).
    apply Forall_cons in Hok as [Hq Hok]. cbn [rows_printed]. rewrite Hp.
    apply int_str_ok_spec in Hq. rewrite Hq, (IH d' Hd Hok Hbig). reflexivity.
Qed.

(** X11: [list_all_products] goes through the entries of the dictionary in
    its order, each with the current attributes of the product the entry
    refers to.  When every quantity has at most 4300 digits it prints the
    empty notice and nothing else on an empty store, and otherwise the
    header, one row for each entry, then the footer, and returns.  When a
    quantity has more digits, it prints the header and the rows of the
    entries before the first such product, and the ValueError of the
    conversion leaves the method, with no footer printed. *)
Theorem list_all_products_prints_each_product w :
  wf w ->
  exists ps,
    Forall2 (fun kv p => heap w !! kv.2 = Some p) (PyDict.items (_products w)) ps /\
    (Forall (fun p => Z.abs (quantity p) < digit_limit) ps ->
     list_all_products w =
       (Return tt,
        printed w (match ps with
                   | [] => [InventoryEmpty]
                   | _ :: _ => InventoryHeader :: map row_of ps ++ [InventoryFooter]
                   end))) /\
    (forall ps1 p ps2,
       ps = (ps1 ++ p :: ps2)%list ->
       Forall (fun p => Z.abs (quantity p) < digit_limit) ps1 ->
       digit_limit <= Z.abs (quantity p) ->
       list_all_products w =
         (Raise (ValueError DigitLimit),
          printed w (InventoryHeader :: map row_of ps1))).
Proof.
  intros Hwf. pose proof Hwf as [_ Hw].
  destruct (rows_products (heap w) (_products w)) as (ps & Hps & _).
  { intros k l Hin. destruct (Hw k l Hin) as (p & Hp & _). eauto. }
  exists ps. split; [exact Hps|]. unfold PyDict.items in Hps.
  rewrite (list_all_products_eq _ Hwf). unfold listing, listing_outcome. split.
  - intros Hok. rewrite (rows_printed_all _ _ _ Hps Hok). cbn [fst snd].
    destruct Hps; reflexivity.
  - intros ps1 p ps2 -> Hok Hbig.
    rewrite (rows_printed_until _ _ _ _ _ Hps Hok Hbig). cbn [fst snd].
    apply Forall2_app_inv_r in Hps as (d1 & d2 & _ & Hd2 & ->).
    apply Forall2_cons_inv_r in Hd2 as (kv & d2' & _ & _ & ->).
    destruct d1; reflexivity.
Qed.

Lemma list_all_products_prints_each_product_witness :
  wf prepopulated /\
  list_all_products prepopulated =
    (Return tt,
     printed prepopulated
       [InventoryHeader;
        InventoryRow "LPT001" "Laptop X1" price_1200_99 10;
        InventoryRow "MSE002" "Wireless Mouse" price_25_50 50;
        InventoryFooter]).
Proof.
  split; [exact prepopulated_wf|].
  destruct (list_all_products_prints_each_product prepopulated prepopulated_wf)
    as (ps & Hps & Hrun & _).
  apply Forall2_cons_inv_l in Hps as (p1 & ps1 & H1 & Hps & ->).
  apply Forall2_cons_inv_l in Hps as (p2 & ps2 & H2 & Hps & ->).
  apply Forall2_nil_inv_l in Hps as ->.
  injection H1 as <-. injection H2 as <-.
  apply Hrun. constructor; [apply int_str_ok_spec; reflexivity|].
  constructor; [apply int_str_ok_spec; reflexivity|]. constructor.
Defined.

(** X12: the store lists in insertion order: a product added under a new id
    becomes the last entry of the dictionary, behind the entries there
    were, so its row is printed last. *)
Theorem add_product_lists_last w product p :
  heap w !! product = Some p ->
  PyDict.contains (product_id p) (_products w) = false ->
  exists w1,
    add_product product w = (Return true, w1) /\
    PyDict.items (_products w1) =
      (PyDict.items (_products w) ++ [(product_id p, product)])%list /\
    rows (heap w1) (_products w1) = (rows (heap w) (_products w) ++ [row_of p])%list.
Proof.
  intros Hp Hc. rewrite (add_product_eq _ _ _ Hp), Hc.
  apply dict_contains_false in Hc.
  eexists. split; [reflexivity|]. simpl. unfold PyDict.items.
  rewrite (dict_setitem_absent _ _ _ Hc). split; [reflexivity|].
  rewrite rows_app. f_equal. unfold rows. simpl. now rewrite Hp.
Qed.

Lemma add_product_lists_last_witness :
  heap (store_without_mouse) !! 1%nat = Some mouse /\
  PyDict.contains (product_id mouse) (_products store_without_mouse) = false /\
  exists w1,
    add_product 1%nat store_without_mouse = (Return true, w1) /\
    PyDict.items (_products w1) = [("LPT001", 0%nat); ("MSE002", 1%nat)] /\
    rows (heap w1) (_products w1) =
      [InventoryRow "LPT001" "Laptop X1" price_1200_99 10;
       InventoryRow "MSE002" "Wireless Mouse" price_25_50 50].
Proof.
  split; [reflexivity|]. split; [reflexivity|].
  apply (add_product_lists_last store_without_mouse 1%nat mouse eq_refl eq_refl).
Defined.

(** X13: removing a product from the store does not destroy the object.
    Added again, it is stored with the attributes it had when it was
    removed, and it is now the last entry of the dictionary. *)
Theorem remove_then_add_again w pid l :
  wf w -> PyDict.get pid (_products w) = Some l ->
  exists p w1 w2,
    heap w !! l = Some p /\
    remove_product pid w = (Return true, w1) /\
    add_product l w1 = (Return true, w2) /\
    heap w2 = heap w /\
    stored w2 pid = Some p /\
    PyDict.items (_products w2) =
      (PyDict.delitem pid (PyDict.items (_products w)) ++ [(pid, l)])%list.
Proof.
  intros [_ Hw] Hd. destruct (Hw _ _ (dict_get_elem _ _ _ Hd)) as (p & Hp & Hid).
  exists p. rewrite (remove_product_present _ _ _ _ Hd Hp).
  eexists. eexists. split; [exact Hp|]. split; [reflexivity|].
  assert (Habs : PyDict.get pid (PyDict.delitem pid (_products w)) = None)
    by apply dict_get_delitem_eq.
  rewrite (add_product_eq _ l p); [|exact Hp]. simpl. rewrite Hid.
  rewrite (proj2 (dict_contains_false _ _) Habs).
  split; [reflexivity|]. split; [reflexivity|]. split.
  - unfold stored. simpl. now rewrite dict_get_setitem_eq.
  - simpl. unfold PyDict.items. now rewrite (dict_setitem_absent _ _ _ Habs).
Qed.

Lemma remove_then_add_again_witness :
  wf prepopulated /\
  PyDict.get "LPT001" (_products prepopulated) = Some 0%nat /\
  exists p w1 w2,
    heap prepopulated !! 0%nat = Some p /\
    remove_product "LPT001" prepopulated = (Return true, w1) /\
    add_product 0%nat w1 = (Return true, w2) /\
    heap w2 = heap prepopulated /\
    stored w2 "LPT001" = Some p /\
    PyDict.items (_products w2) = [("MSE002", 1%nat); ("LPT001", 0%nat)].
Proof.
  split; [exact prepopulated_wf|]. split; [reflexivity|].
  apply (remove_then_add_again prepopulated "LPT001" 0%nat prepopulated_wf eq_refl).
Defined.

(** X14: a construction that succeeds returns a reference that was not in
    use, so no entry of the dictionary refers to it; it leaves the objects
    there were, the dictionary and the output as they are.  The product is
    not in the store until it is added. *)
Theorem Product_init_returns_a_new_object w i n d pr q r w' :
  wf w ->
  Product_init i n d pr q w = (Return r, w') ->
  heap w !! r = None /\
  heap w' !! r = Some (mkProduct i n d pr q) /\
  (forall (l : nat) p, heap w !! l = Some p -> heap w' !! l = Some p) /\
  (forall k, PyDict.get k (_products w') <> Some r) /\
  _products w' = _products w /\
  stdout w' = stdout w.
Proof.
  intros [_ Hw] Hrun. rewrite Product_init_eq in Hrun.
  destruct (str_not i); [discriminate|]. destruct (str_not n); [discriminate|].
  destruct (float_le0 pr); [discriminate|]. destruct (q <? 0); [discriminate|].
  injection Hrun as <- <-. simpl.
  assert (Hnone : heap w !! length (heap w) = None) by (apply lookup_ge_None; lia).
  split; [exact Hnone|]. split; [|split; [|split; [|split; reflexivity]]].
  - rewrite lookup_app_r by lia. now rewrite Nat.sub_diag.
  - intros l p Hl. now apply lookup_app_l_Some.
  - intros k Hk. destruct (Hw _ _ (dict_get_elem _ _ _ Hk)) as (p & Hp & _).
    apply lookup_lt_Some in Hp. lia.
Qed.

Lemma Product_init_returns_a_new_object_witness :
  wf prepopulated /\
  Product_init "KBD003" "Keyboard" EmptyString price_25_50 0 prepopulated =
    (Return 2%nat,
     mkWorld [laptop; mouse; mkProduct "KBD003" "Keyboard" EmptyString price_25_50 0]
             (_products prepopulated) (stdout prepopulated)) /\
  stored (mkWorld [laptop; mouse; mkProduct "KBD003" "Keyboard" EmptyString price_25_50 0]
                  (_products prepopulated) (stdout prepopulated)) "KBD003" = None /\
  (forall k, PyDict.get k (_products prepopulated) <> Some 2%nat).
Proof.
  split; [exact prepopulated_wf|]. split; [reflexivity|]. split; [reflexivity|].
  apply (Product_init_returns_a_new_object prepopulated
           "KBD003" "Keyboard" EmptyString price_25_50 0 2%nat _ prepopulated_wf eq_refl).
Defined.

(** * The singleton *)

Lemma class_reachable_shape c :
  class_reachable c ->
  c = class_initial \/ (_instance c = Some 0%nat /\ length (instances c) = 1%nat).
Proof.
  induction 1 as [|c s _ IH]; [now left|].
  destruct s as [|r d]; simpl.
  - right. destruct IH as [->|[Hi Hl]]; [split; reflexivity|].
    unfold InventoryManager_new. rewrite Hi. simpl. auto.
  - destruct IH as [->|[Hi Hl]].
    + left. unfold class_initial. simpl. f_equal.
    + right. simpl. rewrite length_insert. auto.
Qed.

(** X15: [InventoryManager()] is a singleton.  Wherever the program stands,
    a call returns the one instance; a call made when the instance exists
    creates nothing and leaves the dictionary of the instance, with the
    products in it, as it is; a further call returns the same instance
    again. *)
Theorem InventoryManager_is_a_singleton c :
  class_reachable c ->
  fst (InventoryManager_new c) = 0%nat /\
  length (instances (snd (InventoryManager_new c))) = 1%nat /\
  InventoryManager_new (snd (InventoryManager_new c)) =
    (fst (InventoryManager_new c), snd (InventoryManager_new c)) /\
  (_instance c <> None -> snd (InventoryManager_new c) = c).
Proof.
  intros Hr. destruct (class_reachable_shape c Hr) as [->|[Hi Hl]].
  - repeat split. intros H. now contradiction H.
  - unfold InventoryManager_new. rewrite Hi. simpl. rewrite Hi. auto.
Qed.

Lemma InventoryManager_is_a_singleton_witness :
  class_reachable
    (run_class_step (SetProducts 0%nat [("LPT001", 0%nat)])
       (run_class_step CallNew class_initial)) /\
  InventoryManager_new
    (run_class_step (SetProducts 0%nat [("LPT001", 0%nat)])
       (run_class_step CallNew class_initial)) =
    (0%nat, mkClass (Some 0%nat) [[("LPT001", 0%nat)]]).
Proof.
  assert (Hr : class_reachable
                 (run_class_step (SetProducts 0%nat [("LPT001", 0%nat)])
                    (run_class_step CallNew class_initial))).
  { do 2 apply class_reachable_step. apply class_reachable_initial. }
  split; [exact Hr|].
  destruct (InventoryManager_is_a_singleton _ Hr) as (H0 & _ & _ & Hsame).
  apply injective_projections; [exact H0|].
  apply Hsame. discriminate.
Defined.

(** * Identifiers *)

Lemma hex_value_digit d : (d < 16)%N -> hex_value (hex_digit d) = Some d.
Proof.
  intros Hd.
  assert (H : exists n : nat, (n < 16)%nat /\ d = N.of_nat n).
  { exists (N.to_nat d). split; lia. }
  destruct H as (n & Hn & ->).
  do 16 (destruct n as [|n]; [reflexivity|]). lia.
Qed.

Lemma hex_digit_lower d : In (hex_digit d) (list_ascii_of_string hexdigits).
Proof.
  unfold hex_digit. remember (N.to_nat d) as n eqn:E. clear E.
  do 16 (destruct n as [|n]; [simpl; tauto|]). simpl. tauto.
Qed.

Lemma hex_fixed_length k n : String.length (hex_fixed k n) = k.
Proof. induction k; simpl; congruence. Qed.

Lemma hex_fixed_lower k n :
  Forall (fun a => In a (list_ascii_of_string hexdigits))
         (list_ascii_of_string (hex_fixed k n)).
Proof.
  induction k as [|k IH]; cbn [hex_fixed list_ascii_of_string]; constructor;
    [apply hex_digit_lower | exact IH].
Qed.

(** Decoding the digits gives back the number, up to the width. *)
Lemma unhex_from_hex_fixed k n acc :
  unhex_from acc (hex_fixed k n) = Some (acc * 16 ^ N.of_nat k + n mod 16 ^ N.of_nat k)%N.
Proof.
  revert acc. induction k as [|k IH]; intros acc.
  - simpl. f_equal. rewrite N.mod_1_r. lia.
  - cbn [hex_fixed unhex_from].
    rewrite hex_value_digit by (apply N.mod_lt; lia).
    rewrite IH. f_equal.
    rewrite Nat2N.inj_succ, N.pow_succ_r'.
    rewrite (N.mul_comm 16 (16 ^ N.of_nat k)).
    rewrite (N.Div0.mod_mul_r n (16 ^ N.of_nat k) 16). lia.
Qed.

Lemma hex_fixed_prefix k j n :
  String.substring 0 k (hex_fixed (k + j) n) = hex_fixed k (n / 16 ^ N.of_nat j).
Proof.
  induction k as [|k IH].
  - simpl. now destruct (hex_fixed j n).
  - cbn [Nat.add hex_fixed String.substring]. rewrite IH. f_equal. f_equal.
    rewrite Nat2N.inj_add, N.pow_add_r, N.Div0.div_div.
    now rewrite (N.mul_comm (16 ^ N.of_nat j)).
Qed.

Lemma unique_id_of_eq u : unique_id_of u = hex_fixed 8 (u / 2 ^ 96).
Proof. unfold unique_id_of, uuid_hex. apply (hex_fixed_prefix 8 24 u). Qed.

Lemma hex_fixed_mod k n : hex_fixed k (n mod 16 ^ N.of_nat k) = hex_fixed k n.
Proof.
  assert (H : forall j, (j <= k)%nat ->
            hex_fixed j (n mod 16 ^ N.of_nat k) = hex_fixed j n).
  { induction j as [|j IH]; intros Hj; [reflexivity|].
    cbn [hex_fixed]. rewrite IH by lia. f_equal. f_equal.
    replace (N.of_nat k) with (N.of_nat j + N.of_nat (k - j))%N by lia.
    rewrite N.pow_add_r.
    rewrite (N.Div0.mod_mul_r n (16 ^ N.of_nat j) (16 ^ N.of_nat (k - j))).
    rewrite (N.mul_comm (16 ^ N.of_nat j)), N.div_add by (apply N.pow_nonzero; lia).
    rewrite (N.div_small (n mod 16 ^ N.of_nat j)) by (apply N.mod_lt, N.pow_nonzero; lia).
    rewrite N.add_0_l.
    replace (k - j)%nat with (S (k - S j)) by lia.
    rewrite Nat2N.inj_succ, N.pow_succ_r'.
    rewrite (N.Div0.mod_mul_r (n / 16 ^ N.of_nat j) 16 (16 ^ N.of_nat (k - S j))).
    rewrite N.mul_comm, N.Div0.mod_add. now rewrite N.Div0.mod_mod. }
  apply H. lia.
Qed.

(** X16: the identifier made from a UUID is 8 characters long, each of them
    one of [0123456789abcdef], so it is never empty; read as a hexadecimal
    number it is the top 32 bits of the 128-bit integer of the UUID. *)
Theorem unique_id_is_8_hex_digits u :
  String.length (unique_id_of u) = 8%nat /\
  Forall (fun a => In a (list_ascii_of_string hexdigits))
         (list_ascii_of_string (unique_id_of u)) /\
  unhex (unique_id_of u) = Some ((u / 2 ^ 96) mod 2 ^ 32)%N /\
  str_not (unique_id_of u) = false.
Proof.
  rewrite unique_id_of_eq. split; [apply hex_fixed_length|].
  split; [apply hex_fixed_lower|]. split.
  - unfold unhex. rewrite unhex_from_hex_fixed. reflexivity.
  - reflexivity.
Qed.

(** X17: two UUIDs get the same identifier exactly when their integers
    agree on bits 96 to 127: the other 96 bits of a UUID play no part, so
    different UUIDs can give the same identifier. *)
Theorem unique_id_depends_on_top_32_bits u v :
  unique_id_of u = unique_id_of v <->
  ((u / 2 ^ 96) mod 2 ^ 32 = (v / 2 ^ 96) mod 2 ^ 32)%N.
Proof.
  rewrite !unique_id_of_eq. split.
  - intros H.
    pose proof (unhex_from_hex_fixed 8 (u / 2 ^ 96) 0) as Hu.
    pose proof (unhex_from_hex_fixed 8 (v / 2 ^ 96) 0) as Hv.
    rewrite H, Hv in Hu. injection Hu as Hu. simpl in Hu.
    change (16 ^ N.of_nat 8)%N with (2 ^ 32)%N in Hu. lia.
  - intros H.
    rewrite <- (hex_fixed_mod 8 (u / 2 ^ 96)), <- (hex_fixed_mod 8 (v / 2 ^ 96)).
    change (16 ^ N.of_nat 8)%N with (2 ^ 32)%N. now rewrite H.
Qed.

(** * The command-line layer *)

Lemma triple_cret {A} (P : world -> Prop) (a : A) (Q : A -> world -> Prop) E :
  (forall w, P w -> Q a w) -> triple P (cret a) Q E.
Proof. intros H c Hr HP. simpl. auto. Qed.

Lemma triple_throw {A} (P : world -> Prop) e (Q : A -> world -> Prop) (E : cli_exn -> Prop) :
  E e -> triple P (throw e) Q E.
Proof. intros H c Hr HP. simpl. auto. Qed.

Lemma triple_cbind {A B} P (m : C A) Q (k : A -> C B) R E :
  triple P m Q E -> (forall a, triple (Q a) (k a) R E) -> triple P (cbind m k) R E.
Proof.
  intros Hm Hk c Hr HP. unfold cbind. specialize (Hm c Hr HP).
  destruct (m c) as [[a|e|] c1]; [|exact Hm|exact Hm].
  destruct Hm as (Hr1 & Hlen & HQ). specialize (Hk a c1 Hr1 HQ).
  destruct (k a c1) as [[b|e|] c2]; [| |exact Hk].
  - destruct Hk as (? & ? & ?). repeat split; auto. lia.
  - destruct Hk as (? & ? & ?). repeat split; auto. lia.
Qed.

Lemma triple_weaken {A} (P P' : world -> Prop) (m : C A) (Q Q' : A -> world -> Prop)
    (E E' : cli_exn -> Prop) :
  triple P' m Q' E' ->
  (forall w, P w -> P' w) -> (forall a w, Q' a w -> Q a w) -> (forall e, E' e -> E e) ->
  triple P m Q E.
Proof.
  intros H HP HQ HE c Hr Hp. specialize (H c Hr (HP _ Hp)).
  destruct (m c) as [[a|e|] c1]; [| |exact H]; destruct H as (? & ? & ?); auto.
Qed.

Lemma triple_say P t E : triple P (say t) (fun _ => P) E.
Proof. intros c Hr HP. simpl. auto. Qed.

Lemma triple_input P prompt (E : cli_exn -> Prop) :
  E EOFError -> triple P (input prompt) (fun _ => P) E.
Proof.
  intros HE c Hr HP. unfold input. destruct (stdin c) as [|s rest]; simpl; auto.
Qed.

Lemma triple_generate_unique_id py P E :
  triple P (generate_unique_id py) (fun g w => P w /\ str_not g = false) E.
Proof.
  intros c Hr HP. unfold generate_unique_id. cbn [store stdin].
  repeat split; auto.
Qed.

Lemma triple_float_of py P s (E : cli_exn -> Prop) :
  E (LiteralError s) -> triple P (float_of py s) (fun _ => P) E.
Proof.
  intros HE. unfold float_of. destruct (py_float py s).
  - now apply triple_cret.
  - now apply triple_throw.
Qed.

Lemma triple_int_of py P s (E : cli_exn -> Prop) :
  E (LiteralError s) -> triple P (int_of py s) (fun _ => P) E.
Proof.
  intros HE. unfold int_of. destruct (py_int py s).
  - now apply triple_cret.
  - now apply triple_throw.
Qed.

Lemma triple_on_store {A} P (m : M A) Q (E0 : exn -> Prop) (E : cli_exn -> Prop) :
  store_triple P m Q E0 -> (forall e, E0 e -> E (FromStore e)) ->
  triple P (on_store m) Q E.
Proof.
  intros Hm HE c Hr HP. unfold on_store. specialize (Hm (store c) Hr HP).
  destruct (m (store c)) as [[a|e|] w']; simpl; [| |exact Hm];
    destruct Hm as (? & ?); auto.
Qed.

Lemma triple_try_except {A} P (body : C A) Q E0 h1 h2 E :
  triple P body Q E0 ->
  (forall e, triple (fun _ => True) (h1 e) Q E) ->
  (forall e, triple (fun _ => True) (h2 e) Q E) ->
  triple P (try_except body h1 h2) Q E.
Proof.
  intros Hb H1 H2 c Hr HP. unfold try_except. specialize (Hb c Hr HP).
  destruct (body c) as [[a|e|] c1]; [exact Hb| |exact Hb].
  destruct Hb as (Hr1 & Hlen & _).
  destruct (is_ValueError e).
  - specialize (H1 e c1 Hr1 I).
    destruct (h1 e c1) as [[a|e'|] c2]; [| |exact H1];
      destruct H1 as (? & ? & ?); repeat split; auto; lia.
  - specialize (H2 e c1 Hr1 I).
    destruct (h2 e c1) as [[a|e'|] c2]; [| |exact H2];
      destruct H2 as (? & ? & ?); repeat split; auto; lia.
Qed.

(** ** The calls of the store the handlers make *)

Lemma reachable_allocated w pid l :
  reachable w -> PyDict.get pid (_products w) = Some l ->
  exists p, heap w !! l = Some p.
Proof.
  intros Hr Hd. destruct (inv_stored _ _ _ (reachable_inv _ Hr) Hd) as (p & Hp & _).
  eauto.
Qed.

Lemma store_triple_Product_init P i n d pr q :
  store_triple P (Product_init i n d pr q) (fun r w => allocated r w)
    (fun e => str_not i = false ->
              e = ValueError NameEmpty \/ e = ValueError PriceNotPositive \/
              e = ValueError QuantityNegative).
Proof.
  intros w Hr HP.
  pose proof (reachable_step w (Construct i n d pr q) Hr I) as Hr'.
  simpl in Hr'. rewrite Product_init_eq in *.
  destruct (str_not i); [split; [exact Hr'|discriminate]|].
  destruct (str_not n); [split; auto|].
  destruct (float_le0 pr); [split; auto|].
  destruct (q <? 0); [split; auto|].
  split; [exact Hr'|]. unfold allocated. simpl. rewrite length_app. simpl. lia.
Qed.

Lemma store_triple_add_product product :
  store_triple (allocated product) (add_product product) (fun _ _ => True)
    (fun _ => False).
Proof.
  intros w Hr HP.
  pose proof (reachable_step w (AddProduct product) Hr HP) as Hr'. simpl in Hr'.
  apply lookup_lt_is_Some in HP as [p Hp].
  rewrite (add_product_eq _ _ _ Hp) in *.
  destruct (PyDict.contains _ _); auto.
Qed.

Lemma store_triple_remove_product P pid :
  store_triple P (remove_product pid) (fun _ _ => True) (fun _ => False).
Proof.
  intros w Hr HP.
  pose proof (reachable_step w (RemoveProduct pid) Hr I) as Hr'. simpl in Hr'.
  destruct (PyDict.get pid (_products w)) as [l|] eqn:Hd.
  - destruct (reachable_allocated _ _ _ Hr Hd) as [p Hp].
    rewrite (remove_product_present _ _ _ _ Hd Hp) in *. auto.
  - rewrite (remove_product_absent _ _ Hd) in *. auto.
Qed.

Lemma store_triple_get_product P pid :
  store_triple P (get_product pid)
    (fun r w => forall l, r = Some l -> allocated l w) (fun _ => False).
Proof.
  intros w Hr HP.
  pose proof (reachable_step w (GetProduct pid) Hr I) as Hr'. simpl in Hr'.
  rewrite get_product_eq in *.
  destruct (PyDict.get pid (_products w)) as [l|] eqn:Hd.
  - split; [exact Hr'|]. intros l' [= <-].
    destruct (reachable_allocated _ _ _ Hr Hd) as [p Hp].
    eapply lookup_lt_Some, Hp.
  - split; [exact Hr'|]. discriminate.
Qed.

Lemma store_triple_update_product_details P pid n d pr :
  store_triple P (update_product_details pid n d pr) (fun _ _ => True) (fun _ => False).
Proof.
  intros w Hr HP.
  pose proof (reachable_step w (UpdateProductDetails pid n d pr) Hr I) as Hr'.
  simpl in Hr'.
  destruct (PyDict.get pid (_products w)) as [l|] eqn:Hd.
  - destruct (reachable_allocated _ _ _ Hr Hd) as [p Hp].
    rewrite (update_product_details_present _ _ _ _ _ _ _ Hd Hp) in *.
    destruct (name_rejected n); [auto|]. cbv zeta in *.
    destruct (price_rejected pr); auto.
  - rewrite (update_product_details_absent _ _ _ _ _ Hd) in *. auto.
Qed.

Lemma store_triple_update_stock P pid dq :
  store_triple P (update_stock pid dq) (fun _ _ => True) (fun _ => False).
Proof.
  intros w Hr HP.
  pose proof (reachable_step w (UpdateStock pid dq) Hr I) as Hr'. simpl in Hr'.
  destruct (PyDict.get pid (_products w)) as [l|] eqn:Hd.
  - destruct (reachable_allocated _ _ _ Hr Hd) as [p Hp].
    rewrite (update_stock_present _ _ _ _ _ Hd Hp) in *.
    destruct (quantity p + dq <? 0); [auto|].
    destruct (int_str_ok (Z.abs dq) && int_str_ok (quantity p + dq)); auto.
  - rewrite (update_stock_absent _ _ _ Hd) in *. auto.
Qed.

Lemma store_triple_list_all_products P :
  store_triple P list_all_products (fun _ _ => True)
    (fun e => e = ValueError DigitLimit).
Proof.
  intros w Hr HP.
  pose proof (reachable_step w ListAllProducts Hr I) as Hr'. simpl in Hr'.
  rewrite list_all_products_eq in * by apply (reachable_inv _ Hr).
  unfold listing_outcome. destruct (PyDict.is_empty (_products w)); [auto|].
  destruct (snd (rows_printed (heap w) (_products w))); auto.
Qed.

Lemma Product_str_eq w self p :
  heap w !! self = Some p ->
  Product_str self w =
    (if int_str_ok (quantity p)
     then Return (ProductStr (product_id p) (name p) (price p) (quantity p)
                    (description p))
     else Raise (ValueError DigitLimit), w).
Proof.
  intros H. unfold Product_str.
  rewrite (bind_Return _ _ _ _ _ (getattr_eq w self p product_id H)).
  rewrite (bind_Return _ _ _ _ _ (getattr_eq w self p name H)).
  rewrite (bind_Return _ _ _ _ _ (getattr_eq w self p price H)).
  rewrite (bind_Return _ _ _ _ _ (getattr_eq w self p quantity H)).
  unfold bind at 1. rewrite format_int_eq.
  destruct (int_str_ok (quantity p)); [|reflexivity].
  now rewrite (bind_Return _ _ _ _ _ (getattr_eq w self p description H)).
Qed.

Lemma store_triple_Product_str self :
  store_triple (allocated self) (Product_str self) (fun _ _ => True)
    (fun e => e = ValueError DigitLimit).
Proof.
  intros w Hr HP. apply lookup_lt_is_Some in HP as [p Hp].
  rewrite (Product_str_eq _ _ _ Hp). destruct (int_str_ok (quantity p)); auto.
Qed.

Lemma triple_assume {A} (fact : Prop) (m : C A) Q E :
  (fact -> triple (fun _ => True) m Q E) -> triple (fun _ => fact) m Q E.
Proof. intros H c Hr HP. now apply H. Qed.

Lemma triple_forget {A} (P : world -> Prop) (m : C A) Q E :
  triple (fun _ => True) m Q E -> triple P m Q E.
Proof. intros H c Hr _. now apply H. Qed.

Lemma triple_any {A} (P : world -> Prop) (m : C A) (Q : A -> world -> Prop) E :
  triple P m Q E -> triple P m (fun _ _ => True) E.
Proof. intros H. eapply triple_weaken; [exact H|auto..]. Qed.

Ltac tbind tac := eapply triple_cbind; [tac | intros ?].

(** ** The handlers *)

Section HandlersAreSafe.
Variable py : builtins.

Lemma safe_on_store {A} (m : M A) Q :
  store_triple (fun _ => True) m Q (fun e => e = ValueError DigitLimit) ->
  safe (on_store m).
Proof.
  intros H. apply (triple_any _ _ Q). eapply triple_on_store; [exact H|].
  intros e ->. exact I.
Qed.

Lemma handle_add_product_constructs :
  triple (fun _ => True) (handle_add_product py) (fun _ _ => True)
    construction_exception.
Proof.
  unfold handle_add_product.
  tbind ltac:(apply triple_say).
  tbind ltac:(apply triple_input; exact I).
  eapply triple_cbind with (Q := fun g _ => str_not g = false).
  { destruct (str_not a0) eqn:Etyped.
    - tbind ltac:(apply triple_generate_unique_id).
      tbind ltac:(apply triple_say).
      apply triple_cret. intros w [_ H]. exact H.
    - apply triple_cret. auto. }
  intros prod_id. apply triple_assume. intros Hid.
  tbind ltac:(apply triple_input; exact I).
  tbind ltac:(apply triple_input; exact I).
  tbind ltac:(apply triple_input; exact I).
  tbind ltac:(apply triple_float_of; exact I).
  tbind ltac:(apply triple_input; exact I).
  tbind ltac:(apply triple_int_of; exact I).
  eapply triple_cbind.
  { eapply triple_on_store; [apply store_triple_Product_init|].
    intros e He. destruct (He Hid) as [-> | [-> | ->]]; exact I. }
  intros product.
  eapply triple_cbind.
  { eapply triple_on_store; [apply store_triple_add_product|]. intros e []. }
  intros ?. apply triple_cret. auto.
Qed.

Lemma handle_add_product_safe : safe (handle_add_product py).
Proof.
  eapply triple_weaken; [apply handle_add_product_constructs|auto..].
  intros e He. destruct e as [[[]|]| | |]; simpl in *; auto.
Qed.

Lemma handle_remove_product_safe : safe handle_remove_product.
Proof.
  unfold safe, handle_remove_product, get_product_id_input.
  tbind ltac:(apply triple_say).
  tbind ltac:(apply triple_input; exact I).
  tbind ltac:(eapply triple_on_store; [apply store_triple_remove_product | intros e []]).
  apply triple_cret. auto.
Qed.

Lemma handle_view_product_safe : safe handle_view_product.
Proof.
  unfold safe, handle_view_product, get_product_id_input.
  tbind ltac:(apply triple_say).
  tbind ltac:(apply triple_input; exact I).
  tbind ltac:(eapply triple_on_store; [apply store_triple_get_product | intros e []]).
  destruct a1 as [p|].
  - eapply triple_weaken with (P' := allocated p) (Q' := fun _ _ => True);
      [|intros w H; now apply H|auto|intros e He; exact He].
    eapply triple_cbind.
    { eapply triple_on_store; [apply store_triple_Product_str | intros e ->; exact I]. }
    intros t. apply (triple_any _ _ (fun _ _ => True)). apply triple_say.
  - apply triple_cret. auto.
Qed.

Lemma not_a_positive_integer_safe P s :
  triple P (not_a_positive_integer py s) (fun _ => P) handler_exception.
Proof.
  unfold not_a_positive_integer. destruct (negb (str_isdigit py s)).
  - apply triple_cret. auto.
  - tbind ltac:(apply triple_int_of; exact I). apply triple_cret. auto.
Qed.

Lemma handle_update_product_details_safe : safe (handle_update_product_details py).
Proof.
  unfold safe, handle_update_product_details, get_product_id_input.
  tbind ltac:(apply triple_say).
  tbind ltac:(apply triple_input; exact I).
  tbind ltac:(eapply triple_on_store; [apply store_triple_get_product | intros e []]).
  apply triple_forget.
  destruct (product_not a1); [apply triple_cret; auto|].
  tbind ltac:(apply triple_input; exact I).
  tbind ltac:(apply triple_input; exact I).
  tbind ltac:(apply triple_input; exact I).
  eapply triple_cbind with (Q := fun _ _ => True).
  { destruct (str_not a4).
    - apply triple_cret. auto.
    - tbind ltac:(apply triple_float_of; exact I). apply triple_cret. auto. }
  intros price0.
  tbind ltac:(eapply triple_on_store;
              [apply store_triple_update_product_details | intros e []]).
  apply triple_cret. auto.
Qed.

Lemma handle_stock_in_safe : safe (handle_stock_in py).
Proof.
  unfold safe, handle_stock_in, get_product_id_input.
  tbind ltac:(apply triple_say).
  tbind ltac:(apply triple_input; exact I).
  tbind ltac:(eapply triple_on_store; [apply store_triple_get_product | intros e []]).
  apply triple_forget.
  destruct (product_not a1); [apply triple_cret; auto|].
  tbind ltac:(apply triple_input; exact I).
  tbind ltac:(apply not_a_positive_integer_safe).
  destruct a3; [apply (triple_any _ _ (fun _ _ => True)); apply triple_say|].
  tbind ltac:(apply triple_int_of; exact I).
  tbind ltac:(eapply triple_on_store; [apply store_triple_update_stock | intros e []]).
  apply triple_cret. auto.
Qed.

Lemma handle_stock_out_safe : safe (handle_stock_out py).
Proof.
  unfold safe, handle_stock_out, get_product_id_input.
  tbind ltac:(apply triple_say).
  tbind ltac:(apply triple_input; exact I).
  tbind ltac:(eapply triple_on_store; [apply store_triple_get_product | intros e []]).
  apply triple_forget.
  destruct (product_not a1); [apply triple_cret; auto|].
  tbind ltac:(apply triple_input; exact I).
  tbind ltac:(apply not_a_positive_integer_safe).
  destruct a3; [apply (triple_any _ _ (fun _ _ => True)); apply triple_say|].
  tbind ltac:(apply triple_int_of; exact I).
  tbind ltac:(eapply triple_on_store; [apply store_triple_update_stock | intros e []]).
  apply triple_cret. auto.
Qed.

Lemma handle_list_all_products_safe : safe handle_list_all_products.
Proof.
  unfold handle_list_all_products.
  apply (safe_on_store _ (fun _ _ => True)), store_triple_list_all_products.
Qed.

Lemma handle_exit_safe : safe handle_exit.
Proof.
  unfold safe, handle_exit. tbind ltac:(apply triple_say). apply triple_cret. auto.
Qed.

Lemma display_menu_safe : safe display_menu.
Proof.
  unfold safe, display_menu. do 8 (tbind ltac:(apply triple_say)).
  apply (triple_any _ _ (fun _ _ => True)). apply triple_say.
Qed.

(** What the dispatch table holds: under ["8"] the handler without
    argument, under the other seven keys a handler that takes the
    inventory, and each of them is safe. *)
Lemma menu_actions_safe choice h :
  menu_actions py choice = Some h ->
  if String.eqb choice "8" then exists f, h = NoArgument f /\ safe f
  else exists f, h = WithInventory f /\ safe f.
Proof.
  unfold menu_actions.
  destruct (String.eqb choice "1") eqn:E1.
  { apply String.eqb_eq in E1. subst. intros [= <-]. simpl.
    eauto using handle_add_product_safe. }
  destruct (String.eqb choice "2") eqn:E2.
  { apply String.eqb_eq in E2. subst. intros [= <-]. simpl.
    eauto using handle_remove_product_safe. }
  destruct (String.eqb choice "3") eqn:E3.
  { apply String.eqb_eq in E3. subst. intros [= <-]. simpl.
    eauto using handle_view_product_safe. }
  destruct (String.eqb choice "4") eqn:E4.
  { apply String.eqb_eq in E4. subst. intros [= <-]. simpl.
    eauto using handle_update_product_details_safe. }
  destruct (String.eqb choice "5") eqn:E5.
  { apply String.eqb_eq in E5. subst. intros [= <-]. simpl.
    eauto using handle_stock_in_safe. }
  destruct (String.eqb choice "6") eqn:E6.
  { apply String.eqb_eq in E6. subst. intros [= <-]. simpl.
    eauto using handle_stock_out_safe. }
  destruct (String.eqb choice "7") eqn:E7.
  { apply String.eqb_eq in E7. subst. intros [= <-]. simpl.
    eauto using handle_list_all_products_safe. }
  destruct (String.eqb choice "8") eqn:E8; [|discriminate].
  intros [= <-]. eauto using handle_exit_safe.
Qed.
End HandlersAreSafe.

(** ** The menu loop *)

Lemma display_menu_eq c :
  exists scr, display_menu c =
    (Returned tt, mkConsole (store c) (stdin c) (uuid4_calls c) (screen c ++ scr)).
Proof.
  exists [Text (NL ++ "Inventory Management System"); Text "1. Add New Product";
          Text "2. Remove Product"; Text "3. View Product Details";
          Text "4. Update Product Details"; Text "5. Stock In (Increase Quantity)";
          Text "6. Stock Out (Decrease Quantity)"; Text "7. List All Products";
          Text "8. Exit"].
  unfold display_menu, cbind, say. simpl. now rewrite <- !app_assoc.
Qed.

(** A computation that begins with [input]: if it returns, a line has been
    read. *)
Lemma input_then_spec {A} prompt (k : string -> C A) Q (E : cli_exn -> Prop) :
  E EOFError -> (forall s, triple (fun _ => True) (k s) Q E) ->
  forall c, reachable (store c) ->
    match cbind (input prompt) k c with
    | (Returned a, c') =>
        reachable (store c') /\ (length (stdin c') < length (stdin c))%nat /\
        Q a (store c')
    | (Raised e, c') => reachable (store c') /\ E e
    | (WentWrong, _) => False
    end.
Proof.
  intros HE Hk c Hr. unfold cbind, input.
  destruct (stdin c) as [|s rest] eqn:Hin; [simpl; auto|].
  set (c1 := mkConsole (store c) rest (uuid4_calls c) (screen c ++ [Asked prompt])).
  specialize (Hk s c1 Hr I).
  destruct (k s c1) as [[a|e|] c2]; [| |exact Hk].
  - destruct Hk as (? & Hlen & ?). simpl in Hlen. repeat split; auto. simpl. lia.
  - destruct Hk as (? & _ & ?). auto.
Qed.

Section MenuLoop.
Variable py : builtins.

(** One turn on a reachable store: the store stays reachable; the turn
    returns only after reading a line, and the one exception it lets
    through is the [EOFError] of its own two calls of [input]. *)
Lemma menu_turn_spec c :
  reachable (store c) ->
  match menu_turn py c with
  | (Returned _, c') =>
      reachable (store c') /\ (length (stdin c') < length (stdin c))%nat
  | (Raised e, c') => reachable (store c') /\ e = EOFError
  | (WentWrong, _) => False
  end.
Proof.
  intros Hr. unfold menu_turn. unfold cbind at 1.
  destruct (display_menu_eq c) as [scr ->].
  set (c1 := mkConsole (store c) (stdin c) (uuid4_calls c) (screen c ++ scr)).
  match goal with
  | |- context [cbind (input ?p) ?k c1] =>
      pose proof (input_then_spec p k (fun _ _ => True) (fun e => e = EOFError)
                    eq_refl) as H
  end.
  assert (Hk : forall s,
            triple (fun _ => True)
              ((fun choice : string =>
                  cbind
                    (try_except
                       match menu_actions py choice with
                       | Some h =>
                           if String.eqb choice "8" then call_without_argument h
                           else cbind (call_with_inventory h) (fun _ => cret true)
                       | None =>
                           cbind (say (Text "Invalid choice. Please enter a number between 1 and 8."))
                                 (fun _ => cret true)
                       end
                       (fun ve => cbind (say (InputError ve)) (fun _ => cret true))
                       (fun e => cbind (say (UnexpectedError e)) (fun _ => cret true)))
                    (fun running : bool =>
                       cbind
                         (if running
                          then cbind (input (NL ++ "Press Enter to continue..."))
                                     (fun _ => cret tt)
                          else cret tt)
                         (fun _ => cret running))) s)
              (fun _ _ => True) (fun e => e = EOFError)).
  { intros s. cbv beta.
    eapply triple_cbind with (Q := fun _ _ => True).
    - eapply triple_try_except with (E0 := handler_exception).
      + destruct (menu_actions py s) as [h|] eqn:Hact.
        * pose proof (menu_actions_safe py s h Hact) as Hh.
          destruct (String.eqb s "8").
          -- destruct Hh as (f & -> & Hf). simpl.
             eapply triple_weaken; [exact Hf|auto..].
          -- destruct Hh as (f & -> & Hf). simpl.
             tbind ltac:(exact Hf). apply triple_cret. auto.
        * tbind ltac:(apply triple_say). apply triple_cret. auto.
      + intros e. tbind ltac:(apply triple_say). apply triple_cret. auto.
      + intros e. tbind ltac:(apply triple_say). apply triple_cret. auto.
    - intros running. eapply triple_cbind with (Q := fun _ _ => True).
      + destruct running.
        * tbind ltac:(apply triple_input; reflexivity). apply triple_cret. auto.
        * apply triple_cret. auto.
      + intros ?. apply triple_cret. auto. }
  specialize (H Hk c1 Hr).
  destruct (cbind (input "Enter your choice (1-8): ") _ c1) as [[b|e|] c2];
    [|exact H|exact H].
  destruct H as (? & Hlen & _). simpl in Hlen. auto.
Qed.

(** X18: on a reachable store and with any text on standard input,
    [main_menu] comes to an end: within one more turn than there are lines
    to read it either returns, or raises the [EOFError] of a read at the end
    of the input.  No other exception leaves it, whatever the handlers
    raise and whatever [float], [int] and [isdigit] answer, and the store it
    leaves is again one that calls of the store alone can reach. *)
Theorem main_menu_ends fuel c :
  reachable (store c) -> (length (stdin c) < fuel)%nat ->
  exists r c',
    main_menu py fuel c = Some (r, c') /\
    (r = Returned tt \/ r = Raised EOFError) /\
    reachable (store c').
Proof.
  revert c. induction fuel as [|fuel IH]; intros c Hr Hlen; [lia|].
  cbn [main_menu]. pose proof (menu_turn_spec c Hr) as Ht.
  destruct (menu_turn py c) as [[[|]|e|] c1].
  - destruct Ht as [Hr1 Hlt]. apply IH; [exact Hr1|lia].
  - destruct Ht as [Hr1 _]. exists (Returned tt), c1. auto.
  - destruct Ht as [Hr1 ->]. exists (Raised EOFError), c1. auto.
  - contradiction.
Qed.
End MenuLoop.

Lemma main_menu_ends_witness :
  reachable (store (console_with prepopulated ["5"; "LPT001"; "7"; "9"])) /\
  (length (stdin (console_with prepopulated ["5"; "LPT001"; "7"; "9"])) < 5)%nat /\
  exists r c',
    main_menu example_builtins 5 (console_with prepopulated ["5"; "LPT001"; "7"; "9"])
      = Some (r, c') /\
    (r = Returned tt \/ r = Raised EOFError) /\
    reachable (store c').
Proof.
  assert (Hlen : (length (stdin (console_with prepopulated ["5"; "LPT001"; "7"; "9"])) < 5)%nat)
    by (simpl; lia).
  split; [exact prepopulated_reachable|]. split; [exact Hlen|].
  apply (main_menu_ends example_builtins 5
           (console_with prepopulated ["5"; "LPT001"; "7"; "9"])
           prepopulated_reachable Hlen).
Defined.

Lemma menu_actions_unknown py s :
  ~ In s ["1"; "2"; "3"; "4"; "5"; "6"; "7"; "8"] -> menu_actions py s = None.
Proof.
  intros H. unfold menu_actions.
  repeat match goal with
         | |- context [String.eqb s ?k] =>
             let E := fresh "E" in
             destruct (String.eqb s k) eqn:E;
               [apply String.eqb_eq in E; subst; exfalso; apply H; simpl; tauto
               |clear E]
         end.
  reflexivity.
Qed.

(** X19: when the choice typed is [8], [main_menu] prints the menu and the
    goodbye line and returns at once: the store is as it was, nothing more
    is read, and there is no prompt to press Enter. *)
Theorem main_menu_exit py fuel c rest :
  stdin c = "8" :: rest ->
  main_menu py (S fuel) c =
    Some (Returned tt,
          mkConsole (store c) rest (uuid4_calls c)
            (screen c ++
             [Text (NL ++ "Inventory Management System"); Text "1. Add New Product";
              Text "2. Remove Product"; Text "3. View Product Details";
              Text "4. Update Product Details"; Text "5. Stock In (Increase Quantity)";
              Text "6. Stock Out (Decrease Quantity)"; Text "7. List All Products";
              Text "8. Exit"; Asked "Enter your choice (1-8): ";
              Text "Exiting Inventory Management System. Goodbye!"])).
Proof.
  intros Hin. destruct c as [w i k scr]. simpl in Hin. subst i.
  cbn [main_menu]. unfold menu_turn, cbind, display_menu, say, input, try_except.
  cbn [store stdin uuid4_calls screen]. cbn [menu_actions String.eqb Ascii.eqb Bool.eqb].
  cbn. rewrite <- !app_assoc. reflexivity.
Qed.

Lemma main_menu_exit_witness :
  stdin (console_with prepopulated ["8"; "1"]) = ["8"; "1"] /\
  exists scr,
    main_menu example_builtins 1 (console_with prepopulated ["8"; "1"]) =
      Some (Returned tt, mkConsole prepopulated ["1"] 0 scr).
Proof.
  split; [reflexivity|]. eexists.
  apply (main_menu_exit example_builtins 0 (console_with prepopulated ["8"; "1"]) ["1"]).
  reflexivity.
Defined.

(** X20: a choice that is none of [1] to [8] reaches no handler: the turn
    says that the choice is invalid, leaves the store as it is, and then
    waits for Enter. *)
Theorem unknown_choice_changes_nothing py c s rest :
  stdin c = s :: rest ->
  ~ In s ["1"; "2"; "3"; "4"; "5"; "6"; "7"; "8"] ->
  exists r c',
    menu_turn py c = (r, c') /\
    store c' = store c /\
    In (Text "Invalid choice. Please enter a number between 1 and 8.") (screen c') /\
    (rest = [] -> r = Raised EOFError) /\
    (forall x rest', rest = x :: rest' -> r = Returned true /\ stdin c' = rest').
Proof.
  intros Hin Hs. apply (menu_actions_unknown py) in Hs.
  destruct c as [w i k scr]. simpl in Hin. subst i.
  unfold menu_turn. remember (menu_actions py) as table eqn:Htable.
  unfold cbind, display_menu, say, input, try_except. cbn.
  rewrite Hs. cbn.
  destruct rest as [|x rest']; cbn;
    eexists; eexists; (split; [reflexivity|]); cbn [store stdin screen];
    (split; [reflexivity|]); (split; [|split]); try discriminate.
  - rewrite !in_app_iff. simpl. tauto.
  - reflexivity.
  - rewrite !in_app_iff. simpl. tauto.
  - intros ? ? [= <- <-]. split; reflexivity.
Qed.

Lemma unknown_choice_changes_nothing_witness :
  stdin (console_with prepopulated ["9"; "x"]) = ["9"; "x"] /\
  ~ In "9" ["1"; "2"; "3"; "4"; "5"; "6"; "7"; "8"] /\
  exists r c',
    menu_turn example_builtins (console_with prepopulated ["9"; "x"]) = (r, c') /\
    store c' = prepopulated /\ r = Returned true /\ stdin c' = [].
Proof.
  assert (Hs : ~ In "9" ["1"; "2"; "3"; "4"; "5"; "6"; "7"; "8"]).
  { simpl. intros H. repeat destruct H as [H|H]; try discriminate H. exact H. }
  split; [reflexivity|]. split; [exact Hs|].
  destruct (unknown_choice_changes_nothing example_builtins
              (console_with prepopulated ["9"; "x"]) "9" ["x"] eq_refl Hs)
    as (r & c' & Hrun & Hstore & _ & _ & Hnext).
  exists r, c'. destruct (Hnext "x" [] eq_refl) as [Hr Hrest]. auto.
Defined.

(** ** What the handlers do to the store *)

Lemma on_store_printed {A} (m : M A) w i k scr r w' out :
  m w = (r, w') -> stdout w' = (stdout w ++ out)%list ->
  on_store m (mkConsole w i k scr) =
    (match r with
     | Return a => Returned a
     | Raise e => Raised (FromStore e)
     | Wrong => WentWrong
     end,
     mkConsole w' i k (scr ++ map Shown out)).
Proof.
  intros Hm Hout. unfold on_store. cbn [store stdin uuid4_calls screen].
  rewrite Hm, Hout, drop_app_length. now destruct r.
Qed.

Lemma on_store_silent {A} (m : M A) w i k scr r w' :
  m w = (r, w') -> stdout w' = stdout w ->
  on_store m (mkConsole w i k scr) =
    (match r with
     | Return a => Returned a
     | Raise e => Raised (FromStore e)
     | Wrong => WentWrong
     end,
     mkConsole w' i k scr).
Proof.
  intros Hm Hout. rewrite (on_store_printed m w i k scr r w' []).
  - simpl. now rewrite app_nil_r.
  - exact Hm.
  - now rewrite app_nil_r.
Qed.

(** The handlers that look the product up before they ask for more. *)
Lemma lookup_first_absent t p (body : string -> C unit) w pid rest k scr :
  PyDict.get pid (_products w) = None ->
  cbind (say t) (fun _ =>
    cbind (input p) (fun prod_id =>
      cbind (on_store (get_product prod_id)) (fun found =>
        if product_not found then cret tt else body prod_id)))
    (mkConsole w (pid :: rest) k scr)
  = (Returned tt,
     mkConsole (printed w [ErrNotFound pid]) rest k
               (scr ++ [t; Asked p; Shown (ErrNotFound pid)])).
Proof.
  intros Hd. unfold cbind at 1 2, say, input. cbn [store stdin uuid4_calls screen].
  unfold cbind.
  rewrite (on_store_printed (get_product pid) w rest k _ (Return None)
             (printed w [ErrNotFound pid]) [ErrNotFound pid]).
  - simpl. unfold cret. now rewrite <- !app_assoc.
  - now rewrite get_product_eq, Hd.
  - reflexivity.
Qed.

Lemma lookup_first_present t p (body : string -> C unit) w pid l rest k scr :
  PyDict.get pid (_products w) = Some l ->
  cbind (say t) (fun _ =>
    cbind (input p) (fun prod_id =>
      cbind (on_store (get_product prod_id)) (fun found =>
        if product_not found then cret tt else body prod_id)))
    (mkConsole w (pid :: rest) k scr)
  = body pid (mkConsole w rest k (scr ++ [t; Asked p])).
Proof.
  intros Hd. unfold cbind at 1 2, say, input. cbn [store stdin uuid4_calls screen].
  unfold cbind.
  rewrite (on_store_silent (get_product pid) w rest k _ (Return (Some l)) w).
  - simpl. now rewrite <- !app_assoc.
  - now rewrite get_product_eq, Hd.
  - reflexivity.
Qed.

(** X21: a handler given an id that is not in the store reads that one
    line and no more: update, stock-in and stock-out ask for nothing
    further, and all five print the not-found line of the store and leave
    the dictionary and the objects as they are. *)
Theorem handlers_stop_at_an_absent_id py w pid rest k scr :
  PyDict.contains pid (_products w) = false ->
  let after header prompt :=
    (Returned tt,
     mkConsole (printed w [ErrNotFound pid]) rest k
               (scr ++ [Text header; Asked prompt; Shown (ErrNotFound pid)])) in
  handle_remove_product (mkConsole w (pid :: rest) k scr) =
    after (NL ++ "--- Remove Product ---") "Enter Product ID to remove: " /\
  handle_view_product (mkConsole w (pid :: rest) k scr) =
    after (NL ++ "--- View Product Details ---") "Enter Product ID to view: " /\
  handle_update_product_details py (mkConsole w (pid :: rest) k scr) =
    after (NL ++ "--- Update Product Details ---") "Enter Product ID to update: " /\
  handle_stock_in py (mkConsole w (pid :: rest) k scr) =
    after (NL ++ "--- Stock In ---") "Enter Product ID to stock in: " /\
  handle_stock_out py (mkConsole w (pid :: rest) k scr) =
    after (NL ++ "--- Stock Out ---") "Enter Product ID to stock out: ".
Proof.
  intros Hc after. apply dict_contains_false in Hc. subst after. cbv beta.
  split; [|split; [|split; [|split]]].
  - unfold handle_remove_product, get_product_id_input.
    unfold cbind at 1 2, say, input. cbn [store stdin uuid4_calls screen]. unfold cbind.
    rewrite (on_store_printed (remove_product pid) w rest k _ (Return false)
               (printed w [ErrNotFound pid]) [ErrNotFound pid]).
    + simpl. unfold cret. now rewrite <- !app_assoc.
    + now apply remove_product_absent.
    + reflexivity.
  - unfold handle_view_product, get_product_id_input.
    unfold cbind at 1 2, say, input. cbn [store stdin uuid4_calls screen]. unfold cbind.
    rewrite (on_store_printed (get_product pid) w rest k _ (Return None)
               (printed w [ErrNotFound pid]) [ErrNotFound pid]).
    + simpl. unfold cret. now rewrite <- !app_assoc.
    + now rewrite get_product_eq, Hc.
    + reflexivity.
  - unfold handle_update_product_details, get_product_id_input.
    now apply lookup_first_absent.
  - unfold handle_stock_in, get_product_id_input. now apply lookup_first_absent.
  - unfold handle_stock_out, get_product_id_input. now apply lookup_first_absent.
Qed.

Lemma handlers_stop_at_an_absent_id_witness :
  PyDict.contains "XYZ000" (_products prepopulated) = false /\
  handle_stock_out example_builtins (console_with prepopulated ["XYZ000"; "3"]) =
    (Returned tt,
     mkConsole (printed prepopulated [ErrNotFound "XYZ000"]) ["3"] 0
       [Text (NL ++ "--- Stock Out ---"); Asked "Enter Product ID to stock out: ";
        Shown (ErrNotFound "XYZ000")]).
Proof.
  split; [reflexivity|].
  apply (handlers_stop_at_an_absent_id example_builtins prepopulated "XYZ000" ["3"] 0 []
           eq_refl).
Defined.

Lemma not_a_positive_integer_true py s c :
  str_isdigit py s = false \/ (exists n, py_int py s = Some n /\ n <= 0) ->
  not_a_positive_integer py s c = (Returned true, c).
Proof.
  unfold not_a_positive_integer, cbind, int_of.
  intros [H|(n & Hn & Hle)].
  - now rewrite H.
  - destruct (str_isdigit py s); [|reflexivity]. simpl. rewrite Hn. unfold cret.
    now rewrite (proj2 (Z.leb_le n 0) Hle).
Qed.

Lemma not_a_positive_integer_false py s n c :
  str_isdigit py s = true -> py_int py s = Some n -> 0 < n ->
  not_a_positive_integer py s c = (Returned false, c).
Proof.
  intros Hd Hn Hpos. unfold not_a_positive_integer, cbind, int_of.
  rewrite Hd, Hn. simpl. unfold cret.
  now rewrite (proj2 (Z.leb_gt n 0) Hpos).
Qed.

(** X22: the stock handlers turn away every amount that is not a positive
    integer.  When the text typed is not all digits, or is the text of an
    integer [<= 0], [handle_stock_in] and [handle_stock_out] print their
    error line and do not call the store: it is left as it is. *)
Theorem stock_handlers_reject_non_positive_amounts py w pid l s rest k scr :
  PyDict.get pid (_products w) = Some l ->
  str_isdigit py s = false \/ (exists n, py_int py s = Some n /\ n <= 0) ->
  handle_stock_in py (mkConsole w (pid :: s :: rest) k scr) =
    (Returned tt,
     mkConsole w rest k
       (scr ++ [Text (NL ++ "--- Stock In ---"); Asked "Enter Product ID to stock in: ";
                Asked "Enter quantity to add: ";
                Text "Error: Quantity to add must be a positive integer."])) /\
  handle_stock_out py (mkConsole w (pid :: s :: rest) k scr) =
    (Returned tt,
     mkConsole w rest k
       (scr ++ [Text (NL ++ "--- Stock Out ---"); Asked "Enter Product ID to stock out: ";
                Asked "Enter quantity to remove: ";
                Text "Error: Quantity to remove must be a positive integer."])).
Proof.
  intros Hd Hbad. split.
  - unfold handle_stock_in, get_product_id_input.
    rewrite (lookup_first_present _ _ _ w pid l (s :: rest) k scr Hd).
    unfold cbind at 1, input. cbn [store stdin uuid4_calls screen].
    unfold cbind at 1. rewrite (not_a_positive_integer_true py s _ Hbad).
    unfold say. cbn [store stdin uuid4_calls screen]. now rewrite <- !app_assoc.
  - unfold handle_stock_out, get_product_id_input.
    rewrite (lookup_first_present _ _ _ w pid l (s :: rest) k scr Hd).
    unfold cbind at 1, input. cbn [store stdin uuid4_calls screen].
    unfold cbind at 1. rewrite (not_a_positive_integer_true py s _ Hbad).
    unfold say. cbn [store stdin uuid4_calls screen]. now rewrite <- !app_assoc.
Qed.

Lemma stock_handlers_reject_non_positive_amounts_witness :
  PyDict.get "LPT001" (_products prepopulated) = Some 0%nat /\
  (str_isdigit example_builtins "0" = false \/
   exists n, py_int example_builtins "0" = Some n /\ n <= 0) /\
  store (snd (handle_stock_in example_builtins
                (console_with prepopulated ["LPT001"; "0"]))) = prepopulated /\
  store (snd (handle_stock_out example_builtins
                (console_with prepopulated ["LPT001"; "0"]))) = prepopulated.
Proof.
  assert (Hbad : str_isdigit example_builtins "0" = false \/
                 exists n, py_int example_builtins "0" = Some n /\ n <= 0).
  { right. exists 0. split; [reflexivity|lia]. }
  split; [reflexivity|]. split; [exact Hbad|].
  destruct (stock_handlers_reject_non_positive_amounts example_builtins prepopulated
              "LPT001" 0%nat "0" [] 0 [] eq_refl Hbad) as [Hin Hout].
  unfold console_with. rewrite Hin, Hout. split; reflexivity.
Defined.

(** X23: with an amount that is all digits and the text of an integer
    [n > 0] of at most 4300 digits, on a product whose quantity is not
    negative and has at most 4300 digits: [handle_stock_in] adds [n] to
    the quantity, the other attributes staying as they were, and the
    store reports the move when the new quantity has at most 4300 digits
    and an error, with the new quantity committed all the same, when it
    has more; [handle_stock_out] takes [n] off when the product has that
    many, and otherwise changes nothing and shows the insufficient-stock
    error of the store. *)
Theorem stock_handlers_move_stock py w pid l p s n rest k scr :
  PyDict.get pid (_products w) = Some l -> heap w !! l = Some p ->
  0 <= quantity p -> quantity p < digit_limit ->
  str_isdigit py s = true -> py_int py s = Some n -> 0 < n -> n < digit_limit ->
  let moved := fun q => mkProduct (product_id p) (name p) (description p) (price p) q in
  (quantity p + n < digit_limit ->
   exists scr',
     handle_stock_in py (mkConsole w (pid :: s :: rest) k scr) =
       (Returned tt,
        mkConsole (printed (store_obj w l (moved (quantity p + n)))
                           [StockMoved n (name p) pid true (quantity p + n)])
                  rest k scr')) /\
  (digit_limit <= quantity p + n ->
   exists scr',
     handle_stock_in py (mkConsole w (pid :: s :: rest) k scr) =
       (Returned tt,
        mkConsole (printed (store_obj w l (moved (quantity p + n)))
                           [ErrUpdatingStock DigitLimit])
                  rest k scr')) /\
  (n <= quantity p ->
   exists scr',
     handle_stock_out py (mkConsole w (pid :: s :: rest) k scr) =
       (Returned tt,
        mkConsole (printed (store_obj w l (moved (quantity p - n)))
                           [StockMoved n (name p) pid false (quantity p - n)])
                  rest k scr')) /\
  (quantity p < n ->
   exists scr',
     handle_stock_out py (mkConsole w (pid :: s :: rest) k scr) =
       (Returned tt,
        mkConsole (printed w [ErrUpdatingStock (CannotStockOut n (quantity p) (name p))])
                  rest k scr')).
Proof.
  intros Hd Hp Hq Hqlim Hdig Hint Hpos Hnlim moved.
  assert (Hstep : forall (f : Z -> Z) (header prompt : string) scr0 b w' out,
            update_stock pid (f n) w = (Return b, w') ->
            stdout w' = (stdout w ++ out)%list ->
            cbind (input prompt) (fun amount_str =>
              cbind (not_a_positive_integer py amount_str) (fun bad : bool =>
                if bad then say (Text header)
                else cbind (int_of py amount_str) (fun amount =>
                       cbind (on_store (update_stock pid (f amount)))
                             (fun _ => cret tt))))
              (mkConsole w (s :: rest) k scr0)
            = (Returned tt,
               mkConsole w' rest k ((scr0 ++ [Asked prompt]) ++ map Shown out)%list)).
  { intros f header prompt scr0 b w' out Hrun Hout.
    unfold cbind at 1, input. cbn [store stdin uuid4_calls screen].
    unfold cbind at 1. rewrite (not_a_positive_integer_false py s n _ Hdig Hint Hpos).
    unfold cbind at 1, int_of. rewrite Hint. unfold cret at 1.
    unfold cbind. now rewrite (on_store_printed _ _ _ _ _ _ _ _ Hrun Hout). }
  assert (Hn : int_str_ok n = true) by (apply int_str_ok_spec; lia).
  assert (Hqok : int_str_ok (quantity p) = true) by (apply int_str_ok_spec; lia).
  split; [|split; [|split]].
  - intros Hlim. unfold handle_stock_in, get_product_id_input.
    rewrite (lookup_first_present _ _ _ w pid l (s :: rest) k scr Hd).
    eexists. eapply (Hstep (fun a => a)); [|reflexivity].
    rewrite (update_stock_in _ _ _ _ _ Hd Hp Hq Hpos Hlim).
    now replace (Z.abs n) with n by lia.
  - intros Hlim. unfold handle_stock_in, get_product_id_input.
    rewrite (lookup_first_present _ _ _ w pid l (s :: rest) k scr Hd).
    eexists. eapply (Hstep (fun a => a)); [|reflexivity].
    rewrite (update_stock_in_beyond_limit _ _ _ _ _ Hd Hp Hq Hpos Hlim). reflexivity.
  - intros Hle. unfold handle_stock_out, get_product_id_input.
    rewrite (lookup_first_present _ _ _ w pid l (s :: rest) k scr Hd).
    eexists. eapply (Hstep Z.opp); [|reflexivity].
    rewrite (update_stock_present _ _ _ _ _ Hd Hp).
    assert (E : (quantity p + - n <? 0) = false) by lia. rewrite E.
    assert (E' : (- n >? 0) = false) by lia. rewrite E'.
    replace (Z.abs (- n)) with n by lia.
    replace (quantity p + - n) with (quantity p - n) by lia.
    assert (Hok : int_str_ok (quantity p - n) = true) by (apply int_str_ok_spec; lia).
    rewrite Hn, Hok. reflexivity.
  - intros Hlt. unfold handle_stock_out, get_product_id_input.
    rewrite (lookup_first_present _ _ _ w pid l (s :: rest) k scr Hd).
    eexists. eapply (Hstep Z.opp); [|reflexivity].
    rewrite (update_stock_present _ _ _ _ _ Hd Hp).
    assert (E : (quantity p + - n <? 0) = true) by lia. rewrite E.
    unfold stock_out_error. replace (Z.abs (- n)) with n by lia.
    rewrite Hn, Hqok. reflexivity.
Qed.

Lemma stock_handlers_move_stock_witness :
  PyDict.get "LPT001" (_products prepopulated) = Some 0%nat /\
  heap prepopulated !! 0%nat = Some laptop /\
  0 <= quantity laptop /\ quantity laptop < digit_limit /\
  str_isdigit example_builtins "4" = true /\
  py_int example_builtins "4" = Some 4 /\ 0 < 4 /\ 4 < digit_limit /\
  (exists scr',
     handle_stock_in example_builtins (console_with prepopulated ["LPT001"; "4"]) =
       (Returned tt,
        mkConsole (printed (store_obj prepopulated 0%nat
                              (mkProduct "LPT001" "Laptop X1"
                                 "High-performance laptop" price_1200_99 14))
                           [StockMoved 4 "Laptop X1" "LPT001" true 14])
                  [] 0 scr')) /\
  (exists scr',
     handle_stock_out example_builtins (console_with prepopulated ["LPT001"; "4"]) =
       (Returned tt,
        mkConsole (printed (store_obj prepopulated 0%nat
                              (mkProduct "LPT001" "Laptop X1"
                                 "High-performance laptop" price_1200_99 6))
                           [StockMoved 4 "Laptop X1" "LPT001" false 6])
                  [] 0 scr')).
Proof.
  assert (Hq : 0 <= quantity laptop) by (simpl; lia).
  assert (Hpos : 0 < 4) by lia.
  assert (L4 : Z.abs 4 < digit_limit) by (apply int_str_ok_spec; reflexivity).
  assert (L10 : Z.abs 10 < digit_limit) by (apply int_str_ok_spec; reflexivity).
  assert (L14 : Z.abs 14 < digit_limit) by (apply int_str_ok_spec; reflexivity).
  assert (Hqlim : quantity laptop < digit_limit) by exact L10.
  assert (Hnlim : 4 < digit_limit) by exact L4.
  destruct (stock_handlers_move_stock example_builtins prepopulated "LPT001" 0%nat laptop
              "4" 4 [] 0 [] eq_refl eq_refl Hq Hqlim eq_refl eq_refl Hpos Hnlim)
    as (Hin & _ & Hout & _).
  split; [reflexivity|]. split; [reflexivity|]. split; [exact Hq|].
  split; [exact Hqlim|]. split; [reflexivity|]. split; [reflexivity|].
  split; [exact Hpos|]. split; [exact Hnlim|].
  split; [apply Hin; exact L14|]. apply Hout. change (quantity laptop) with 10. lia.
Defined.


Lemma name_rejected_or_None s : name_rejected (or_None s) = false.
Proof. unfold or_None. destruct (str_not s) eqn:E; simpl; [reflexivity|exact E]. Qed.

(** X24: in [handle_update_product_details] a blank line means "keep".
    With the price line blank the update always succeeds: the name is the
    line typed for it unless that line is blank, and so is the
    description, and price and quantity stay; so this handler can neither
    empty a description nor run into the empty-name error.  A price text
    that [float] rejects raises before the store is called, and nothing
    has changed. *)
Theorem menu_update_keeps_blank_fields py w pid l p n d rest k scr :
  PyDict.get pid (_products w) = Some l -> heap w !! l = Some p ->
  (exists scr',
     handle_update_product_details py
       (mkConsole w (pid :: n :: d :: EmptyString :: rest) k scr) =
       (Returned tt,
        mkConsole
          (printed (store_obj w l
                      (mkProduct (product_id p)
                                 (if str_not n then name p else n)
                                 (if str_not d then description p else d)
                                 (price p) (quantity p)))
                   [DetailsUpdated pid])
          rest k scr')) /\
  (forall x, x <> EmptyString -> py_float py x = None ->
     exists scr',
       handle_update_product_details py (mkConsole w (pid :: n :: d :: x :: rest) k scr) =
         (Raised (LiteralError x), mkConsole w rest k scr')).
Proof.
  intros Hd Hp. split.
  - unfold handle_update_product_details, get_product_id_input.
    rewrite (lookup_first_present _ _ _ w pid l (n :: d :: EmptyString :: rest) k scr Hd).
    unfold cbind at 1 2 3, input. cbn [store stdin uuid4_calls screen].
    cbn [str_not]. unfold cbind at 1. unfold cret at 1. unfold cbind.
    assert (Hrun : update_product_details pid (or_None n) (or_None d) None w =
              (Return true,
               printed (store_obj w l
                          (mkProduct (product_id p)
                                     (if str_not n then name p else n)
                                     (if str_not d then description p else d)
                                     (price p) (quantity p)))
                       [DetailsUpdated pid])).
    { rewrite (update_product_details_present _ _ _ _ _ _ _ Hd Hp),
        name_rejected_or_None.
      cbv zeta. cbn [price_rejected assign_opt]. do 3 f_equal.
      unfold or_None. clear. destruct p, (str_not n), (str_not d); reflexivity. }
    rewrite (on_store_printed _ _ _ _ _ _ _ [DetailsUpdated pid] Hrun eq_refl).
    eexists. reflexivity.
  - intros x Hx Hfloat. apply str_not_false in Hx.
    unfold handle_update_product_details, get_product_id_input.
    rewrite (lookup_first_present _ _ _ w pid l (n :: d :: x :: rest) k scr Hd).
    unfold cbind at 1 2 3, input. cbn [store stdin uuid4_calls screen].
    rewrite Hx. unfold cbind, float_of. rewrite Hfloat. unfold throw.
    eexists. reflexivity.
Qed.

Lemma menu_update_keeps_blank_fields_witness :
  PyDict.get "MSE002" (_products prepopulated) = Some 1%nat /\
  heap prepopulated !! 1%nat = Some mouse /\
  exists scr',
    handle_update_product_details example_builtins
      (console_with prepopulated ["MSE002"; "Silent Mouse"; EmptyString; EmptyString]) =
      (Returned tt,
       mkConsole
         (printed (store_obj prepopulated 1%nat
                     (mkProduct "MSE002" "Silent Mouse" "Ergonomic wireless mouse"
                                price_25_50 50))
                  [DetailsUpdated "MSE002"])
         [] 0 scr').
Proof.
  split; [reflexivity|]. split; [reflexivity|].
  apply (menu_update_keeps_blank_fields example_builtins prepopulated "MSE002" 1%nat mouse
           "Silent Mouse" EmptyString [] 0 [] eq_refl eq_refl).
Defined.

(** X25: on a reachable store, [handle_add_product] leaves a reachable
    store and lets through only the end of input, a text that [float] or
    [int] rejects, and the name, price and quantity errors of
    [Product.__init__].  The empty-id error is not among them: a blank id
    is replaced by a generated one, which is never empty. *)
Theorem handle_add_product_exceptions py c :
  reachable (store c) ->
  reachable (store (snd (handle_add_product py c))) /\
  fst (handle_add_product py c) <> WentWrong /\
  fst (handle_add_product py c) <> Raised (FromStore (ValueError IdEmpty)) /\
  forall e, fst (handle_add_product py c) = Raised e ->
    e = EOFError \/ (exists s, e = LiteralError s) \/
    e = FromStore (ValueError NameEmpty) \/
    e = FromStore (ValueError PriceNotPositive) \/
    e = FromStore (ValueError QuantityNegative).
Proof.
  intros Hr. pose proof (handle_add_product_constructs py c Hr I) as H.
  destruct (handle_add_product py c) as [[a|e|] c1]; simpl.
  - destruct H as (H1 & _ & _). repeat split; auto; discriminate.
  - destruct H as (H1 & _ & He). split; [exact H1|]. split; [discriminate|]. split.
    + intros [= ->]. exact He.
    + intros e' [= <-].
      destruct e as [[[]|]| | |]; simpl in He; try contradiction; eauto 10.
  - contradiction.
Qed.

Lemma handle_add_product_exceptions_witness :
  reachable (store (console_with prepopulated [EmptyString; EmptyString; "x"; "25.5"; "1"])) /\
  fst (handle_add_product example_builtins
         (console_with prepopulated [EmptyString; EmptyString; "x"; "25.5"; "1"])) =
    Raised (FromStore (ValueError NameEmpty)) /\
  reachable (store (snd (handle_add_product example_builtins
         (console_with prepopulated [EmptyString; EmptyString; "x"; "25.5"; "1"])))).
Proof.
  split; [exact prepopulated_reachable|]. split; [reflexivity|].
  apply (handle_add_product_exceptions example_builtins
           (console_with prepopulated [EmptyString; EmptyString; "x"; "25.5"; "1"])
           prepopulated_reachable).
Defined.


